(** * mldata.dataset: a shallow embedding of [Dataset] and its properties

    The Python class [Dataset] (src/mldata/dataset.py) is a client-side view
    of a remote, paginated collection of elements.  Every method talks to
    collaborators that live outside the class: the request layer inherited
    from [APIWrapper] ([_get_json], [_post_json], ...), the local file system
    ([os], [open]), the [csv] and [json] libraries, and [Element].

    The embedding is a state-and-exception monad over a [State] made of the
    mutable [Dataset] object ([self]) and a [World] holding the remote side,
    the file system and the trace of every call that left the class. *)

From Stdlib Require Import ZArith Lia Ascii.
From Stdlib Require Strings.Byte.
Import Corelib.Init.Byte.
From stdpp Require Import gmap strings list.

Local Open Scope string_scope.
Local Open Scope Z_scope.
Local Open Scope list_scope.

(** ** Values *)

#[global] Instance byte_eq_dec : EqDecision byte := Strings.Byte.byte_eq_dec.

(** Python values stored in the dataset dictionary and in JSON records. *)
Inductive pyval :=
| VNone
| VStr (s : string)
| VInt (z : Z)
| VList (l : list string).

#[global] Instance pyval_eq_dec : EqDecision pyval.
Proof. solve_decision. Defined.

(** The exceptions (all subclasses of Python's [Exception]) that the class
    raises or that its collaborators may raise. *)
Inductive exn :=
| KeyError (key : pyval)
| IndexError
| Exception (msg : string)
| FileExistsError (path : string)
| FileNotFoundError (path : string)
| IsADirectoryError (path : string)
| NotADirectoryError (path : string)
| TransportError (msg : string).

#[global] Instance exn_eq_dec : EqDecision exn.
Proof. solve_decision. Defined.

(** Outcome of a computation: a value, a raised exception, or [Diverge] when
    the fuel given to a loop ran out. *)
Inductive Res (A : Type) :=
| Ok (a : A)
| Raise (e : exn)
| Diverge.
Arguments Ok {A} a.
Arguments Raise {A} e.
Arguments Diverge {A}.

(** What a collaborator answers: a value or an exception. *)
Inductive Reply (A : Type) :=
| Success (a : A)
| Failure (e : exn).
Arguments Success {A} a.
Arguments Failure {A} e.

(** ** Strings as Python uses them here *)

(** ["/" in s], [s.startswith(".")] and the like. *)
Fixpoint contains_char (c : ascii) (s : string) : bool :=
  match s with
  | EmptyString => false
  | String a s' => if Ascii.eqb a c then true else contains_char c s'
  end.

Definition startswith_char (c : ascii) (s : string) : bool :=
  match s with
  | EmptyString => false
  | String a _ => Ascii.eqb a c
  end.

(** [s[1:]] *)
Definition drop_first (s : string) : string :=
  match s with
  | EmptyString => EmptyString
  | String _ s' => s'
  end.

(** [sep.join(l)] *)
Fixpoint join (sep : string) (l : list string) : string :=
  match l with
  | [] => ""
  | [x] => x
  | x :: l' => x +:+ sep +:+ join sep l'
  end.

Fixpoint last_char (s : string) : option ascii :=
  match s with
  | EmptyString => None
  | String a EmptyString => Some a
  | String _ s' => last_char s'
  end.

(** ** Collaborators *)

(** [mldata.interpreters.interpreter.Interpreter]: a byte transform. *)
Record Interpreter := {
  cipher : list byte -> list byte;
  decipher : list byte -> list byte
}.

(** The token object; only [get_prefix()] is used by the class. *)
Record Token := { get_prefix : string }.

(** A raw element summary, as the remote side lists it. *)
Record Summary := {
  s_id : string;
  s_title : string;
  s_description : string;
  s_http_ref : string;
  s_tags : list string
}.

#[global] Instance Summary_eq_dec : EqDecision Summary.
Proof. solve_decision. Defined.

(** Modelled from the spec: [Element] (mldata/element.py is not part of the
    sources at hand).  Spec section 3: an element has an identifier, a title,
    a description, tags and an http_ref, and carries the interpreter used to
    encode and decode its content. *)
Record Element := {
  e_id : string;
  e_title : string;
  e_description : string;
  e_http_ref : string;
  e_tags : list string;
  e_interpreter : option Interpreter
}.

(** The JSON body of the element insertion call. *)
Record ElementBody := {
  b_title : string;
  b_description : string;
  b_tags : list string;
  b_http_ref : string
}.

#[global] Instance ElementBody_eq_dec : EqDecision ElementBody.
Proof. solve_decision. Defined.

(** A request, by endpoint template and the values formatted into it.  The
    remote side is keyed on these, which is at least as fine as the formatted
    URL string. *)
Inductive Request :=
| GET_dataset (prefix : pyval)                      (* datasets/{} *)
| PATCH_dataset (prefix : pyval) (body : gmap string pyval)  (* /datasets/{} *)
| GET_elements (prefix : pyval) (page : option Z)   (* datasets/{}/elements *)
| POST_element (prefix : pyval) (body : ElementBody)
| GET_element (prefix key : pyval)                  (* datasets/{}/elements/{} *)
| DELETE_element (prefix key : pyval)
| GET_content (id : string)
| PUT_content (id : string) (data : list byte).

(** Modelled from the spec: the remote side behind the request methods of
    [APIWrapper] (mldata/wrapper/api_wrapper.py is not part of the sources at
    hand).  Spec section 6 lists the endpoints; each one answers with a
    decoded value or fails.  The last two fields are the content endpoints
    used by [Element]. *)
Record Remote := {
  dataset_record : pyval -> Reply (gmap string pyval);
  patch_reply : pyval -> gmap string pyval -> Reply unit;
  elements_page : pyval -> option Z -> Reply (list Summary);
  insert_reply : pyval -> ElementBody -> Reply pyval;
  element_record : pyval -> pyval -> Reply Summary;
  delete_reply : pyval -> pyval -> Reply unit;
  content_bytes : string -> Reply (list byte);
  put_reply : string -> list byte -> Reply unit
}.

(** Everything observable from outside the class, in call order. *)
Inductive Event :=
| EvRequest (r : Request)
| EvYield (s : Summary)
| EvCipher (input : list byte)
| EvExists (path : string)
| EvRead (path : string)
| EvMkdir (path : string)
| EvWrite (path : string) (data : list byte).

Inductive Node :=
| Dir
| File (data : list byte).

#[global] Instance Node_eq_dec : EqDecision Node.
Proof. solve_decision. Defined.

Record World := {
  remote : Remote;
  fs : gmap string Node;
  trace : list Event
}.

(** ** The Dataset object *)

Record Dataset := {
  data : gmap string pyval;
  binary_interpreter : option Interpreter;
  elements_count : pyval;
  comments_count : pyval;
  token : option Token;
  token_info : pyval
}.

Record State := {
  self : Dataset;
  world : World
}.

(** ** The monad *)

Definition M (A : Type) : Type := State -> State * Res A.

Definition ret {A} (a : A) : M A := fun st => (st, Ok a).

Definition bind {A B} (m : M A) (k : A -> M B) : M B :=
  fun st =>
    match m st with
    | (st', Ok a) => k a st'
    | (st', Raise e) => (st', Raise e)
    | (st', Diverge) => (st', Diverge)
    end.

Definition raise {A} (e : exn) : M A := fun st => (st, Raise e).

Definition diverge {A} : M A := fun st => (st, Diverge).

(** [try: m except Exception as ex: handler ex] *)
Definition try_except {A} (m : M A) (handler : exn -> M A) : M A :=
  fun st =>
    match m st with
    | (st', Raise e) => handler e st'
    | r => r
    end.

Declare Scope py_scope.
Delimit Scope py_scope with py.
Notation "x <- m ;; k" := (bind m (fun x => k))
  (at level 100, m at next level, right associativity) : py_scope.
Notation "m ;;; k" := (bind m (fun _ => k))
  (at level 100, right associativity) : py_scope.
Local Open Scope py_scope.

Definition get_self : M Dataset := fun st => (st, Ok (self st)).

Definition set_self (d : Dataset) : M unit :=
  fun st => ({| self := d; world := world st |}, Ok tt).

Definition get_world : M World := fun st => (st, Ok (world st)).

Definition set_world (w : World) : M unit :=
  fun st => ({| self := self st; world := w |}, Ok tt).

Definition log (ev : Event) : M unit :=
  w <- get_world ;;
  set_world {| remote := remote w; fs := fs w; trace := trace w ++ [ev] |}.

Definition reply {A} (r : Reply A) : M A :=
  match r with
  | Success a => ret a
  | Failure e => raise e
  end.

(** Modelled from the spec: [_get_json], [_post_json], [_patch_json] and
    [_delete_json] are inherited from [APIWrapper], which is not part of the
    sources at hand.  Spec section 5: every call is synchronous and returns
    once the transport call has completed or failed.  The call is recorded,
    then answered by the remote side. *)
Definition request {A} (r : Request) (answer : Remote -> Reply A) : M A :=
  log (EvRequest r) ;;;
  w <- get_world ;;
  reply (answer (remote w)).

(** ** The file system, as [os] and [open] see it

    The map holds the entries that exist, under the path they were created
    with; [os.mkdir] leaves out the trailing separators of its argument, as
    the system call does. *)

(** [posixpath.join(a, b)] *)
Definition os_path_join (a b : string) : string :=
  if startswith_char "/" b then b
  else match last_char a with
       | None => b
       | Some c => if Ascii.eqb c "/" then a +:+ b else a +:+ "/" +:+ b
       end.

(** [p[:p.rfind("/") + 1]] *)
Fixpoint upto_last_slash (p : string) : string :=
  match p with
  | EmptyString => ""
  | String c p' =>
      if contains_char "/" p' then String c (upto_last_slash p')
      else if Ascii.eqb c "/" then "/" else ""
  end.

Fixpoint all_slashes (s : string) : bool :=
  match s with
  | EmptyString => true
  | String c s' => Ascii.eqb c "/" && all_slashes s'
  end.

(** [s.rstrip("/")] *)
Fixpoint rstrip_slash (s : string) : string :=
  match s with
  | EmptyString => ""
  | String c s' =>
      match rstrip_slash s' with
      | EmptyString => if Ascii.eqb c "/" then "" else String c ""
      | r => String c r
      end
  end.

(** [posixpath.dirname(p)] *)
Definition os_path_dirname (p : string) : string :=
  let head := upto_last_slash p in
  if all_slashes head then head else rstrip_slash head.

(** The directory an entry is created in exists: the working directory
    (empty dirname), the root, or a directory of the map. *)
Definition parent_exists (files : gmap string Node) (p : string) : bool :=
  let d := os_path_dirname p in
  if all_slashes d then true
  else match files !! d with
       | Some Dir => true
       | _ => false
       end.

(** The directories a path goes through, outermost first: what stands
    before each separator, [seen] being the part already read. *)
Fixpoint ancestors_from (seen rest : string) : list string :=
  match rest with
  | EmptyString => []
  | String c rest' =>
      (if Ascii.eqb c "/"
       then match last_char seen with
            | Some d => if Ascii.eqb d "/" then [] else [seen]
            | None => []
            end
       else [])
      ++ ancestors_from (seen +:+ String c "") rest'
  end.

Definition ancestors (p : string) : list string := ancestors_from "" p.

(** One of the directories the path goes through is a regular file. *)
Definition blocked_by_file (files : gmap string Node) (p : string) : bool :=
  existsb (fun a => match files !! a with
                    | Some (File _) => true
                    | _ => false
                    end)
          (ancestors p).

Definition set_fs (files : gmap string Node) : M unit :=
  w <- get_world ;;
  set_world {| remote := remote w; fs := files; trace := trace w |}.

(** [os.path.exists(p)] *)
Definition os_path_exists (p : string) : M bool :=
  log (EvExists p) ;;;
  w <- get_world ;;
  ret (bool_decide (is_Some (fs w !! p))).

(** [os.mkdir(p)]: the empty path names nothing, the root is there, and
    otherwise the entry is created under the path without its trailing
    separators, provided its parent is a directory. *)
Definition os_mkdir (p : string) : M unit :=
  log (EvMkdir p) ;;;
  w <- get_world ;;
  if String.eqb p "" then raise (FileNotFoundError p)
  else if all_slashes p then raise (FileExistsError p)
  else
    let k := rstrip_slash p in
    match fs w !! k with
    | Some _ => raise (FileExistsError p)
    | None =>
        if parent_exists (fs w) k then set_fs (<[k := Dir]> (fs w))
        else if blocked_by_file (fs w) k then raise (NotADirectoryError p)
        else raise (FileNotFoundError p)
    end.

(** [with open(p, "rb") as f: f.read()] *)
Definition read_file (p : string) : M (list byte) :=
  log (EvRead p) ;;;
  w <- get_world ;;
  match fs w !! p with
  | Some (File d) => ret d
  | Some Dir => raise (IsADirectoryError p)
  | None => raise (FileNotFoundError p)
  end.

(** [open(p, "w")] or [open(p, "wb")]: the file is created or truncated. *)
Definition open_for_writing (p : string) : M unit :=
  w <- get_world ;;
  match fs w !! p with
  | Some Dir => raise (IsADirectoryError p)
  | Some (File _) => set_fs (<[p := File []]> (fs w))
  | None =>
      if parent_exists (fs w) p then set_fs (<[p := File []]> (fs w))
      else if blocked_by_file (fs w) p then raise (NotADirectoryError p)
      else raise (FileNotFoundError p)
  end.

(** Everything written to an open file, landing on disk when the [with]
    block closes it. *)
Definition write_file (p : string) (content : list byte) : M unit :=
  open_for_writing p ;;;
  log (EvWrite p content) ;;;
  w <- get_world ;;
  set_fs (<[p := File content]> (fs w)).

(** ** Dictionaries *)

(** [d[k]] on a dictionary with string keys. *)
Definition dict_get (d : gmap string pyval) (k : string) : M pyval :=
  match d !! k with
  | Some v => ret v
  | None => raise (KeyError (VStr k))
  end.

(** [{k: d[k] for k in ks}] *)
Fixpoint dict_pick (d : gmap string pyval) (ks : list string)
  : M (gmap string pyval) :=
  match ks with
  | [] => ret ∅
  | k :: ks' =>
      v <- dict_get d k ;;
      rest <- dict_pick d ks' ;;
      ret (<[k := v]> rest)
  end.

(** ** Dataset: construction and field access *)

Definition with_data (d : gmap string pyval) (s : Dataset) : Dataset :=
  {| data := d;
     binary_interpreter := binary_interpreter s;
     elements_count := elements_count s;
     comments_count := comments_count s;
     token := token s;
     token_info := token_info s |}.

Definition with_elements_count (n : pyval) (s : Dataset) : Dataset :=
  {| data := data s;
     binary_interpreter := binary_interpreter s;
     elements_count := n;
     comments_count := comments_count s;
     token := token s;
     token_info := token_info s |}.

Definition with_comments_count (n : pyval) (s : Dataset) : Dataset :=
  {| data := data s;
     binary_interpreter := binary_interpreter s;
     elements_count := elements_count s;
     comments_count := n;
     token := token s;
     token_info := token_info s |}.

Definition with_binary_interpreter (i : option Interpreter) (s : Dataset)
  : Dataset :=
  {| data := data s;
     binary_interpreter := i;
     elements_count := elements_count s;
     comments_count := comments_count s;
     token := token s;
     token_info := token_info s |}.

(** [Dataset.__init__].  The constructor of [APIWrapper] is not part of the
    sources at hand; it receives the token and its info, which the class
    reads back as [self.token] and [self.token_info]. *)
Definition Dataset_init (url_prefix : string)
    (title description reference tags : pyval) (tok : option Token)
    (interp : option Interpreter) (tok_info : pyval) : Dataset :=
  let d : gmap string pyval := ∅ in
  let d :=
    if contains_char "/" url_prefix
    then <["url_prefix" := VStr url_prefix]> d
    else match tok with
         | Some t =>
             <["url_prefix" := VStr (get_prefix t +:+ "/" +:+ url_prefix)]> d
         | None => d
         end in
  let d := <["title" := title]> d in
  let d := <["description" := description]> d in
  let d := <["tags" := tags]> d in
  let d := <["reference" := reference]> d in
  {| data := d;
     binary_interpreter := interp;
     elements_count := VInt 0;
     comments_count := VInt 0;
     token := tok;
     token_info := tok_info |}.

Definition set_binary_interpreter (i : option Interpreter) : M unit :=
  s <- get_self ;; set_self (with_binary_interpreter i s).

Definition get_field (k : string) : M pyval :=
  s <- get_self ;; dict_get (data s) k.

Definition set_field (k : string) (v : pyval) : M unit :=
  s <- get_self ;; set_self (with_data (<[k := v]> (data s)) s).

Definition get_url_prefix : M pyval := get_field "url_prefix".
Definition get_description : M pyval := get_field "description".
Definition get_title : M pyval := get_field "title".
Definition get_tags : M pyval := get_field "tags".
Definition get_reference : M pyval := get_field "reference".

Definition set_description (v : pyval) : M unit := set_field "description" v.
Definition set_title (v : pyval) : M unit := set_field "title" v.
Definition set_tags (v : pyval) : M unit := set_field "tags" v.
Definition set_reference (v : pyval) : M unit := set_field "reference" v.

(** [update]: every entry but the identifier is pushed. *)
Definition update : M unit :=
  p <- get_url_prefix ;;
  s <- get_self ;;
  let body := delete "url_prefix" (data s) in
  request (PATCH_dataset p body) (fun r => patch_reply r p body).

(** [refresh] *)
Definition refresh : M unit :=
  p <- get_url_prefix ;;
  dataset_data <- request (GET_dataset p) (fun r => dataset_record r p) ;;
  ec <- dict_get dataset_data "elements_count" ;;
  s <- get_self ;;
  set_self (with_elements_count ec s) ;;;
  cc <- dict_get dataset_data "comments_count" ;;
  s <- get_self ;;
  set_self (with_comments_count cc s) ;;;
  d <- dict_pick dataset_data
         ["url_prefix"; "title"; "description"; "reference"; "tags"] ;;
  s <- get_self ;;
  set_self (with_data d s).

(** [__len__] *)
Definition len : M pyval :=
  s <- get_self ;; ret (elements_count s).

(** ** Elements *)

(** Modelled from the spec: [Element.from_dict] is not part of the sources at
    hand.  Spec 4.2: each summary is hydrated into a full Element view that
    holds the interpreter configured on the dataset. *)
Definition Element_from_dict (r : Summary) (interp : option Interpreter)
  : Element :=
  {| e_id := s_id r;
     e_title := s_title r;
     e_description := s_description r;
     e_http_ref := s_http_ref r;
     e_tags := s_tags r;
     e_interpreter := interp |}.

(** A call of [cipher], recorded. *)
Definition apply_cipher (i : Interpreter) (b : list byte) : M (list byte) :=
  log (EvCipher b) ;;;
  ret (cipher i b).

(** Modelled from the spec: [Element.set_content] is not part of the sources
    at hand.  Spec 4.2 and 4.3: when an interpreter is configured and the
    interpret path is taken the bytes go through [cipher] at the write
    boundary; the result is uploaded as the content of the element. *)
Definition Element_set_content (el : Element) (content : list byte)
    (interpret : bool) : M unit :=
  packet <- match e_interpreter el with
            | Some i => if interpret then apply_cipher i content
                        else ret content
            | None => ret content
            end ;;
  request (PUT_content (e_id el) packet)
          (fun r => put_reply r (e_id el) packet).

(** Modelled from the spec: [Element.get_content] is not part of the sources
    at hand.  Spec 4.3 and 4.4: the stored bytes are fetched and go through
    [decipher] at the read boundary unless interpretation is disabled. *)
Definition Element_get_content (el : Element) (interpret : bool)
  : M (list byte) :=
  raw <- request (GET_content (e_id el)) (fun r => content_bytes r (e_id el)) ;;
  match e_interpreter el with
  | Some i => if interpret then ret (decipher i raw) else ret raw
  | None => ret raw
  end.

(** [__getitem__] *)
Definition getitem (key : pyval) : M Element :=
  result <- try_except
              (p <- get_url_prefix ;;
               r <- request (GET_element p key)
                      (fun rm => element_record rm p key) ;;
               ret (Some r))
              (fun ex => ret None) ;;
  match result with
  | None => raise (KeyError key)
  | Some r =>
      s <- get_self ;;
      ret (Element_from_dict r (binary_interpreter s))
  end.

(** [__delitem__] *)
Definition delitem (key : pyval) : M unit :=
  p <- get_url_prefix ;;
  request (DELETE_element p key) (fun r => delete_reply r p key) ;;;
  refresh.

(** The [content] argument of [add_element]: a [str] (a path) or bytes. *)
Inductive Content :=
| CPath (path : string)
| CBytes (b : list byte).

(** [add_element], first part: a [str] content is a path whose bytes are
    read and, when an interpreter is configured, passed through [cipher]. *)
Definition resolve_content (content : Content) : M (list byte) :=
  match content with
  | CPath path =>
      found <- os_path_exists path ;;
      if negb found
      then raise (Exception
                    "content must be a binary data or a URI to a file.")
      else
        content_bytes <- read_file path ;;
        s <- get_self ;;
        match binary_interpreter s with
        | None => ret content_bytes
        | Some i => apply_cipher i content_bytes
        end
  | CBytes b => ret b
  end.

(** [add_element] *)
Definition add_element (title description : string) (tags : list string)
    (http_ref : string) (content : Content) (interpret : bool) : M Element :=
  content <- resolve_content content ;;
  p <- get_url_prefix ;;
  let body := {| b_title := title; b_description := description;
                 b_tags := tags; b_http_ref := http_ref |} in
  result <- request (POST_element p body) (fun r => insert_reply r p body) ;;
  refresh ;;;
  element <- getitem result ;;
  Element_set_content element content interpret ;;;
  ret element.

(** ** The pagination iterator: the generator behind [__iter__] *)

(** [l[i]] with Python's negative indices. *)
Definition py_index {A} (l : list A) (i : Z) : M A :=
  let n := Z.of_nat (length l) in
  let j := if i <? 0 then i + n else i in
  if (0 <=? j) && (j <? n)
  then match l !! Z.to_nat j with
       | Some x => ret x
       | None => raise IndexError
       end
  else raise IndexError.

(** The local variables of the generator. *)
Record IterVars := {
  page : Z;
  first : list Summary;
  second : list Summary;
  new_list_requested : bool;
  iteration : Z
}.

(** A generator object: created and not started, suspended at its [yield],
    or finished. *)
Inductive Generator :=
| GenCreated
| GenSuspended (v : IterVars)
| GenFinished.

(** [self._get_json("datasets/{}/elements".format(...), extra_data=...)] *)
Definition fetch_elements (pg : option Z) : M (list Summary) :=
  p <- get_url_prefix ;;
  request (GET_elements p pg) (fun r => elements_page r p pg).

(** One pass through the body of the [while] loop; [Some e] when the pass
    reaches the [yield]. *)
Definition loop_body (v : IterVars) : M (option Element * IterVars) :=
  let it := iteration v + 1 in
  v1 <- (if (it >? Z.of_nat (length (first v)) / 2)
            && negb (new_list_requested v)
         then
           let pg := page v + 1 in
           fetched <- fetch_elements (Some pg) ;;
           ret {| page := pg; first := first v; second := fetched;
                  new_list_requested := true; iteration := it |}
         else
           ret {| page := page v; first := first v; second := second v;
                  new_list_requested := new_list_requested v;
                  iteration := it |}) ;;
  let v2 :=
    if iteration v1 >=? Z.of_nat (length (first v1))
    then {| page := page v1; first := second v1; second := [];
            new_list_requested := false; iteration := 0 |}
    else v1 in
  if Z.of_nat (length (first v2)) >? iteration v2
  then
    r <- py_index (first v2) (iteration v2) ;;
    s <- get_self ;;
    log (EvYield r) ;;;
    ret (Some (Element_from_dict r (binary_interpreter s)), v2)
  else ret (None, v2).

(** [while len(first) > 0: ...], run until the next [yield] or the end. *)
Fixpoint while_loop (fuel : nat) (v : IterVars)
  : M (option Element * IterVars) :=
  match fuel with
  | O => diverge
  | S fuel' =>
      if Z.of_nat (length (first v)) >? 0
      then
        r <- loop_body v ;;
        match r with
        | (Some e, v') => ret (Some e, v')
        | (None, v') => while_loop fuel' v'
        end
      else ret (None, v)
  end.

Definition suspend (r : option Element * IterVars)
  : option Element * Generator :=
  match r with
  | (Some e, v) => (Some e, GenSuspended v)
  | (None, _) => (None, GenFinished)
  end.

(** [next(generator)]: [None] stands for [StopIteration]. *)
Definition gen_next (fuel : nat) (g : Generator)
  : M (option Element * Generator) :=
  match g with
  | GenCreated =>
      fetched <- fetch_elements None ;;
      r <- while_loop fuel {| page := 0; first := fetched; second := [];
                              new_list_requested := false;
                              iteration := -1 |} ;;
      ret (suspend r)
  | GenSuspended v =>
      r <- while_loop fuel v ;;
      ret (suspend r)
  | GenFinished => ret (None, GenFinished)
  end.

(** [__iter__]: calling a generator function runs none of its body. *)
Definition iter : M Generator := ret GenCreated.

(** [for element in g: acc = body(element, acc)] *)
Fixpoint for_each {B} (fuel : nat) (g : Generator)
    (body : Element -> B -> M B) (acc : B) : M B :=
  match fuel with
  | O => diverge
  | S fuel' =>
      r <- gen_next fuel g ;;
      match r with
      | (Some e, g') =>
          acc' <- body e acc ;;
          for_each fuel' g' body acc'
      | (None, _) => ret acc
      end
  end.

(** [[element for element in self]] *)
Definition elements (fuel : nat) : M (list Element) :=
  g <- iter ;;
  for_each fuel g (fun e acc => ret (acc ++ [e])) [].

(** [keys] *)
Definition keys (fuel : nat) (pg : Z) : M (list string) :=
  if pg =? -1
  then
    g <- iter ;;
    for_each fuel g (fun e acc => ret (acc ++ [e_id e])) []
  else
    l <- fetch_elements (Some pg) ;;
    ret (map s_id l).

(** ** The csv writer

    [csv.writer(f, delimiter=",", quotechar=dq, quoting=csv.QUOTE_MINIMAL)]
    with the default line terminator CR LF and quote doubling. *)

Definition quotechar : ascii := "034"%char.
Definition delimiter : ascii := ","%char.
Definition CR : ascii := "013"%char.
Definition LF : ascii := "010"%char.

Definition csv_special (c : ascii) : bool :=
  Ascii.eqb c delimiter || Ascii.eqb c quotechar
  || Ascii.eqb c CR || Ascii.eqb c LF.

Fixpoint csv_needs_quotes (s : string) : bool :=
  match s with
  | EmptyString => false
  | String c s' => csv_special c || csv_needs_quotes s'
  end.

(** Every quote character of the field is doubled. *)
Fixpoint csv_escape (s : string) : string :=
  match s with
  | EmptyString => ""
  | String c s' =>
      if Ascii.eqb c quotechar then String c (String c (csv_escape s'))
      else String c (csv_escape s')
  end.

Definition csv_field (s : string) : string :=
  if csv_needs_quotes s
  then String quotechar (csv_escape s +:+ String quotechar "")
  else s.

Definition csv_line_end : string := String CR (String LF "").

(** [writer.writerow(fields)]: a row made of one empty field is written as
    a pair of quotes. *)
Definition csv_writerow (fields : list string) : string :=
  match fields with
  | [EmptyString] => String quotechar (String quotechar csv_line_end)
  | _ => join "," (map csv_field fields) +:+ csv_line_end
  end.

(** ** The local mirror exporter *)

(** One entry of the metadata index built by [save_to_folder]. *)
Record MetaRecord := {
  m_id : string;
  m_title : string;
  m_description : string;
  m_http_ref : string;
  m_tags : list string
}.

#[global] Instance MetaRecord_eq_dec : EqDecision MetaRecord.
Proof. solve_decision. Defined.

(** [d[k] = v] on an insertion-ordered dictionary: an existing key keeps its
    position, a new key goes last. *)
Fixpoint odict_set {V} (k : string) (v : V) (d : list (string * V))
  : list (string * V) :=
  match d with
  | [] => [(k, v)]
  | (k', v') :: d' =>
      if String.eqb k' k then (k, v) :: d' else (k', v') :: odict_set k v d'
  end.

Definition csv_header : list string :=
  ["file_name"; "id"; "title"; "description"; "http_ref"; "tags"].

Definition csv_record (entry : string * MetaRecord) : list string :=
  let (k, v) := entry in
  [k; m_id v; m_title v; m_description v; m_http_ref v; join ";" (m_tags v)].

(** Successive [writerow] calls on the same file. *)
Fixpoint csv_writerows (rows : list (list string)) : string :=
  match rows with
  | [] => ""
  | r :: rows' => csv_writerow r +:+ csv_writerows rows'
  end.

Definition csv_text (metadata : list (string * MetaRecord)) : string :=
  csv_writerows (csv_header :: map csv_record metadata).

(** [__save_csv] *)
Definition save_csv (folder : string)
    (metadata : list (string * MetaRecord)) : M unit :=
  write_file (os_path_join folder "metadata.csv")
             (String.list_byte_of_string (csv_text metadata)).

(** [if elements_extension is not None and
        elements_extension.startswith("."): ... [1:]] *)
Definition normalize_extension (ext : option string) : option string :=
  match ext with
  | Some e => if startswith_char "." e then Some (drop_first e) else Some e
  | None => None
  end.

(** The key under which an element is indexed and its content is stored. *)
Definition element_filename (ext : option string) (el : Element) : string :=
  match ext with
  | None => e_id el
  | Some x => e_id el +:+ "." +:+ x
  end.

Definition element_metadata (el : Element) : MetaRecord :=
  {| m_id := e_id el;
     m_title := e_title el;
     m_description := e_description el;
     m_http_ref := e_http_ref el;
     m_tags := e_tags el |}.

(** The second pass of [save_to_folder]: one keyed fetch and one file per
    indexed entry, contents read with interpretation disabled. *)
Fixpoint fetch_contents (content_folder : string)
    (items : list (string * MetaRecord)) : M unit :=
  match items with
  | [] => ret tt
  | (filename, values) :: rest =>
      el <- getitem (VStr (m_id values)) ;;
      binary_content <- Element_get_content el false ;;
      write_file (os_path_join content_folder filename) binary_content ;;;
      fetch_contents content_folder rest
  end.

Section Exporter.

(** [json.dump(metadata, f, indent=4)], as the text it writes. *)
Variable json_dump : list (string * MetaRecord) -> string.

(** [__save_json] *)
Definition save_json (folder : string)
    (metadata : list (string * MetaRecord)) : M unit :=
  write_file (os_path_join folder "metadata.json")
             (String.list_byte_of_string (json_dump metadata)).

(** The [format_saver] dictionary. *)
Definition format_saver (metadata_format : string)
  : option (string -> list (string * MetaRecord) -> M unit) :=
  if String.eqb metadata_format "csv" then Some save_csv
  else if String.eqb metadata_format "json" then Some save_json
  else None.

(** [save_to_folder]; the progress messages printed on the way are not
    part of the model. *)
Definition save_to_folder (fuel : nat) (folder metadata_format : string)
    (elements_extension : option string) : M unit :=
  try_except (os_mkdir folder) (fun ex => ret tt) ;;;
  let elements_extension := normalize_extension elements_extension in
  match format_saver metadata_format with
  | None =>
      raise (Exception ("format " +:+ metadata_format
                        +:+ " for metadata not supported."))
  | Some saver =>
      g <- iter ;;
      metadata <- for_each fuel g
                    (fun element md =>
                       ret (odict_set
                              (element_filename elements_extension element)
                              (element_metadata element) md))
                    [] ;;
      saver folder metadata ;;;
      let content_folder := os_path_join folder "content" in
      try_except (os_mkdir content_folder)
                 (fun ex => match ex with
                            | FileExistsError _ => ret tt
                            | _ => raise ex
                            end) ;;;
      fetch_contents content_folder metadata
  end.

End Exporter.

(** ** Reading csv back

    The reading side of the dialect the writer uses (comma, quote character
    doubled inside quoted fields, CR LF or a lone CR or LF ending a row),
    as a state machine over the characters of the text.  It serves to state
    that the columns written can be told apart again. *)

Inductive ReaderState :=
| AtRowStart (after_cr : bool)
| AtFieldStart
| InField
| InQuoted
| AfterQuote.

Definition snoc (s : string) (c : ascii) : string := s +:+ String c "".

Fixpoint csv_read (st : ReaderState) (field : string) (row : list string)
    (s : string) : list (list string) :=
  match s with
  | EmptyString =>
      match st with
      | AtRowStart _ => []
      | AtFieldStart => [row ++ [""]]
      | _ => [row ++ [field]]
      end
  | String c s' =>
      match st with
      | AtRowStart after_cr =>
          if after_cr && Ascii.eqb c LF
          then csv_read (AtRowStart false) "" [] s'
          else if Ascii.eqb c CR
          then [] :: csv_read (AtRowStart true) "" [] s'
          else if Ascii.eqb c LF
          then [] :: csv_read (AtRowStart false) "" [] s'
          else if Ascii.eqb c quotechar then csv_read InQuoted "" [] s'
          else if Ascii.eqb c delimiter then csv_read AtFieldStart "" [""] s'
          else csv_read InField (String c "") [] s'
      | AtFieldStart =>
          if Ascii.eqb c CR
          then (row ++ [""]) :: csv_read (AtRowStart true) "" [] s'
          else if Ascii.eqb c LF
          then (row ++ [""]) :: csv_read (AtRowStart false) "" [] s'
          else if Ascii.eqb c quotechar then csv_read InQuoted "" row s'
          else if Ascii.eqb c delimiter
          then csv_read AtFieldStart "" (row ++ [""]) s'
          else csv_read InField (String c "") row s'
      | InField =>
          if Ascii.eqb c CR
          then (row ++ [field]) :: csv_read (AtRowStart true) "" [] s'
          else if Ascii.eqb c LF
          then (row ++ [field]) :: csv_read (AtRowStart false) "" [] s'
          else if Ascii.eqb c delimiter
          then csv_read AtFieldStart "" (row ++ [field]) s'
          else csv_read InField (snoc field c) row s'
      | InQuoted =>
          if Ascii.eqb c quotechar then csv_read AfterQuote field row s'
          else csv_read InQuoted (snoc field c) row s'
      | AfterQuote =>
          if Ascii.eqb c quotechar
          then csv_read InQuoted (snoc field c) row s'
          else if Ascii.eqb c CR
          then (row ++ [field]) :: csv_read (AtRowStart true) "" [] s'
          else if Ascii.eqb c LF
          then (row ++ [field]) :: csv_read (AtRowStart false) "" [] s'
          else if Ascii.eqb c delimiter
          then csv_read AtFieldStart "" (row ++ [field]) s'
          else csv_read InField (snoc field c) row s'
      end
  end.

(** Where a field may start: at the start of a row or after a delimiter. *)
Inductive field_start : ReaderState -> list string -> Prop :=
| start_of_row : field_start (AtRowStart false) []
| after_delimiter row : field_start AtFieldStart row.

(** The rows of a csv text. *)
Definition csv_rows (text : string) : list (list string) :=
  csv_read (AtRowStart false) "" [] text.

(** ** Reading states and traces *)

(** The state after one more recorded call. *)
Definition logged (ev : Event) (st : State) : State :=
  {| self := self st;
     world := {| remote := remote (world st);
                 fs := fs (world st);
                 trace := trace (world st) ++ [ev] |} |}.

(** The requests of a trace, in order. *)
Fixpoint requests_of (tr : list Event) : list Request :=
  match tr with
  | [] => []
  | EvRequest r :: tr' => r :: requests_of tr'
  | _ :: tr' => requests_of tr'
  end.

(** The inputs of the recorded [cipher] calls, in order. *)
Fixpoint cipher_calls (tr : list Event) : list (list byte) :=
  match tr with
  | [] => []
  | EvCipher b :: tr' => b :: cipher_calls tr'
  | _ :: tr' => cipher_calls tr'
  end.

(** The contents uploaded by a trace, in order. *)
Fixpoint uploads (tr : list Event) : list (list byte) :=
  match tr with
  | [] => []
  | EvRequest (PUT_content _ d) :: tr' => d :: uploads tr'
  | _ :: tr' => uploads tr'
  end.

(** The outcome of running an operation, leaving the final state aside. *)
Definition outcome {A} (m : M A) (st : State) : Res A := snd (m st).

(** What [self.data['url_prefix']] raises when the entry is unset. *)
Definition missing_prefix : exn := KeyError (VStr "url_prefix").

(** The state [refresh] leaves when the record carries the seven keys. *)
Definition refreshed (st : State) (p ec cc up ti de re ta : pyval) : State :=
  {| self :=
       {| data := <["url_prefix" := up]>
                    (<["title" := ti]>
                       (<["description" := de]>
                          (<["reference" := re]> (<["tags" := ta]> ∅))));
          binary_interpreter := binary_interpreter (self st);
          elements_count := ec;
          comments_count := cc;
          token := token (self st);
          token_info := token_info (self st) |};
     world := world (logged (EvRequest (GET_dataset p)) st) |}.

(** Modelled from the spec: what [Element.set_content] uploads. *)
Definition packet_of (interp : option Interpreter) (interpret : bool)
    (content : list byte) : list byte :=
  match interp with
  | Some i => if interpret then cipher i content else content
  | None => content
  end.

Definition packet_events (interp : option Interpreter) (interpret : bool)
    (content : list byte) : list Event :=
  match interp with
  | Some i => if interpret then [EvCipher content] else []
  | None => []
  end.

(** The bytes [add_element] hands to [set_content]: the argument itself when
    it is bytes; for a path, the bytes [raw] of the file, passed through
    [cipher] when an interpreter is configured. *)
Definition handed_content (interp : option Interpreter) (content : Content)
    (raw : list byte) : list byte :=
  match content with
  | CBytes b => b
  | CPath _ => match interp with
               | Some i => cipher i raw
               | None => raw
               end
  end.

(** The content is bytes, or a path to the file holding [raw]. *)
Definition content_available (files : gmap string Node) (content : Content)
    (raw : list byte) : Prop :=
  match content with
  | CBytes _ => True
  | CPath path => files !! path = Some (File raw)
  end.

(** ** What a run of the iterator is compared with *)

(** [st'] is [st] after the calls [evs]: same dataset, same remote side, same
    files, a longer trace. *)
Definition evolves (st : State) (evs : list Event) (st' : State) : Prop :=
  self st' = self st
  /\ remote (world st') = remote (world st)
  /\ fs (world st') = fs (world st)
  /\ trace (world st') = trace (world st) ++ evs.

(** The summaries handed to the consumer, in order. *)
Fixpoint yielded (tr : list Event) : list Summary :=
  match tr with
  | [] => []
  | EvYield s :: tr' => s :: yielded tr'
  | _ :: tr' => yielded tr'
  end.

(** [m] successive calls of [next] on a generator. *)
Fixpoint nexts (fuel m : nat) (g : Generator) : M Generator :=
  match m with
  | O => ret g
  | S m' =>
      r <- gen_next fuel g ;;
      nexts fuel m' (snd r)
  end.

Section Paged.

(** The remote collection: page [k] of the listing for the identifier [p],
    [n] being the number of pages that hold elements; the dataset and the
    remote side in front of it. *)
Variable pages : nat -> list Summary.
Variable n : nat.
Variable p : pyval.
Variable ds : Dataset.
Variable rm : Remote.

(** The request for the page after page [k]. *)
Definition fetch_event (k : nat) : Event :=
  EvRequest (GET_elements p (Some (Z.of_nat (S k)))).

(** The generator is in page [k], about to deal with index [j], and the next
    page has been requested or not. *)
Definition at_position (v : IterVars) (k j : nat) (r : bool) : Prop :=
  page v = Z.of_nat (if r then S k else k)
  /\ first v = pages k
  /\ second v = (if r then pages (S k) else [])
  /\ new_list_requested v = r
  /\ iteration v = Z.of_nat j - 1.

(** The buffers of a generator are the current page and, at most, the page
    that follows it. *)
Definition two_buffers (g : Generator) : Prop :=
  match g with
  | GenSuspended v =>
      exists k, first v = pages k /\ (second v = [] \/ second v = pages (S k))
  | _ => True
  end.

(** Number of elements of page [k] consumed before the next page is asked
    for. *)
Definition threshold (k : nat) : nat := S (length (pages k) / 2).

(** What the consumption of page [k] records: the elements up to the
    threshold, the request for the next page, the other elements. *)
Definition page_events (k : nat) : list Event :=
  map EvYield (take (threshold k) (pages k))
  ++ [fetch_event k]
  ++ map EvYield (drop (threshold k) (pages k)).

(** The events still to come in page [k] when the elements [l], from index
    [j] on, are left and the next page has been requested or not. *)
Fixpoint rest_of_page (k : nat) (j : nat) (r : bool) (l : list Summary)
  : list Event :=
  match l with
  | [] => if r then [] else [fetch_event k]
  | s :: l' =>
      let due := (length (pages k) / 2 <? j)%nat in
      (if due && negb r then [fetch_event k] else [])
      ++ EvYield s :: rest_of_page k (S j) (r || due) l'
  end.

(** A state of this dataset in front of this remote side. *)
Definition good (st : State) : Prop :=
  self st = ds /\ remote (world st) = rm.

Definition hydrate (s : Summary) : Element :=
  Element_from_dict s (binary_interpreter ds).

(** The elements of the [d] pages after page [k], and what their
    consumption records. *)
Definition later_pages (k d : nat) : list Summary :=
  concat (map pages (seq (S k) d)).

Definition later_events (k d : nat) : list Event :=
  concat (map (fun k' => rest_of_page k' O false (pages k')) (seq (S k) d)).

(** All the elements, and what a full consumption records. *)
Definition all_pages : list Summary := concat (map pages (seq O n)).

Definition all_events : list Event :=
  EvRequest (GET_elements p None)
  :: concat (map (fun k => rest_of_page k O false (pages k)) (seq O n)).

(** The local variables when the loop is entered. *)
Definition initial (l : list Summary) : IterVars :=
  {| page := 0; first := l; second := []; new_list_requested := false;
     iteration := -1 |}.

(** The generators a consumer can hold: finished, or suspended inside one
    of the pages. *)
Definition in_range (g : Generator) : Prop :=
  g = GenFinished
  \/ exists v k j r,
       g = GenSuspended v /\ (k < n)%nat /\ (j <= length (pages k))%nat
       /\ at_position v k j r.

End Paged.

(** ** Further readings of states *)

(** A setter and its getter on the entry [key]: the setter succeeds, calls
    nothing outside the object, makes the getter return the value written,
    and leaves every other entry, the counters and the interpreter alone. *)
Definition writes_only (key : string) (setter : pyval -> M unit)
    (getter : M pyval) : Prop :=
  forall st v,
  exists st',
    setter v st = (st', Ok tt)
    /\ world st' = world st
    /\ getter st' = (st', Ok v)
    /\ (forall k, k <> key -> data (self st') !! k = data (self st) !! k)
    /\ elements_count (self st') = elements_count (self st)
    /\ comments_count (self st') = comments_count (self st)
    /\ binary_interpreter (self st') = binary_interpreter (self st).

(** The first key of [ks] that the dictionary [d] does not hold. *)
Fixpoint first_missing (d : gmap string pyval) (ks : list string)
  : option string :=
  match ks with
  | [] => None
  | k :: ks' =>
      match d !! k with
      | Some _ => first_missing d ks'
      | None => Some k
      end
  end.

(** The entries [refresh] copies from the fetched record. *)
Definition refreshed_keys : list string :=
  ["url_prefix"; "title"; "description"; "reference"; "tags"].

(** A dataset definition as [from_dict] reads it: the seven entries it looks
    up, each present or not, the identifier being a [str]. *)
Record DatasetDefinition := {
  def_url_prefix : option string;
  def_title : option pyval;
  def_description : option pyval;
  def_reference : option pyval;
  def_tags : option pyval;
  def_comments_count : option pyval;
  def_elements_count : option pyval
}.

(** [definition[key]] *)
Definition def_get {A} (entry : option A) (key : string) : M A :=
  match entry with
  | Some v => ret v
  | None => raise (KeyError (VStr key))
  end.

(** [from_dict]: the five arguments of the constructor are looked up in
    order, the dataset is built, then the two counters are copied. *)
Definition from_dict (definition : DatasetDefinition) (tok : option Token)
    (interp : option Interpreter) (tok_info : pyval) : M Dataset :=
  url_prefix <- def_get (def_url_prefix definition) "url_prefix" ;;
  title <- def_get (def_title definition) "title" ;;
  description <- def_get (def_description definition) "description" ;;
  reference <- def_get (def_reference definition) "reference" ;;
  tags <- def_get (def_tags definition) "tags" ;;
  let dataset := Dataset_init url_prefix title description reference tags
                   tok interp tok_info in
  cc <- def_get (def_comments_count definition) "comments_count" ;;
  let dataset := with_comments_count cc dataset in
  ec <- def_get (def_elements_count definition) "elements_count" ;;
  let dataset := with_elements_count ec dataset in
  ret dataset.

(** The dictionary form of a definition, as the remote side sends it. *)
Definition definition_record (definition : DatasetDefinition)
  : gmap string pyval :=
  let put (k : string) (v : option pyval) (m : gmap string pyval) :=
    match v with
    | Some x => <[k := x]> m
    | None => m
    end in
  put "url_prefix" (VStr <$> def_url_prefix definition)
    (put "title" (def_title definition)
       (put "description" (def_description definition)
          (put "reference" (def_reference definition)
             (put "tags" (def_tags definition)
                (put "comments_count" (def_comments_count definition)
                   (put "elements_count" (def_elements_count definition)
                      ∅)))))).

(** The first entry, in the order [from_dict] reads them, that a definition
    lacks. *)
Definition def_first_missing (definition : DatasetDefinition)
  : option string :=
  let absent {A} (entry : option A) :=
    match entry with Some _ => false | None => true end in
  if absent (def_url_prefix definition) then Some "url_prefix"
  else if absent (def_title definition) then Some "title"
  else if absent (def_description definition) then Some "description"
  else if absent (def_reference definition) then Some "reference"
  else if absent (def_tags definition) then Some "tags"
  else if absent (def_comments_count definition) then Some "comments_count"
  else if absent (def_elements_count definition) then Some "elements_count"
  else None.

(** ** What an export is compared with *)

(** The index entry [save_to_folder] builds for a summary: the derived file
    name and the recorded fields. *)
Definition summary_entry (ext : option string) (s : Summary)
  : string * MetaRecord :=
  (match ext with
   | None => s_id s
   | Some x => s_id s +:+ "." +:+ x
   end,
   {| m_id := s_id s;
      m_title := s_title s;
      m_description := s_description s;
      m_http_ref := s_http_ref s;
      m_tags := s_tags s |}).

(** A folder name that does not end with a separator. *)
Definition plain_folder (folder : string) : Prop :=
  exists c, last_char folder = Some c /\ c <> "/"%char.

(** A file name without separator that is neither empty nor a dot entry. *)
Definition plain_name (name : string) : bool :=
  negb (contains_char "/" name)
  && negb (String.eqb name "")
  && negb (String.eqb name ".")
  && negb (String.eqb name "..").

(** The components of a path, split at the separators, [cur] being the
    component being read. *)
Fixpoint components_from (cur rest : string) : list string :=
  match rest with
  | EmptyString => [cur]
  | String c rest' =>
      if Ascii.eqb c "/" then cur :: components_from "" rest'
      else components_from (cur +:+ String c "") rest'
  end.

(** A path, relative or absolute, made of names only: no component is
    empty, [.] or [..]. *)
Definition plain_path (p : string) : bool :=
  forallb plain_name
    (components_from "" (if startswith_char "/" p then drop_first p else p)).

Section MetadataFile.

Variable json_dump : list (string * MetaRecord) -> string.

(** The name and the text of the metadata file for a format. *)
Definition metadata_name (metadata_format : string) : string :=
  if String.eqb metadata_format "csv" then "metadata.csv"
  else "metadata.json".

Definition metadata_text (metadata_format : string)
    (index : list (string * MetaRecord)) : string :=
  if String.eqb metadata_format "csv" then csv_text index
  else json_dump index.

End MetadataFile.

Section Contents.

(** The identifier of the dataset, the content folder, the extension, and
    what the remote side answers for an element identifier: its record and
    its stored bytes. *)
Variable p : pyval.
Variable content_folder : string.
Variable ext : option string.
Variable record_of : string -> Summary.
Variable raw_of : string -> list byte.

(** Where the content of a summary is written. *)
Definition content_path (s : Summary) : string :=
  content_folder +:+ "/" +:+ (summary_entry ext s).1.

(** What the second pass records for one entry. *)
Definition content_events (s : Summary) : list Event :=
  [EvRequest (GET_element p (VStr (s_id s)));
   EvRequest (GET_content (s_id (record_of (s_id s))));
   EvWrite (content_path s) (raw_of (s_id s))].

(** The file system once the contents of the summaries are written. *)
Definition with_contents (files : gmap string Node) (l : list Summary)
  : gmap string Node :=
  foldl (fun m s => <[content_path s := File (raw_of (s_id s))]> m) files l.

End Contents.

(** ** Sample data used by the examples *)

Module Sample.

Definition summary (id title : string) : Summary :=
  {| s_id := id; s_title := title; s_description := "d";
     s_http_ref := "h"; s_tags := ["x"; "y"] |}.

(** Three pages of elements followed by empty pages. *)
Definition pages (k : Z) : list Summary :=
  if k =? 0 then [summary "a" "t"; summary "b" "t"; summary "c" "t"]
  else if k =? 1 then [summary "d" "t"]
  else if k =? 2 then [summary "e" "t"; summary "f" "t"]
  else [].

(** The same pages, by position. *)
Definition page (k : nat) : list Summary := pages (Z.of_nat k).

(** The metadata record the remote side holds; its identifier differs
    from the one the local object was built with. *)
Definition record : gmap string pyval :=
  <["url_prefix" := VStr "u/other"]>
    (<["title" := VStr "T"]>
       (<["description" := VStr "D"]>
          (<["reference" := VStr "R"]>
             (<["tags" := VList ["a"]]>
                (<["elements_count" := VInt 6]>
                   (<["comments_count" := VInt 0]> ∅)))))).

Definition server : Remote :=
  {| dataset_record := fun _ => Success record;
     patch_reply := fun _ _ => Success tt;
     elements_page := fun _ pg =>
       Success (pages (match pg with None => 0 | Some k => k end));
     insert_reply := fun _ _ => Success (VStr "new");
     element_record := fun _ k =>
       match k with
       | VStr id => Success (summary id "t")
       | _ => Failure (TransportError "404")
       end;
     delete_reply := fun _ _ => Success tt;
     content_bytes := fun _ => Success [x01; x02];
     put_reply := fun _ _ => Success tt |}.

(** An interpreter that prepends a marker byte. *)
Definition marker : Interpreter :=
  {| cipher := fun b => x2a :: b; decipher := fun b => tail b |}.

Definition dataset (interp : option Interpreter) : Dataset :=
  Dataset_init "u/d" (VStr "T0") (VStr "D0") (VStr "R0") (VList []) None
    interp VNone.

(** A dataset built without a token from a name that has no slash. *)
Definition unprefixed : Dataset :=
  Dataset_init "d" (VStr "T0") (VStr "D0") (VStr "R0") (VList []) None
    None VNone.

Definition disk : gmap string Node := {[ "f.bin" := File [x01] ]}.

Definition state (d : Dataset) (files : gmap string Node) : State :=
  {| self := d;
     world := {| remote := server; fs := files; trace := [] |} |}.

(** A remote side that cannot be reached. *)
Definition offline : Remote :=
  {| dataset_record := fun _ => Failure (TransportError "down");
     patch_reply := fun _ _ => Failure (TransportError "down");
     elements_page := fun _ _ => Failure (TransportError "down");
     insert_reply := fun _ _ => Failure (TransportError "down");
     element_record := fun _ _ => Failure (TransportError "down");
     delete_reply := fun _ _ => Failure (TransportError "down");
     content_bytes := fun _ => Failure (TransportError "down");
     put_reply := fun _ _ => Failure (TransportError "down") |}.

(** A remote side whose dataset record only carries [elements_count]. *)
Definition counting : Remote :=
  {| dataset_record := fun _ => Success {[ "elements_count" := VInt 6 ]};
     patch_reply := patch_reply server;
     elements_page := elements_page server;
     insert_reply := insert_reply server;
     element_record := element_record server;
     delete_reply := delete_reply server;
     content_bytes := content_bytes server;
     put_reply := put_reply server |}.

(** A remote side that serves the first page of the listing and fails on
    every later page. *)
Definition one_page : Remote :=
  {| dataset_record := dataset_record server;
     patch_reply := patch_reply server;
     elements_page := fun _ pg =>
       match pg with
       | None => Success (pages 0)
       | Some _ => Failure (TransportError "down")
       end;
     insert_reply := insert_reply server;
     element_record := element_record server;
     delete_reply := delete_reply server;
     content_bytes := content_bytes server;
     put_reply := put_reply server |}.

(** The definition of the dataset the remote side holds, and one that lacks
    two entries. *)
Definition definition : DatasetDefinition :=
  {| def_url_prefix := Some "u/other";
     def_title := Some (VStr "T");
     def_description := Some (VStr "D");
     def_reference := Some (VStr "R");
     def_tags := Some (VList ["a"]);
     def_comments_count := Some (VInt 0);
     def_elements_count := Some (VInt 6) |}.

Definition partial_definition : DatasetDefinition :=
  {| def_url_prefix := Some "u/d";
     def_title := Some (VStr "T");
     def_description := None;
     def_reference := Some (VStr "R");
     def_tags := None;
     def_comments_count := Some (VInt 0);
     def_elements_count := Some (VInt 6) |}.


(** A remote side on which the element [c] is listed but can no longer be
    fetched by identifier. *)
Definition gone : Remote :=
  {| dataset_record := dataset_record server;
     patch_reply := patch_reply server;
     elements_page := elements_page server;
     insert_reply := insert_reply server;
     element_record := fun _ k =>
       match k with
       | VStr id =>
           if String.eqb id "c" then Failure (TransportError "404")
           else Success (summary id "t")
       | _ => Failure (TransportError "404")
       end;
     delete_reply := delete_reply server;
     content_bytes := content_bytes server;
     put_reply := put_reply server |}.

(** What the remote side answers for an element identifier. *)
Definition record_of (id : string) : Summary := summary id "t".

Definition raw_of (id : string) : list byte := [x01; x02].

(** A collection of one element whose title holds a comma. *)
Definition quoted (k : nat) : list Summary :=
  match k with
  | O => [summary "a" "x,y"]
  | S _ => []
  end.

Definition comma_server : Remote :=
  {| dataset_record := dataset_record server;
     patch_reply := patch_reply server;
     elements_page := fun _ pg =>
       match pg with
       | None => Success (quoted O)
       | Some _ => Success []
       end;
     insert_reply := insert_reply server;
     element_record := element_record server;
     delete_reply := delete_reply server;
     content_bytes := content_bytes server;
     put_reply := put_reply server |}.

(** A stand-in for the json text of an index. *)
Definition json_dump (index : list (string * MetaRecord)) : string := "{}".
End Sample.

(** * Properties *)

Ltac unfold_monad :=
  unfold getitem, delitem, refresh, update, fetch_elements, get_url_prefix,
    get_field, set_field, dict_get, request, reply, log, set_fs,
    try_except, bind, ret, raise, diverge, get_self, set_self, get_world,
    set_world, logged in *.

(** ** Running the monad *)

Lemma bind_ok {A B} (m : M A) (k : A -> M B) st st' a :
  m st = (st', Ok a) -> bind m k st = k a st'.
Proof. intros H. unfold bind. rewrite H. reflexivity. Qed.

Lemma bind_raise {A B} (m : M A) (k : A -> M B) st st' e :
  m st = (st', Raise e) -> bind m k st = (st', Raise e).
Proof. intros H. unfold bind. rewrite H. reflexivity. Qed.

Lemma request_ok {A} (r : Request) (answer : Remote -> Reply A) st a :
  answer (remote (world st)) = Success a ->
  request r answer st = (logged (EvRequest r) st, Ok a).
Proof. intros H. unfold_monad. simpl. rewrite H. reflexivity. Qed.

Lemma get_url_prefix_ok st p :
  data (self st) !! "url_prefix" = Some p -> get_url_prefix st = (st, Ok p).
Proof. intros H. unfold_monad. rewrite H. reflexivity. Qed.

(** ** Keyed lookup *)

Lemma getitem_run (key : pyval) (st : State) :
  match data (self st) !! "url_prefix" with
  | Some p =>
      match element_record (remote (world st)) p key with
      | Success r =>
          getitem key st
          = (logged (EvRequest (GET_element p key)) st,
             Ok (Element_from_dict r (binary_interpreter (self st))))
      | Failure _ =>
          getitem key st
          = (logged (EvRequest (GET_element p key)) st, Raise (KeyError key))
      end
  | None => getitem key st = (st, Raise (KeyError key))
  end.
Proof.
  unfold_monad.
  destruct (data (self st) !! "url_prefix") as [p|] eqn:Hp; simpl.
  - destruct (element_record (remote (world st)) p key); reflexivity.
  - reflexivity.
Qed.

(** C5.  Whatever the key and the state: when the remote fetch of
    [__getitem__] succeeds the lookup returns the Element hydrated from the
    returned record; when it raises, whatever the exception (not found,
    transport failure), the lookup raises [KeyError(key)], and so it does
    when the identifier is missing while the URL is built; there is no other
    outcome. *)
Theorem getitem_found_or_KeyError (key : pyval) (st : State) :
  let hydrated r := Element_from_dict r (binary_interpreter (self st)) in
  (forall p r,
      data (self st) !! "url_prefix" = Some p ->
      element_record (remote (world st)) p key = Success r ->
      getitem key st
      = (logged (EvRequest (GET_element p key)) st, Ok (hydrated r)))
  /\ (forall p e,
        data (self st) !! "url_prefix" = Some p ->
        element_record (remote (world st)) p key = Failure e ->
        getitem key st
        = (logged (EvRequest (GET_element p key)) st, Raise (KeyError key)))
  /\ (data (self st) !! "url_prefix" = None ->
      getitem key st = (st, Raise (KeyError key)))
  /\ ((exists r, outcome (getitem key) st = Ok (hydrated r))
      \/ outcome (getitem key) st = Raise (KeyError key)).
Proof.
  intros hydrated. pose proof (getitem_run key st) as H. unfold outcome.
  destruct (data (self st) !! "url_prefix") as [p|].
  - destruct (element_record (remote (world st)) p key) as [r|e] eqn:Hr;
      rewrite H; (split; [|split; [|split]]).
    + intros p' r' [= <-] Hr'. rewrite Hr in Hr'.
      injection Hr' as <-. reflexivity.
    + intros p' e' [= <-] Hr'. rewrite Hr in Hr'. discriminate Hr'.
    + discriminate.
    + left. exists r. reflexivity.
    + intros p' r' [= <-] Hr'. rewrite Hr in Hr'. discriminate Hr'.
    + intros p' e' [= <-] _. reflexivity.
    + discriminate.
    + right. reflexivity.
  - rewrite H. (split; [|split; [|split]]); try discriminate; auto.
Qed.

Lemma getitem_found_or_KeyError_witness :
  getitem (VStr "a") (Sample.state (Sample.dataset None) ∅)
  = (logged (EvRequest (GET_element (VStr "u/d") (VStr "a")))
       (Sample.state (Sample.dataset None) ∅),
     Ok (Element_from_dict (Sample.summary "a" "t") None))
  /\ getitem (VInt 7) (Sample.state (Sample.dataset None) ∅)
     = (logged (EvRequest (GET_element (VStr "u/d") (VInt 7)))
          (Sample.state (Sample.dataset None) ∅),
        Raise (KeyError (VInt 7))).
Proof.
  split.
  - exact (proj1 (getitem_found_or_KeyError (VStr "a")
                    (Sample.state (Sample.dataset None) ∅))
             (VStr "u/d") (Sample.summary "a" "t") eq_refl eq_refl).
  - exact (proj1 (proj2 (getitem_found_or_KeyError (VInt 7)
                           (Sample.state (Sample.dataset None) ∅)))
             (VStr "u/d") (TransportError "404") eq_refl eq_refl).
Defined.

(** ** Refresh *)

Lemma refresh_ok (st : State) (d : gmap string pyval)
    (p ec cc up ti de re ta : pyval) :
  data (self st) !! "url_prefix" = Some p ->
  dataset_record (remote (world st)) p = Success d ->
  d !! "elements_count" = Some ec ->
  d !! "comments_count" = Some cc ->
  d !! "url_prefix" = Some up ->
  d !! "title" = Some ti ->
  d !! "description" = Some de ->
  d !! "reference" = Some re ->
  d !! "tags" = Some ta ->
  refresh st = (refreshed st p ec cc up ti de re ta, Ok tt).
Proof.
  intros Hp Hd Hec Hcc Hup Hti Hde Hre Hta.
  unfold refresh, dict_pick, refreshed. unfold_monad. simpl.
  rewrite Hp. simpl. rewrite Hd. simpl.
  rewrite Hec. simpl. rewrite Hcc. simpl.
  rewrite Hup, Hti, Hde, Hre, Hta. reflexivity.
Qed.

(** C3, as the code has it.  When the remote record carries the seven keys,
    [refresh] overwrites both counters and the whole dictionary with the
    fetched values; the identifier is among the overwritten entries, so it
    keeps its value exactly when the record carries the same one. *)
Theorem refresh_overwrites_from_record (st : State)
    (d : gmap string pyval) (p ec cc up ti de re ta : pyval) :
  data (self st) !! "url_prefix" = Some p ->
  dataset_record (remote (world st)) p = Success d ->
  d !! "elements_count" = Some ec ->
  d !! "comments_count" = Some cc ->
  d !! "url_prefix" = Some up ->
  d !! "title" = Some ti ->
  d !! "description" = Some de ->
  d !! "reference" = Some re ->
  d !! "tags" = Some ta ->
  exists st',
    refresh st = (st', Ok tt)
    /\ world st' = world (logged (EvRequest (GET_dataset p)) st)
    /\ elements_count (self st') = ec
    /\ comments_count (self st') = cc
    /\ data (self st')
       = <["url_prefix" := up]>
           (<["title" := ti]>
              (<["description" := de]>
                 (<["reference" := re]> (<["tags" := ta]> ∅))))
    /\ (data (self st') !! "url_prefix" = data (self st) !! "url_prefix"
        <-> up = p).
Proof.
  intros Hp Hd Hec Hcc Hup Hti Hde Hre Hta.
  exists (refreshed st p ec cc up ti de re ta).
  split; [eapply refresh_ok; eassumption|].
  repeat split; try reflexivity; cbn [refreshed self data];
    rewrite lookup_insert_eq, Hp; congruence.
Qed.

Lemma refresh_overwrites_from_record_witness :
  exists st',
    refresh (Sample.state (Sample.dataset None) ∅) = (st', Ok tt)
    /\ data (self st') !! "url_prefix" = Some (VStr "u/other").
Proof.
  destruct (refresh_overwrites_from_record
              (Sample.state (Sample.dataset None) ∅) Sample.record
              (VStr "u/d") (VInt 6) (VInt 0) (VStr "u/other") (VStr "T")
              (VStr "D") (VStr "R") (VList ["a"]))
    as (st' & Hrun & _ & _ & _ & Hdata & _);
    try reflexivity.
  exists st'. split; [exact Hrun|].
  rewrite Hdata. reflexivity.
Defined.

(** C3 as stated fails: a refresh against a record that carries another
    identifier changes the local [url_prefix]. *)
Lemma refresh_reassigns_url_prefix :
  ~ (forall st st',
        refresh st = (st', Ok tt) ->
        data (self st') !! "url_prefix" = data (self st) !! "url_prefix").
Proof.
  intros H.
  specialize (H (Sample.state (Sample.dataset None) ∅) _ eq_refl).
  vm_compute in H. discriminate H.
Qed.

(** ** Export: the format check *)

(** The best-effort creation of the target folder never fails, records one
    call, and at most adds the folder to the file system. *)
Lemma mkdir_best_effort (folder : string) (st : State) :
  exists st',
    try_except (os_mkdir folder) (fun _ => ret tt) st = (st', Ok tt)
    /\ self st' = self st
    /\ remote (world st') = remote (world st)
    /\ trace (world st') = trace (world st) ++ [EvMkdir folder]
    /\ (fs (world st') = fs (world st)
        \/ (fs (world st) !! rstrip_slash folder = None
            /\ fs (world st')
               = <[rstrip_slash folder := Dir]> (fs (world st)))).
Proof.
  unfold os_mkdir. unfold_monad. simpl.
  destruct (String.eqb folder ""); simpl;
    [eexists; split; [reflexivity|]; simpl; auto|].
  destruct (all_slashes folder); simpl;
    [eexists; split; [reflexivity|]; simpl; auto|].
  destruct (fs (world st) !! rstrip_slash folder) as [n|] eqn:Hf; simpl.
  - eexists. split; [reflexivity|]. simpl. auto.
  - destruct (parent_exists (fs (world st)) (rstrip_slash folder)); simpl;
      [|destruct (blocked_by_file (fs (world st)) (rstrip_slash folder));
        simpl];
      eexists; (split; [reflexivity|]); simpl; auto 6.
Qed.

Lemma format_saver_unsupported json_dump (metadata_format : string) :
  metadata_format <> "json" -> metadata_format <> "csv" ->
  format_saver json_dump metadata_format = None.
Proof.
  intros Hj Hc. unfold format_saver.
  apply String.eqb_neq in Hj, Hc. rewrite Hc, Hj. reflexivity.
Qed.

(** C6, as the code has it.  For every metadata format other than json and
    csv, [save_to_folder] raises its error after the best-effort creation of
    the target folder and before anything else: the only call made is that
    [os.mkdir], no request is sent, no file is written, and the file system
    is unchanged apart from the target folder possibly created. *)
Theorem save_to_folder_unsupported_format json_dump (fuel : nat)
    (folder metadata_format : string) (ext : option string) (st : State) :
  metadata_format <> "json" -> metadata_format <> "csv" ->
  exists st',
    save_to_folder json_dump fuel folder metadata_format ext st
    = (st', Raise (Exception ("format " +:+ metadata_format
                              +:+ " for metadata not supported.")))
    /\ self st' = self st
    /\ trace (world st') = trace (world st) ++ [EvMkdir folder]
    /\ (fs (world st') = fs (world st)
        \/ (fs (world st) !! rstrip_slash folder = None
            /\ fs (world st')
               = <[rstrip_slash folder := Dir]> (fs (world st)))).
Proof.
  intros Hj Hc.
  destruct (mkdir_best_effort folder st) as (st' & Hrun & Hself & _ & Htr & Hfs).
  exists st'. unfold save_to_folder.
  rewrite (format_saver_unsupported json_dump _ Hj Hc).
  unfold bind at 1. rewrite Hrun. unfold raise. auto.
Qed.

Lemma save_to_folder_unsupported_format_witness :
  exists st',
    save_to_folder (fun _ => "{}") 5 "out" "xml" None
      (Sample.state (Sample.dataset None) ∅)
    = (st', Raise (Exception "format xml for metadata not supported."))
    /\ trace (world st') = [EvMkdir "out"].
Proof.
  destruct (save_to_folder_unsupported_format (fun _ => "{}") 5 "out" "xml"
              None (Sample.state (Sample.dataset None) ∅))
    as (st' & Hrun & _ & Htr & _); [discriminate | discriminate |].
  exists st'. split; [exact Hrun | exact Htr].
Defined.

(** C6 as stated fails: with an unsupported format and a target folder that
    does not exist yet, the folder is created before the error is raised. *)
Lemma save_to_folder_creates_folder_before_check :
  let st := Sample.state (Sample.dataset None) ∅ in
  let r := save_to_folder (fun _ => "{}") 5 "out" "xml" None st in
  snd r = Raise (Exception "format xml for metadata not supported.")
  /\ fs (world st) !! "out" = None
  /\ fs (world (fst r)) !! "out" = Some Dir.
Proof. vm_compute. auto. Qed.

(** ** Construction and the identifier entry *)

Section NoPrefix.

Variable st : State.
Hypothesis unset : data (self st) !! "url_prefix" = None.

Lemma get_url_prefix_unset : get_url_prefix st = (st, Raise missing_prefix).
Proof. unfold_monad. rewrite unset. reflexivity. Qed.

Lemma fetch_elements_unset pg :
  fetch_elements pg st = (st, Raise missing_prefix).
Proof. unfold fetch_elements, bind. rewrite get_url_prefix_unset. reflexivity. Qed.

Lemma update_unset : update st = (st, Raise missing_prefix).
Proof. unfold update, bind. rewrite get_url_prefix_unset. reflexivity. Qed.

Lemma refresh_unset : refresh st = (st, Raise missing_prefix).
Proof. unfold refresh, bind. rewrite get_url_prefix_unset. reflexivity. Qed.

Lemma delitem_unset key : delitem key st = (st, Raise missing_prefix).
Proof. unfold delitem, bind. rewrite get_url_prefix_unset. reflexivity. Qed.

Lemma getitem_unset key : getitem key st = (st, Raise (KeyError key)).
Proof.
  unfold getitem, try_except, bind. rewrite get_url_prefix_unset. reflexivity.
Qed.

Lemma gen_next_unset fuel :
  gen_next fuel GenCreated st = (st, Raise missing_prefix).
Proof. unfold gen_next, bind. rewrite fetch_elements_unset. reflexivity. Qed.

Lemma for_each_unset {B} fuel (body : Element -> B -> M B) acc :
  for_each (S fuel) GenCreated body acc st = (st, Raise missing_prefix).
Proof.
  cbn [for_each]. unfold bind. rewrite gen_next_unset. reflexivity.
Qed.

Lemma keys_unset fuel pg : keys (S fuel) pg st = (st, Raise missing_prefix).
Proof.
  unfold keys. destruct (pg =? -1).
  - unfold iter, bind at 1, ret. apply for_each_unset.
  - unfold bind. rewrite fetch_elements_unset. reflexivity.
Qed.

End NoPrefix.

Lemma add_element_bytes_unset st title description tags http_ref b interpret :
  data (self st) !! "url_prefix" = None ->
  add_element title description tags http_ref (CBytes b) interpret st
  = (st, Raise missing_prefix).
Proof.
  intros Hu. unfold add_element, resolve_content.
  unfold bind at 1. unfold ret at 1. unfold bind.
  rewrite (get_url_prefix_unset st Hu). reflexivity.
Qed.

Lemma add_element_file_unset st title description tags http_ref path b
    interpret :
  data (self st) !! "url_prefix" = None ->
  fs (world st) !! path = Some (File b) ->
  outcome (add_element title description tags http_ref (CPath path) interpret)
    st = Raise missing_prefix.
Proof.
  intros Hu Hf. unfold outcome, add_element, resolve_content,
    os_path_exists, read_file, apply_cipher.
  unfold_monad. simpl. rewrite Hf. simpl. rewrite Hf. simpl.
  destruct (binary_interpreter (self st)); simpl; rewrite Hu; reflexivity.
Qed.

Lemma add_element_no_file st title description tags http_ref path interpret :
  fs (world st) !! path = None ->
  outcome (add_element title description tags http_ref (CPath path) interpret)
    st
  = Raise (Exception "content must be a binary data or a URI to a file.").
Proof.
  intros Hf. unfold outcome, add_element, resolve_content, os_path_exists.
  unfold_monad. simpl. rewrite Hf.
  rewrite bool_decide_eq_false_2 by (intros [x Hx]; discriminate Hx).
  reflexivity.
Qed.

Lemma save_to_folder_unset json_dump st fuel folder metadata_format ext :
  data (self st) !! "url_prefix" = None ->
  metadata_format = "json" \/ metadata_format = "csv" ->
  outcome (save_to_folder json_dump (S fuel) folder metadata_format ext) st
  = Raise missing_prefix.
Proof.
  intros Hu Hfmt.
  destruct (mkdir_best_effort folder st) as (st' & Hrun & Hself & _).
  assert (Hu' : data (self st') !! "url_prefix" = None) by (rewrite Hself; exact Hu).
  unfold outcome, save_to_folder.
  unfold bind at 1. rewrite Hrun.
  destruct Hfmt as [-> | ->]; cbn [format_saver String.eqb Ascii.eqb Bool.eqb];
    unfold iter, bind at 1, ret at 1; unfold bind at 1;
    rewrite (for_each_unset st' Hu'); reflexivity.
Qed.

Lemma Dataset_init_prefix url_prefix title description reference tags tok
    interp tok_info :
  data (Dataset_init url_prefix title description reference tags tok interp
          tok_info) !! "url_prefix"
  = if contains_char "/" url_prefix then Some (VStr url_prefix)
    else match tok with
         | Some t => Some (VStr (get_prefix t +:+ "/" +:+ url_prefix))
         | None => None
         end.
Proof.
  unfold Dataset_init. cbn [data].
  do 4 (rewrite lookup_insert_ne by discriminate).
  destruct (contains_char "/" url_prefix).
  - apply lookup_insert_eq.
  - destruct tok; [apply lookup_insert_eq | apply lookup_empty].
Qed.

(** C9, as the code has it.  A dataset built from a name with a slash, or
    with a token, always has its [url_prefix] entry set.  Built from a name
    without a slash and without a token, the entry is unset, and every
    operation that builds a remote URL raises [KeyError]: the accessor,
    [update], [refresh], [__delitem__], [__getitem__] (with the looked-up key),
    the first [next] of the iterator ([__iter__] itself only creates the
    generator), [keys], [save_to_folder] with a supported format, and
    [add_element] with bytes or a readable file.  Two guards fire before any
    URL is built and raise a plain [Exception] instead: [add_element] on a
    path that does not exist, and [save_to_folder] on an unsupported
    format. *)
Theorem url_prefix_entry_and_KeyError json_dump (url_prefix : string)
    (title description reference tags : pyval) (tok : option Token)
    (interp : option Interpreter) (tok_info : pyval) :
  let ds := Dataset_init url_prefix title description reference tags tok
              interp tok_info in
  (contains_char "/" url_prefix = true \/ tok <> None ->
   is_Some (data ds !! "url_prefix"))
  /\ (contains_char "/" url_prefix = false -> tok = None ->
      data ds !! "url_prefix" = None
      /\ forall w,
          let st := {| self := ds; world := w |} in
          outcome get_url_prefix st = Raise missing_prefix
          /\ outcome update st = Raise missing_prefix
          /\ outcome refresh st = Raise missing_prefix
          /\ (forall key, outcome (delitem key) st = Raise missing_prefix)
          /\ (forall key, outcome (getitem key) st = Raise (KeyError key))
          /\ outcome iter st = Ok GenCreated
          /\ (forall fuel,
                outcome (gen_next fuel GenCreated) st = Raise missing_prefix)
          /\ (forall fuel pg,
                outcome (keys (S fuel) pg) st = Raise missing_prefix)
          /\ (forall fuel folder metadata_format ext,
                metadata_format = "json" \/ metadata_format = "csv" ->
                outcome (save_to_folder json_dump (S fuel) folder
                           metadata_format ext) st
                = Raise missing_prefix)
          /\ (forall title description tags http_ref b interpret,
                outcome (add_element title description tags http_ref
                           (CBytes b) interpret) st
                = Raise missing_prefix)
          /\ (forall title description tags http_ref path b interpret,
                fs w !! path = Some (File b) ->
                outcome (add_element title description tags http_ref
                           (CPath path) interpret) st
                = Raise missing_prefix)
          /\ (forall title description tags http_ref path interpret,
                fs w !! path = None ->
                outcome (add_element title description tags http_ref
                           (CPath path) interpret) st
                = Raise (Exception
                           "content must be a binary data or a URI to a file."))
          /\ (forall fuel folder metadata_format ext,
                metadata_format <> "json" -> metadata_format <> "csv" ->
                outcome (save_to_folder json_dump fuel folder metadata_format
                           ext) st
                = Raise (Exception ("format " +:+ metadata_format
                                    +:+ " for metadata not supported.")))).
Proof.
  intros ds. split.
  - intros H. unfold ds. rewrite Dataset_init_prefix.
    destruct (contains_char "/" url_prefix); [eauto|].
    destruct tok; [eauto|]. destruct H as [H|H]; [discriminate | congruence].
  - intros Hslash ->.
    assert (Hu : data ds !! "url_prefix" = None)
      by (unfold ds; rewrite Dataset_init_prefix, Hslash; reflexivity).
    split; [exact Hu|]. intros w st.
    assert (Hst : data (self st) !! "url_prefix" = None) by exact Hu.
    unfold outcome.
    repeat split; intros.
    + rewrite get_url_prefix_unset; auto.
    + rewrite update_unset; auto.
    + rewrite refresh_unset; auto.
    + rewrite delitem_unset; auto.
    + rewrite getitem_unset; auto.
    + rewrite gen_next_unset; auto.
    + rewrite keys_unset; auto.
    + apply save_to_folder_unset; auto.
    + rewrite add_element_bytes_unset; auto.
    + eapply add_element_file_unset; eauto.
    + apply add_element_no_file; auto.
    + destruct (mkdir_best_effort folder st) as (st' & Hrun & _).
      unfold save_to_folder.
      rewrite format_saver_unsupported by assumption.
      unfold bind at 1. rewrite Hrun. reflexivity.
Qed.

Lemma url_prefix_entry_and_KeyError_witness :
  data Sample.unprefixed !! "url_prefix" = None
  /\ outcome refresh (Sample.state Sample.unprefixed ∅) = Raise missing_prefix.
Proof.
  destruct (url_prefix_entry_and_KeyError (fun _ => "{}") "d" (VStr "T0")
              (VStr "D0") (VStr "R0") (VList []) None None VNone)
    as [_ H].
  destruct (H eq_refl eq_refl) as [Hu Hops].
  split; [exact Hu|].
  destruct (Hops (world (Sample.state Sample.unprefixed ∅)))
    as (_ & _ & Hr & _).
  exact Hr.
Defined.

(** C9 as stated fails: with the entry unset, [add_element] on a path that
    does not exist and [save_to_folder] on an unsupported format raise a
    plain [Exception], not a [KeyError]. *)
Lemma unset_prefix_not_always_KeyError :
  let st := Sample.state Sample.unprefixed ∅ in
  let added := outcome (add_element "t" "d" [] "h" (CPath "nofile") true) st in
  let saved := outcome (save_to_folder (fun _ => "{}") 5 "out" "xml" None) st in
  data (self st) !! "url_prefix" = None
  /\ added
     = Raise (Exception "content must be a binary data or a URI to a file.")
  /\ saved = Raise (Exception "format xml for metadata not supported.")
  /\ (forall k, added <> Raise (KeyError k))
  /\ (forall k, saved <> Raise (KeyError k)).
Proof.
  vm_compute. repeat split; intros; discriminate.
Qed.

(** ** Adding an element *)

Lemma resolve_content_bytes b st : resolve_content (CBytes b) st = (st, Ok b).
Proof. reflexivity. Qed.

(** A path to an existing file: the bytes read go through [cipher] whenever
    an interpreter is configured. *)
Lemma resolve_content_file path raw st :
  fs (world st) !! path = Some (File raw) ->
  resolve_content (CPath path) st
  = match binary_interpreter (self st) with
    | Some i =>
        (logged (EvCipher raw) (logged (EvRead path) (logged (EvExists path) st)),
         Ok (cipher i raw))
    | None => (logged (EvRead path) (logged (EvExists path) st), Ok raw)
    end.
Proof.
  intros Hf. unfold resolve_content, os_path_exists, read_file, apply_cipher.
  unfold_monad. simpl. rewrite Hf. simpl. rewrite Hf. simpl.
  destruct (binary_interpreter (self st)); reflexivity.
Qed.

Lemma set_content_ok el content interpret st :
  put_reply (remote (world st)) (e_id el)
    (packet_of (e_interpreter el) interpret content) = Success tt ->
  exists st',
    Element_set_content el content interpret st = (st', Ok tt)
    /\ self st' = self st
    /\ fs (world st') = fs (world st)
    /\ trace (world st')
       = trace (world st)
         ++ packet_events (e_interpreter el) interpret content
         ++ [EvRequest (PUT_content (e_id el)
                          (packet_of (e_interpreter el) interpret content))].
Proof.
  unfold Element_set_content, packet_of, packet_events, apply_cipher.
  destruct (e_interpreter el) as [i|]; [destruct interpret|];
    intros Hput; unfold_monad; simpl; rewrite Hput;
    (eexists; split; [reflexivity|]); simpl;
    rewrite <- ?app_assoc; auto.
Qed.

(** The run of [add_element] once its content is resolved. *)
Lemma add_element_ok st st1 title description tags http_ref content c
    interpret (d : gmap string pyval) (p new_id ec cc up ti de re ta : pyval)
    (r : Summary) :
  let body := {| b_title := title; b_description := description;
                 b_tags := tags; b_http_ref := http_ref |} in
  let interp := binary_interpreter (self st1) in
  resolve_content content st = (st1, Ok c) ->
  data (self st1) !! "url_prefix" = Some p ->
  insert_reply (remote (world st1)) p body = Success new_id ->
  dataset_record (remote (world st1)) p = Success d ->
  d !! "elements_count" = Some ec ->
  d !! "comments_count" = Some cc ->
  d !! "url_prefix" = Some up ->
  d !! "title" = Some ti ->
  d !! "description" = Some de ->
  d !! "reference" = Some re ->
  d !! "tags" = Some ta ->
  element_record (remote (world st1)) up new_id = Success r ->
  put_reply (remote (world st1)) (s_id r) (packet_of interp interpret c)
  = Success tt ->
  exists st',
    add_element title description tags http_ref content interpret st
    = (st', Ok (Element_from_dict r interp))
    /\ trace (world st')
       = trace (world st1)
         ++ [EvRequest (POST_element p body);
             EvRequest (GET_dataset p);
             EvRequest (GET_element up new_id)]
         ++ packet_events interp interpret c
         ++ [EvRequest (PUT_content (s_id r) (packet_of interp interpret c))].
Proof.
  intros body interp Hres Hp Hins Hd Hec Hcc Hup Hti Hde Hre Hta Hel Hput.
  unfold add_element. fold body.
  rewrite (bind_ok _ _ _ _ _ Hres).
  rewrite (bind_ok _ _ _ _ _ (get_url_prefix_ok _ _ Hp)).
  rewrite (bind_ok _ _ _ _ _ (request_ok _ _ _ _ Hins)).
  erewrite bind_ok; cycle 1.
  { eapply refresh_ok; [exact Hp | exact Hd | eassumption ..]. }
  set (st2 := refreshed _ _ _ _ _ _ _ _ _).
  assert (Hget : getitem new_id st2
                 = (logged (EvRequest (GET_element up new_id)) st2,
                    Ok (Element_from_dict r interp))).
  { pose proof (getitem_run new_id st2) as H.
    replace (data (self st2) !! "url_prefix") with (Some up) in H
      by (symmetry; apply lookup_insert_eq).
    replace (element_record (remote (world st2)) up new_id)
      with (Success r) in H by (symmetry; exact Hel).
    exact H. }
  rewrite (bind_ok _ _ _ _ _ Hget).
  destruct (set_content_ok (Element_from_dict r interp) c interpret
              (logged (EvRequest (GET_element up new_id)) st2))
    as (st' & Hrun & _ & _ & Htr); [exact Hput|].
  rewrite (bind_ok _ _ _ _ _ Hrun).
  eexists. split; [reflexivity|].
  rewrite Htr. simpl. rewrite <- !app_assoc. reflexivity.
Qed.

Lemma requests_of_app tr1 tr2 :
  requests_of (tr1 ++ tr2) = requests_of tr1 ++ requests_of tr2.
Proof.
  induction tr1 as [|ev tr1 IH]; [reflexivity|].
  destruct ev; simpl; rewrite IH; reflexivity.
Qed.


(** The first part of [add_element] sends no request, keeps the dataset and
    the remote side, and yields the bytes to attach. *)
Lemma resolve_content_available content raw st :
  content_available (fs (world st)) content raw ->
  exists st1,
    resolve_content content st
    = (st1, Ok (handed_content (binary_interpreter (self st)) content raw))
    /\ self st1 = self st
    /\ remote (world st1) = remote (world st)
    /\ requests_of (trace (world st1)) = requests_of (trace (world st)).
Proof.
  destruct content as [path|b]; cbn [content_available handed_content];
    intros Hc.
  - pose proof (resolve_content_file _ _ _ Hc) as Hr.
    destruct (binary_interpreter (self st)); eexists;
      (split; [exact Hr|]); simpl; rewrite !requests_of_app; simpl;
      rewrite ?app_nil_r; auto.
  - exists st. auto.
Qed.



Lemma cipher_calls_app tr1 tr2 :
  cipher_calls (tr1 ++ tr2) = cipher_calls tr1 ++ cipher_calls tr2.
Proof.
  induction tr1 as [|ev tr1 IH]; [reflexivity|].
  destruct ev; simpl; rewrite IH; reflexivity.
Qed.

Lemma uploads_app tr1 tr2 :
  uploads (tr1 ++ tr2) = uploads tr1 ++ uploads tr2.
Proof.
  induction tr1 as [|ev tr1 IH]; [reflexivity|].
  destruct ev as [[]| | | | | |]; simpl; rewrite IH; reflexivity.
Qed.

(** For a path to an existing file and a configured interpreter, the bytes of
    the file go through [cipher] inside [add_element] whatever [interpret]
    is, and once more at the write boundary when [interpret] is set. *)
Lemma add_element_file_ciphers st title description tags http_ref path raw
    (interpret : bool) (i : Interpreter) (d : gmap string pyval)
    (p new_id ec cc up ti de re ta : pyval) (r : Summary) :
  let body := {| b_title := title; b_description := description;
                 b_tags := tags; b_http_ref := http_ref |} in
  let packet := if interpret then cipher i (cipher i raw) else cipher i raw in
  binary_interpreter (self st) = Some i ->
  fs (world st) !! path = Some (File raw) ->
  data (self st) !! "url_prefix" = Some p ->
  insert_reply (remote (world st)) p body = Success new_id ->
  dataset_record (remote (world st)) p = Success d ->
  d !! "elements_count" = Some ec ->
  d !! "comments_count" = Some cc ->
  d !! "url_prefix" = Some up ->
  d !! "title" = Some ti ->
  d !! "description" = Some de ->
  d !! "reference" = Some re ->
  d !! "tags" = Some ta ->
  element_record (remote (world st)) up new_id = Success r ->
  put_reply (remote (world st)) (s_id r) packet = Success tt ->
  exists st',
    add_element title description tags http_ref (CPath path) interpret st
    = (st', Ok (Element_from_dict r (Some i)))
    /\ cipher_calls (trace (world st'))
       = cipher_calls (trace (world st))
         ++ raw :: (if interpret then [cipher i raw] else [])
    /\ uploads (trace (world st')) = uploads (trace (world st)) ++ [packet].
Proof.
  intros body packet Hi Hf Hp Hins Hd Hec Hcc Hup Hti Hde Hre Hta Hel Hput.
  pose proof (resolve_content_file path raw st Hf) as Hres.
  rewrite Hi in Hres.
  set (st1 := logged (EvCipher raw) _) in Hres.
  assert (Hput1 : put_reply (remote (world st1)) (s_id r)
                    (packet_of (binary_interpreter (self st1)) interpret
                       (cipher i raw)) = Success tt).
  { cbn [st1 logged self world remote]. rewrite Hi.
    unfold packet_of. destruct interpret; exact Hput. }
  destruct (add_element_ok st st1 title description tags http_ref (CPath path)
              (cipher i raw) interpret d p new_id ec cc up ti de re ta r
              Hres Hp Hins Hd Hec Hcc Hup Hti Hde Hre Hta Hel Hput1)
    as (st' & Hrun & Htr).
  cbn [st1 logged self world] in Hrun, Htr. rewrite Hi in Hrun, Htr.
  exists st'. split; [exact Hrun|].
  rewrite Htr. unfold packet_of, packet_events, packet.
  destruct interpret; simpl;
    rewrite !cipher_calls_app, !uploads_app; simpl;
    rewrite ?app_nil_r, <- ?app_assoc; auto.
Qed.

(** C4, evaluated on the code.  A file holding one byte is added to a
    dataset whose interpreter prepends a marker byte.  With [interpret]
    unset the file bytes still go through [cipher] and are uploaded
    transformed; with [interpret] set they go through [cipher] twice. *)
Theorem add_element_file_ciphered_whatever_interpret :
  let st := Sample.state (Sample.dataset (Some Sample.marker)) Sample.disk in
  let after (interpret : bool) :=
    trace (world (fst (add_element "t" "d" [] "h" (CPath "f.bin")
                         interpret st))) in
  cipher_calls (after false) = [ [x01] ]
  /\ uploads (after false) = [ [x2a; x01] ]
  /\ cipher_calls (after true) = [ [x01]; [x2a; x01] ]
  /\ uploads (after true) = [ [x2a; x2a; x01] ].
Proof. vm_compute. auto. Qed.

(** ** The csv metadata file *)

Lemma append_cons c (s1 s2 : string) :
  String c s1 +:+ s2 = String c (s1 +:+ s2).
Proof. reflexivity. Qed.

Lemma append_empty_l (s : string) : "" +:+ s = s.
Proof. reflexivity. Qed.

Ltac simpl_append := rewrite ?append_cons, ?append_empty_l; simpl.

Lemma append_assoc (s1 s2 s3 : string) :
  (s1 +:+ s2) +:+ s3 = s1 +:+ (s2 +:+ s3).
Proof.
  induction s1 as [|c s1 IH]; simpl_append; [|rewrite IH]; reflexivity.
Qed.

Lemma append_empty_r (s : string) : s +:+ "" = s.
Proof.
  induction s as [|c s IH]; simpl_append; [|rewrite IH]; reflexivity.
Qed.

Lemma snoc_append field c s : snoc field c +:+ s = field +:+ String c s.
Proof. unfold snoc. rewrite append_assoc. reflexivity. Qed.

Lemma csv_special_false c :
  csv_special c = false ->
  Ascii.eqb c delimiter = false /\ Ascii.eqb c quotechar = false
  /\ Ascii.eqb c CR = false /\ Ascii.eqb c LF = false.
Proof.
  unfold csv_special. intros H.
  repeat (apply orb_false_elim in H; destruct H as [H ?]). auto.
Qed.

(** Inside an unquoted field, plain characters accumulate. *)
Lemma read_plain s : forall field row rest,
  csv_needs_quotes s = false ->
  csv_read InField field row (s +:+ rest)
  = csv_read InField (field +:+ s) row rest.
Proof.
  induction s as [|c s IH]; intros field row rest Hs; simpl in Hs; simpl_append.
  - rewrite append_empty_r. reflexivity.
  - apply orb_false_elim in Hs. destruct Hs as [Hc Hs].
    destruct (csv_special_false c Hc) as (Hd & Hq & Hcr & Hlf).
    rewrite Hcr, Hlf, Hd. rewrite IH by exact Hs.
    rewrite snoc_append. reflexivity.
Qed.

(** Inside a quoted field, the escaped text is read back as the field. *)
Lemma read_quoted s : forall field row rest,
  csv_read InQuoted field row (csv_escape s +:+ rest)
  = csv_read InQuoted (field +:+ s) row rest.
Proof.
  induction s as [|c s IH]; intros field row rest; simpl_append.
  - rewrite append_empty_r. reflexivity.
  - destruct (Ascii.eqb c quotechar) eqn:Hq; simpl_append; rewrite Hq.
    + rewrite ?Hq, IH, snoc_append. reflexivity.
    + rewrite IH, snoc_append. reflexivity.
Qed.

Lemma read_field_delimiter st row f rest :
  field_start st row ->
  csv_read st "" row (csv_field f +:+ String delimiter rest)
  = csv_read AtFieldStart "" (row ++ [f]) rest.
Proof.
  intros Hst. unfold csv_field.
  destruct (csv_needs_quotes f) eqn:Hn.
  - transitivity (csv_read InQuoted "" row
                    (csv_escape f +:+ String quotechar (String delimiter rest))).
    { destruct Hst; simpl_append; rewrite append_assoc; reflexivity. }
    rewrite read_quoted. reflexivity.
  - destruct f as [|c f].
    + destruct Hst; reflexivity.
    + simpl in Hn. apply orb_false_elim in Hn. destruct Hn as [Hc Hn].
      destruct (csv_special_false c Hc) as (Hd & Hq & Hcr & Hlf).
      transitivity (csv_read InField (String c "") row
                      (f +:+ String delimiter rest)).
      { destruct Hst; simpl_append; rewrite Hcr, Hlf, Hq, Hd; reflexivity. }
      rewrite read_plain by exact Hn. reflexivity.
Qed.

Lemma read_field_line_end row f rest :
  csv_read AtFieldStart "" row (csv_field f +:+ csv_line_end +:+ rest)
  = (row ++ [f]) :: csv_rows rest.
Proof.
  unfold csv_field, csv_line_end, csv_rows.
  destruct (csv_needs_quotes f) eqn:Hn.
  - simpl_append. rewrite append_assoc, read_quoted. reflexivity.
  - destruct f as [|c f].
    + reflexivity.
    + simpl in Hn. apply orb_false_elim in Hn. destruct Hn as [Hc Hn].
      destruct (csv_special_false c Hc) as (Hd & Hq & Hcr & Hlf).
      simpl_append. rewrite Hcr, Hlf, Hq, Hd.
      rewrite read_plain by exact Hn. reflexivity.
Qed.

Lemma read_fields fields : forall row f rest,
  csv_read AtFieldStart "" row
    (join "," (map csv_field (f :: fields)) +:+ csv_line_end +:+ rest)
  = (row ++ f :: fields) :: csv_rows rest.
Proof.
  induction fields as [|f' fields IH]; intros row f rest.
  - apply read_field_line_end.
  - change (join "," (map csv_field (f :: f' :: fields)))
      with (csv_field f +:+ "," +:+ join "," (map csv_field (f' :: fields))).
    rewrite !append_assoc.
    change ("," +:+ ?x) with (String delimiter x).
    rewrite read_field_delimiter by constructor.
    rewrite IH, <- app_assoc. reflexivity.
Qed.

(** A row of two fields or more is read back as written. *)
Lemma read_row f f' fields rest :
  csv_rows (csv_writerow (f :: f' :: fields) +:+ rest)
  = (f :: f' :: fields) :: csv_rows rest.
Proof.
  assert (Hrow : csv_writerow (f :: f' :: fields)
                 = join "," (map csv_field (f :: f' :: fields))
                   +:+ csv_line_end)
    by (destruct f; reflexivity).
  rewrite Hrow.
  change (join "," (map csv_field (f :: f' :: fields)))
    with (csv_field f +:+ "," +:+ join "," (map csv_field (f' :: fields))).
  rewrite !append_assoc.
  unfold csv_rows at 1.
  change ("," +:+ ?x) with (String delimiter x).
  rewrite read_field_delimiter by constructor.
  apply read_fields.
Qed.

Lemma read_rows rows :
  Forall (fun r => (2 <= length r)%nat) rows ->
  csv_rows (csv_writerows rows) = rows.
Proof.
  induction 1 as [|r rows Hr _ IH]; [reflexivity|].
  destruct r as [|f [|f' fields]]; simpl in Hr; try lia.
  cbn [csv_writerows]. rewrite read_row, IH. reflexivity.
Qed.

Lemma csv_text_rows metadata :
  csv_rows (csv_text metadata) = csv_header :: map csv_record metadata.
Proof.
  unfold csv_text. apply read_rows. constructor.
  - simpl. lia.
  - apply Forall_forall. intros r Hr.
    apply list_elem_of_fmap in Hr. destruct Hr as ([k v] & -> & _).
    simpl. lia.
Qed.

Lemma write_file_ok path content st :
  parent_exists (fs (world st)) path = true ->
  fs (world st) !! path <> Some Dir ->
  write_file path content st
  = ({| self := self st;
        world := {| remote := remote (world st);
                    fs := <[path := File content]> (fs (world st));
                    trace := trace (world st) ++ [EvWrite path content] |} |},
     Ok tt).
Proof.
  intros Hparent Hdir. unfold write_file, open_for_writing. unfold_monad.
  simpl.
  destruct (fs (world st) !! path) as [[|old]|] eqn:Hf; simpl.
  - congruence.
  - rewrite insert_insert_eq. reflexivity.
  - rewrite Hparent. simpl. rewrite insert_insert_eq. reflexivity.
Qed.

(** ** The pagination iterator *)

Lemma bind_assoc {A B C} (m : M A) (k1 : A -> M B) (k2 : B -> M C) st :
  bind (bind m k1) k2 st = bind m (fun x => bind (k1 x) k2) st.
Proof. unfold bind. destruct (m st) as [st' [a|e|]]; reflexivity. Qed.

Lemma evolves_refl st : evolves st [] st.
Proof. unfold evolves. rewrite app_nil_r. auto. Qed.

Lemma evolves_trans st1 st2 st3 evs1 evs2 :
  evolves st1 evs1 st2 -> evolves st2 evs2 st3 ->
  evolves st1 (evs1 ++ evs2) st3.
Proof.
  intros (Hs1 & Hr1 & Hf1 & Ht1) (Hs2 & Hr2 & Hf2 & Ht2).
  unfold evolves. rewrite Hs2, Hr2, Hf2, Ht2, Ht1, app_assoc. auto.
Qed.

Lemma evolves_logged ev st : evolves st [ev] (logged ev st).
Proof. unfold evolves, logged. simpl. auto. Qed.

Lemma gtb_true a b : b < a -> (a >? b) = true.
Proof. intros H. rewrite Z.gtb_ltb. apply Z.ltb_lt. exact H. Qed.

Lemma gtb_false a b : a <= b -> (a >? b) = false.
Proof. intros H. rewrite Z.gtb_ltb. apply Z.ltb_ge. exact H. Qed.

Lemma geb_true a b : b <= a -> (a >=? b) = true.
Proof. intros H. rewrite Z.geb_leb. apply Z.leb_le. exact H. Qed.

Lemma geb_false a b : a < b -> (a >=? b) = false.
Proof. intros H. rewrite Z.geb_leb. apply Z.leb_gt. exact H. Qed.

Lemma py_index_ok {A} (l : list A) (j : nat) (x : A) st :
  l !! j = Some x -> py_index l (Z.of_nat j) st = (st, Ok x).
Proof.
  intros Hl. pose proof (lookup_lt_Some _ _ _ Hl) as Hlt.
  unfold py_index.
  assert (H0 : (Z.of_nat j <? 0) = false) by (apply Z.ltb_ge; lia).
  rewrite H0.
  assert (H1 : (0 <=? Z.of_nat j) = true) by (apply Z.leb_le; lia).
  assert (H2 : (Z.of_nat j <? Z.of_nat (length l)) = true)
    by (apply Z.ltb_lt; lia).
  rewrite H1, H2, Nat2Z.id, Hl. reflexivity.
Qed.

(** The flooring half of a length, in [Z] and in [nat]. *)
Lemma half_of_nat (len : nat) : Z.of_nat len / 2 = Z.of_nat (len / 2).
Proof. rewrite (Nat2Z.inj_div len 2). reflexivity. Qed.

Section Iteration.

Variable pages : nat -> list Summary.
Variable n : nat.
Variable p : pyval.
Variable ds : Dataset.
Variable rm : Remote.

Hypothesis prefix_set : data ds !! "url_prefix" = Some p.
Hypothesis first_page : elements_page rm p None = Success (pages O).
Hypothesis next_pages :
  forall k, elements_page rm p (Some (Z.of_nat (S k))) = Success (pages (S k)).
Hypothesis nonempty : forall k, (k < n)%nat -> pages k <> [].
Hypothesis last_empty : pages n = [].

Lemma good_evolves st evs st' : good ds rm st -> evolves st evs st' -> good ds rm st'.
Proof.
  intros [Hs Hr] (Hs' & Hr' & _). unfold good. rewrite Hs', Hr'. auto.
Qed.

Lemma fetch_first st :
  good ds rm st ->
  fetch_elements None st
  = (logged (EvRequest (GET_elements p None)) st, Ok (pages O)).
Proof.
  intros [Hs Hr]. unfold fetch_elements.
  rewrite (bind_ok _ _ _ _ _ (get_url_prefix_ok st p ltac:(rewrite Hs; exact prefix_set))).
  apply request_ok. rewrite Hr. exact first_page.
Qed.

Lemma fetch_next st k z :
  good ds rm st -> z = Z.of_nat (S k) ->
  fetch_elements (Some z) st = (logged (fetch_event p k) st, Ok (pages (S k))).
Proof.
  intros [Hs Hr] ->. unfold fetch_elements, fetch_event.
  rewrite (bind_ok _ _ _ _ _ (get_url_prefix_ok st p ltac:(rewrite Hs; exact prefix_set))).
  apply request_ok. rewrite Hr. apply next_pages.
Qed.

(** One pass through the loop body that stays in the current page. *)
Lemma loop_body_yield k j r s v st :
  good ds rm st -> at_position pages v k j r -> pages k !! j = Some s ->
  let due := (length (pages k) / 2 <? j)%nat in
  exists v' st',
    loop_body v st = (st', Ok (Some (hydrate ds s), v'))
    /\ at_position pages v' k (S j) (r || due)
    /\ evolves st ((if due && negb r then [fetch_event p k] else [])
                   ++ [EvYield s]) st'.
Proof.
  intros Hgood Hpos Hl due.
  pose proof (lookup_lt_Some _ _ _ Hl) as Hlt.
  assert (Hdue : (Z.of_nat j >? Z.of_nat (length (pages k) / 2)) = due).
  { unfold due. destruct (Nat.ltb_spec (length (pages k) / 2) j).
    - apply gtb_true. lia.
    - apply gtb_false. lia. }
  clearbody due.
  destruct v as [pg fi se req it].
  unfold at_position in Hpos.
  cbn [iteration first second page new_list_requested] in Hpos.
  destruct Hpos as (Hpg & Hf & Hs & Hr & Hit). subst pg fi se req it.
  destruct Hgood as [Hds Hrm].
  unfold loop_body. cbn [iteration first second page new_list_requested].
  replace (Z.of_nat j - 1 + 1) with (Z.of_nat j) by lia.
  rewrite half_of_nat, Hdue.
  destruct (due && negb r) eqn:Hc.
  - apply andb_true_iff in Hc. destruct Hc as [Hd Hnr].
    apply negb_true_iff in Hnr. subst r. rewrite Hd. clear Hdue.
    eexists _, _. split; [|split].
    + rewrite (bind_ok _ _ _ _ _
                 (bind_ok _ _ _ _ _
                    (fetch_next st k (Z.of_nat k + 1) (conj Hds Hrm)
                       ltac:(lia)))).
      unfold ret at 1. cbn [iteration first second page new_list_requested].
      rewrite (geb_false (Z.of_nat j) (Z.of_nat (length (pages k)))) by lia.
      cbn [iteration first second page new_list_requested].
      rewrite (gtb_true (Z.of_nat (length (pages k))) (Z.of_nat j)) by lia.
      rewrite (bind_ok _ _ _ _ _ (py_index_ok _ _ _ _ Hl)).
      unfold_monad. cbn [self world trace remote fs]. rewrite Hds.
      reflexivity.
    + unfold at_position.
      cbn [orb iteration first second page new_list_requested].
      repeat split; lia.
    + unfold evolves. cbn. rewrite <- app_assoc. auto.
  - eexists _, _. split; [|split].
    + unfold bind at 1, ret at 1.
      cbn [iteration first second page new_list_requested].
      rewrite (geb_false (Z.of_nat j) (Z.of_nat (length (pages k)))) by lia.
      cbn [iteration first second page new_list_requested].
      rewrite (gtb_true (Z.of_nat (length (pages k))) (Z.of_nat j)) by lia.
      rewrite (bind_ok _ _ _ _ _ (py_index_ok _ _ _ _ Hl)).
      unfold_monad. cbn [self world trace remote fs]. rewrite Hds.
      reflexivity.
    + unfold at_position.
      destruct r, due; try discriminate Hc;
        cbn [orb iteration first second page new_list_requested];
        repeat split; lia.
    + unfold evolves. cbn. auto.
Qed.

(** The pass through the loop body that exhausts the current page: the next
    page is requested if it was not, the buffers are swapped, and the first
    element of the new page, if any, is yielded. *)
Lemma loop_body_swap k r v st :
  good ds rm st -> at_position pages v k (length (pages k)) r -> pages k <> [] ->
  exists v' st',
    loop_body v st
    = (st', Ok (match pages (S k) with
                | s :: _ => Some (hydrate ds s)
                | [] => None
                end, v'))
    /\ at_position pages v' (S k) 1 false
    /\ evolves st ((if r then [] else [fetch_event p k])
                   ++ match pages (S k) with
                      | s :: _ => [EvYield s]
                      | [] => []
                      end) st'.
Proof.
  intros [Hds Hrm] Hpos Hne.
  assert (Hlen : (0 < length (pages k))%nat)
    by (destruct (pages k); [congruence | simpl; lia]).
  assert (Hhalf : (length (pages k) / 2 < length (pages k))%nat)
    by (apply Nat.div_lt; lia).
  destruct v as [pg fi se req it].
  unfold at_position in Hpos.
  cbn [iteration first second page new_list_requested] in Hpos.
  destruct Hpos as (Hpg & Hf & Hs & Hr & Hit). subst pg fi se req it.
  unfold loop_body. cbn [iteration first second page new_list_requested].
  replace (Z.of_nat (length (pages k)) - 1 + 1)
    with (Z.of_nat (length (pages k))) by lia.
  rewrite half_of_nat.
  rewrite (gtb_true (Z.of_nat (length (pages k)))
             (Z.of_nat (length (pages k) / 2))) by lia.
  assert (Hswap : (Z.of_nat (length (pages k))
                   >=? Z.of_nat (length (pages k))) = true)
    by (apply geb_true; lia).
  destruct (pages (S k)) as [|s l] eqn:Hnext; destruct r; cbn [andb negb];
    eexists _, _; (split; [|split]).
  - unfold bind at 1, ret at 1.
    cbn [iteration first second page new_list_requested].
    rewrite Hswap.
    cbn [iteration first second page new_list_requested].
    rewrite ?Hnext. reflexivity.
  - unfold at_position.
    cbn [iteration first second page new_list_requested].
    rewrite ?Hnext. repeat split; lia.
  - rewrite app_nil_r. apply evolves_refl.
  - rewrite (bind_ok _ _ _ _ _
               (bind_ok _ _ _ _ _
                  (fetch_next st k (Z.of_nat k + 1) (conj Hds Hrm)
                     ltac:(lia)))).
    unfold ret at 1. cbn [iteration first second page new_list_requested].
    rewrite Hswap.
    cbn [iteration first second page new_list_requested].
    rewrite ?Hnext. reflexivity.
  - unfold at_position.
    cbn [iteration first second page new_list_requested].
    rewrite ?Hnext. repeat split; lia.
  - rewrite app_nil_r. apply evolves_logged.
  - unfold bind at 1, ret at 1.
    cbn [iteration first second page new_list_requested].
    rewrite Hswap.
    cbn [iteration first second page new_list_requested].
    rewrite ?Hnext.
    rewrite (gtb_true (Z.of_nat (length (s :: l))) 0)
      by (simpl length; lia).
    rewrite (bind_ok _ _ _ _ _ (py_index_ok (s :: l) O s _ eq_refl)).
    unfold_monad. cbn [self world trace remote fs]. rewrite Hds.
    reflexivity.
  - unfold at_position.
    cbn [iteration first second page new_list_requested].
    rewrite ?Hnext. repeat split; lia.
  - unfold evolves. cbn. auto.
  - rewrite (bind_ok _ _ _ _ _
               (bind_ok _ _ _ _ _
                  (fetch_next st k (Z.of_nat k + 1) (conj Hds Hrm)
                     ltac:(lia)))).
    unfold ret at 1. cbn [iteration first second page new_list_requested].
    rewrite Hswap.
    cbn [iteration first second page new_list_requested].
    rewrite ?Hnext.
    rewrite (gtb_true (Z.of_nat (length (s :: l))) 0)
      by (simpl length; lia).
    rewrite (bind_ok _ _ _ _ _ (py_index_ok (s :: l) O s _ eq_refl)).
    unfold_monad. cbn [self world trace remote fs]. rewrite Hds.
    reflexivity.
  - unfold at_position.
    cbn [iteration first second page new_list_requested].
    rewrite ?Hnext. repeat split; lia.
  - unfold evolves. cbn. rewrite <- app_assoc. auto.
Qed.

(** [next] on a generator suspended inside a page. *)
Lemma resume_yield k j r s v st fuel :
  good ds rm st -> at_position pages v k j r -> pages k !! j = Some s ->
  let due := (length (pages k) / 2 <? j)%nat in
  exists v' st',
    while_loop (S fuel) v st = (st', Ok (Some (hydrate ds s), v'))
    /\ at_position pages v' k (S j) (r || due)
    /\ evolves st ((if due && negb r then [fetch_event p k] else [])
                   ++ [EvYield s]) st'.
Proof.
  intros Hgood Hpos Hl due.
  destruct (loop_body_yield k j r s v st Hgood Hpos Hl)
    as (v' & st' & Hrun & Hpos' & Hev).
  exists v', st'. split; [|auto].
  pose proof (lookup_lt_Some _ _ _ Hl) as Hlt.
  destruct Hpos as (_ & Hf & _).
  cbn [while_loop]. rewrite Hf.
  rewrite (gtb_true (Z.of_nat (length (pages k))) 0) by lia.
  rewrite (bind_ok _ _ _ _ _ Hrun). reflexivity.
Qed.

(** [next] on a generator that has yielded the whole of its page. *)
Lemma resume_swap k r v st fuel :
  good ds rm st -> at_position pages v k (length (pages k)) r -> pages k <> [] ->
  exists v' st',
    while_loop (S (S fuel)) v st
    = (st', Ok (match pages (S k) with
                | s :: _ => Some (hydrate ds s)
                | [] => None
                end, v'))
    /\ at_position pages v' (S k) 1 false
    /\ evolves st ((if r then [] else [fetch_event p k])
                   ++ match pages (S k) with
                      | s :: _ => [EvYield s]
                      | [] => []
                      end) st'.
Proof.
  intros Hgood Hpos Hne.
  destruct (loop_body_swap k r v st Hgood Hpos Hne)
    as (v' & st' & Hrun & Hpos' & Hev).
  exists v', st'. split; [|auto].
  assert (Hlen : (0 < length (pages k))%nat)
    by (destruct (pages k); [congruence | simpl; lia]).
  destruct Hpos as (_ & Hf & _).
  cbn [while_loop]. rewrite Hf.
  rewrite (gtb_true (Z.of_nat (length (pages k))) 0) by lia.
  rewrite (bind_ok _ _ _ _ _ Hrun).
  destruct Hpos' as (_ & Hf' & _).
  destruct (pages (S k)) as [|s l]; [|reflexivity].
  rewrite Hf'. reflexivity.
Qed.

Lemma rest_of_page_start k s l :
  rest_of_page pages p k O false (s :: l)
  = EvYield s :: rest_of_page pages p k 1 false l.
Proof. reflexivity. Qed.

(** Consuming a suspended generator to the end with a pure loop body. *)
Lemma for_each_rest {B} (f : Element -> B -> B) :
  forall d k, n = (k + S d)%nat ->
  forall l j r v acc st fuel,
    good ds rm st -> at_position pages v k j r ->
    drop j (pages k) = l -> (j <= length (pages k))%nat ->
    (length l + length (later_pages pages k d) + 2 <= fuel)%nat ->
    exists st',
      for_each fuel (GenSuspended v) (fun e a => ret (f e a)) acc st
      = (st', Ok (fold_left (fun a s => f (hydrate ds s) a)
                    (l ++ later_pages pages k d) acc))
      /\ evolves st (rest_of_page pages p k j r l ++ later_events pages p k d) st'.
Proof.
  induction d as [|d IHd]; intros k Hn;
    (induction l as [|s l IHl]; intros j r v acc st fuel Hgood Hpos Hl Hj Hfuel).
  - (* last page, exhausted *)
    assert (j = length (pages k)).
    { apply (f_equal length) in Hl. rewrite length_drop in Hl.
      simpl in Hl. lia. }
    subst j.
    destruct fuel as [|[|fuel]]; [cbn [length] in Hfuel; lia ..|].
    destruct (resume_swap k r v st fuel Hgood Hpos
                ltac:(apply nonempty; lia))
      as (v' & st' & Hrun & _ & Hev).
    replace (S k) with n in * by lia. rewrite last_empty in *.
    exists st'. split.
    + cbn [for_each gen_next].
      rewrite (bind_ok _ _ _ _ _ (bind_ok _ _ _ _ _ Hrun)).
      reflexivity.
    + unfold later_events. cbn [rest_of_page seq map concat].
      rewrite !app_nil_r in *. exact Hev.
  - (* last page, one more element *)
    assert (Hs : pages k !! j = Some s).
    { pose proof (lookup_drop (pages k) j 0) as H.
      rewrite Hl, Nat.add_0_r in H. symmetry. exact H. }
    assert (Hl' : drop (S j) (pages k) = l).
    { replace (S j) with (j + 1)%nat by lia.
      rewrite <- drop_drop, Hl. reflexivity. }
    pose proof (lookup_lt_Some _ _ _ Hs) as Hlt.
    destruct fuel as [|fuel]; [cbn [length] in Hfuel; lia|].
    destruct (resume_yield k j r s v st fuel Hgood Hpos Hs)
      as (v' & st' & Hrun & Hpos' & Hev).
    destruct (IHl (S j) _ v' (f (hydrate ds s) acc) st' fuel
                (good_evolves _ _ _ Hgood Hev) Hpos' Hl' ltac:(lia)
                ltac:(cbn [length] in Hfuel; lia))
      as (st'' & Hrun' & Hev').
    exists st''. split.
    + cbn [for_each gen_next].
      rewrite (bind_ok _ _ _ _ _ (bind_ok _ _ _ _ _ Hrun)).
      unfold ret at 1. cbn [suspend].
      unfold bind at 1. unfold ret at 1. exact Hrun'.
    + cbn [rest_of_page]. rewrite <- !app_assoc.
      pose proof (evolves_trans _ _ _ _ _ Hev Hev') as H.
      rewrite <- !app_assoc in H. exact H.
  - (* a page before the last, exhausted *)
    assert (j = length (pages k)).
    { apply (f_equal length) in Hl. rewrite length_drop in Hl.
      simpl in Hl. lia. }
    subst j.
    destruct fuel as [|[|fuel]]; [cbn [length] in Hfuel; lia ..|].
    destruct (resume_swap k r v st fuel Hgood Hpos
                ltac:(apply nonempty; lia))
      as (v' & st' & Hrun & Hpos' & Hev).
    assert (Hnext : pages (S k) <> []) by (apply nonempty; lia).
    destruct (pages (S k)) as [|s l'] eqn:Hpage; [congruence|].
    assert (Hlater : later_pages pages k (S d) = s :: l' ++ later_pages pages (S k) d).
    { unfold later_pages. cbn [seq map concat]. rewrite Hpage. reflexivity. }
    rewrite Hlater in *.
    destruct (IHd (S k) ltac:(lia) l' 1%nat false v' (f (hydrate ds s) acc) st'
                (S fuel) (good_evolves _ _ _ Hgood Hev) Hpos'
                ltac:(rewrite Hpage; reflexivity)
                ltac:(rewrite Hpage; simpl; lia)
                ltac:(cbn [length] in Hfuel; rewrite length_app in Hfuel; lia))
      as (st'' & Hrun' & Hev').
    exists st''. split.
    + cbn [for_each gen_next].
      rewrite (bind_ok _ _ _ _ _ (bind_ok _ _ _ _ _ Hrun)).
      unfold ret at 1. cbn [suspend].
      unfold bind at 1. unfold ret at 1. exact Hrun'.
    + assert (Hle : later_events pages p k (S d)
                    = EvYield s :: rest_of_page pages p (S k) 1 false l'
                      ++ later_events pages p (S k) d).
      { unfold later_events. cbn [seq map concat]. rewrite Hpage.
        reflexivity. }
      rewrite Hle. cbn [rest_of_page].
      pose proof (evolves_trans _ _ _ _ _ Hev Hev') as H.
      rewrite <- !app_assoc in H. exact H.
  - (* a page before the last, one more element *)
    assert (Hs : pages k !! j = Some s).
    { pose proof (lookup_drop (pages k) j 0) as H.
      rewrite Hl, Nat.add_0_r in H. symmetry. exact H. }
    assert (Hl' : drop (S j) (pages k) = l).
    { replace (S j) with (j + 1)%nat by lia.
      rewrite <- drop_drop, Hl. reflexivity. }
    pose proof (lookup_lt_Some _ _ _ Hs) as Hlt.
    destruct fuel as [|fuel]; [cbn [length] in Hfuel; lia|].
    destruct (resume_yield k j r s v st fuel Hgood Hpos Hs)
      as (v' & st' & Hrun & Hpos' & Hev).
    destruct (IHl (S j) _ v' (f (hydrate ds s) acc) st' fuel
                (good_evolves _ _ _ Hgood Hev) Hpos' Hl' ltac:(lia)
                ltac:(cbn [length] in Hfuel; lia))
      as (st'' & Hrun' & Hev').
    exists st''. split.
    + cbn [for_each gen_next].
      rewrite (bind_ok _ _ _ _ _ (bind_ok _ _ _ _ _ Hrun)).
      unfold ret at 1. cbn [suspend].
      unfold bind at 1. unfold ret at 1. exact Hrun'.
    + cbn [rest_of_page]. rewrite <- !app_assoc.
      pose proof (evolves_trans _ _ _ _ _ Hev Hev') as H.
      rewrite <- !app_assoc in H. exact H.
Qed.

Lemma initial_position : at_position pages (initial (pages O)) O O false.
Proof. unfold at_position, initial. cbn. auto. Qed.

(** Consuming a fresh generator to the end with a pure loop body. *)
Lemma for_each_all {B} (f : Element -> B -> B) acc st fuel :
  good ds rm st -> (length (all_pages pages n) + 2 <= fuel)%nat ->
  exists st',
    for_each fuel GenCreated (fun e a => ret (f e a)) acc st
    = (st', Ok (fold_left (fun a s => f (hydrate ds s) a)
                  (all_pages pages n) acc))
    /\ evolves st (all_events pages n p) st'.
Proof.
  intros Hgood Hfuel. unfold all_pages, all_events in *.
  destruct fuel as [|fuel]; [lia|].
  pose proof (evolves_logged (EvRequest (GET_elements p None)) st) as Hev0.
  pose proof (good_evolves _ _ _ Hgood Hev0) as Hgood0.
  assert (Hcases : pages O = [] \/ exists s l, pages O = s :: l)
    by (destruct (pages O); eauto).
  destruct Hcases as [Hpage | (s & l & Hpage)].
  - (* no element at all *)
    assert (Hn : n = O).
    { destruct (Nat.eq_dec n O) as [|Hpos]; [assumption|].
      exfalso. apply (nonempty O); [lia | exact Hpage]. }
    rewrite Hn. cbn [seq map concat fold_left].
    exists (logged (EvRequest (GET_elements p None)) st). split; [|exact Hev0].
    cbn [for_each gen_next].
    rewrite bind_assoc, (bind_ok _ _ _ _ _ (fetch_first st Hgood)).
    rewrite Hpage. reflexivity.
  - assert (Hn : exists d, n = S d).
    { destruct (Nat.eq_dec n O) as [Hz|Hpos]; [|exists (pred n); lia].
      pose proof last_empty as Hle. rewrite Hz in Hle. congruence. }
    destruct Hn as [d Hn].
    destruct (resume_yield O O false s (initial (pages O)) _ fuel Hgood0
                initial_position ltac:(rewrite Hpage; reflexivity))
      as (v' & st' & Hrun & Hpos' & Hev).
    cbn [Nat.ltb Nat.leb andb orb app] in Hpos', Hev.
    rewrite Hn in Hfuel |- *.
    change (seq O (S d)) with (O :: seq 1 d) in *.
    cbn [map concat] in *. rewrite Hpage in Hfuel |- *.
    destruct (for_each_rest f d O ltac:(lia) l 1%nat false v'
                (f (hydrate ds s) acc) st' fuel
                (good_evolves _ _ _ Hgood0 Hev) Hpos'
                ltac:(rewrite Hpage; reflexivity)
                ltac:(rewrite Hpage; simpl; lia)
                ltac:(unfold later_pages; rewrite length_app in Hfuel;
                      cbn [length] in Hfuel; lia))
      as (st'' & Hrun' & Hev').
    exists st''. split.
    + cbn [for_each gen_next].
      rewrite bind_assoc, (bind_ok _ _ _ _ _ (fetch_first st Hgood)).
      rewrite Hpage. fold (initial (s :: l)). rewrite <- Hpage at 1.
      rewrite (bind_ok _ _ _ _ _ (bind_ok _ _ _ _ _ Hrun)).
      cbn [suspend]. unfold bind at 1. unfold ret at 1. exact Hrun'.
    + pose proof (evolves_trans _ _ _ _ _ Hev0
                    (evolves_trans _ _ _ _ _ Hev Hev')) as H.
      exact H.
Qed.

(** Once the next page is requested, the rest of the page is only yields. *)
Lemma rest_of_page_requested k l : forall j,
  rest_of_page pages p k j true l = map EvYield l.
Proof.
  induction l as [|s l IH]; intros j; [reflexivity|].
  cbn [rest_of_page]. rewrite andb_false_r. cbn [orb app map].
  rewrite IH. reflexivity.
Qed.

(** Before that, the request comes once the threshold is passed. *)
Lemma rest_of_page_pending k l : forall j,
  (j <= threshold pages k)%nat ->
  rest_of_page pages p k j false l
  = map EvYield (take (threshold pages k - j) l)
    ++ [fetch_event p k]
    ++ map EvYield (drop (threshold pages k - j) l).
Proof.
  unfold threshold.
  induction l as [|s l IH]; intros j Hj.
  - rewrite take_nil, drop_nil. reflexivity.
  - cbn [rest_of_page].
    destruct (Nat.ltb_spec (length (pages k) / 2) j) as [Hdue|Hnot].
    + replace (S (length (pages k) / 2) - j)%nat with O by lia.
      cbn [andb negb orb take drop map app].
      rewrite rest_of_page_requested. reflexivity.
    + replace (S (length (pages k) / 2) - j)%nat
        with (S (S (length (pages k) / 2) - S j)) by lia.
      cbn [andb negb orb take drop map app].
      rewrite IH by lia. reflexivity.
Qed.

Lemma rest_of_page_whole k :
  rest_of_page pages p k O false (pages k) = page_events pages p k.
Proof.
  unfold page_events. rewrite rest_of_page_pending by lia.
  rewrite Nat.sub_0_r. reflexivity.
Qed.

Lemma all_events_pages :
  all_events pages n p
  = EvRequest (GET_elements p None)
    :: concat (map (page_events pages p) (seq O n)).
Proof.
  unfold all_events. f_equal. f_equal.
  apply map_ext. intros k. apply rest_of_page_whole.
Qed.

Lemma in_range_two_buffers g : in_range pages n g -> two_buffers pages g.
Proof.
  intros [-> | (v & k & j & r & -> & _ & _ & _ & Hf & Hs & _)]; [exact I|].
  exists k. split; [exact Hf|]. destruct r; auto.
Qed.

Lemma gen_next_in_range fuel g st :
  good ds rm st -> g = GenCreated \/ in_range pages n g ->
  exists o g' st',
    gen_next (S (S fuel)) g st = (st', Ok (o, g'))
    /\ in_range pages n g' /\ good ds rm st'.
Proof.
  intros Hgood [-> | [-> | (v & k & j & r & -> & Hk & Hj & Hpos)]].
  - pose proof (evolves_logged (EvRequest (GET_elements p None)) st) as Hev0.
    pose proof (good_evolves _ _ _ Hgood Hev0) as Hgood0.
    cbn [gen_next].
    rewrite (bind_ok _ _ _ _ _ (fetch_first st Hgood)).
    assert (Hcases : pages O = [] \/ exists s l, pages O = s :: l)
      by (destruct (pages O); eauto).
    destruct Hcases as [Hpage | (s & l & Hpage)].
    + rewrite Hpage.
      eexists _, _, _. split; [reflexivity|]. split; [left; reflexivity|].
      exact Hgood0.
    + destruct (resume_yield O O false s (initial (pages O)) _ (S fuel) Hgood0
                  initial_position ltac:(rewrite Hpage; reflexivity))
        as (v' & st' & Hrun & Hpos' & Hev).
      fold (initial (pages O)).
      rewrite (bind_ok _ _ _ _ _ Hrun).
      eexists _, _, _. split; [reflexivity|]. split.
      * right. exists v', O, 1%nat. eexists.
        refine (conj eq_refl (conj _ (conj _ Hpos'))).
        -- destruct (Nat.eq_dec n O) as [Hz|Hnz]; [|lia].
           exfalso. pose proof last_empty as Hle. rewrite Hz in Hle.
           congruence.
        -- rewrite Hpage. simpl. lia.
      * exact (good_evolves _ _ _ Hgood0 Hev).
  - eexists _, _, _. split; [reflexivity|]. split; [left; reflexivity|].
    exact Hgood.
  - cbn [gen_next].
    destruct (pages k !! j) as [s|] eqn:Hs.
    + pose proof (lookup_lt_Some _ _ _ Hs) as Hlt.
      destruct (resume_yield k j r s v st (S fuel) Hgood Hpos Hs)
        as (v' & st' & Hrun & Hpos' & Hev).
      rewrite (bind_ok _ _ _ _ _ Hrun).
      eexists _, _, _. split; [reflexivity|]. split.
      * right. exists v', k, (S j). eexists.
        refine (conj eq_refl (conj Hk (conj _ Hpos'))). lia.
      * exact (good_evolves _ _ _ Hgood Hev).
    + apply lookup_ge_None in Hs.
      assert (j = length (pages k)) by lia. subst j.
      destruct (resume_swap k r v st fuel Hgood Hpos
                  ltac:(apply nonempty; exact Hk))
        as (v' & st' & Hrun & Hpos' & Hev).
      rewrite (bind_ok _ _ _ _ _ Hrun).
      pose proof (good_evolves _ _ _ Hgood Hev) as Hgood'.
      destruct (pages (S k)) as [|s l] eqn:Hpage.
      * eexists _, _, _. split; [reflexivity|]. split; [left; reflexivity|].
        exact Hgood'.
      * eexists _, _, _. split; [reflexivity|]. split; [|exact Hgood'].
        right. exists v', (S k), 1%nat, false.
        refine (conj eq_refl (conj _ (conj _ Hpos'))).
        -- destruct (Nat.eq_dec (S k) n) as [Heq|Hneq]; [|lia].
           exfalso. pose proof last_empty as Hle. rewrite <- Heq in Hle.
           congruence.
        -- rewrite Hpage. simpl. lia.
Qed.

(** However many elements the consumer has asked for, the generator it
    holds keeps the current page and at most the next one. *)
Lemma nexts_in_range fuel m : forall g st,
  good ds rm st -> g = GenCreated \/ in_range pages n g ->
  exists g' st',
    nexts (S (S fuel)) m g st = (st', Ok g')
    /\ (g' = GenCreated \/ in_range pages n g').
Proof.
  induction m as [|m IH]; intros g st Hgood Hg.
  - exists g, st. split; [reflexivity | exact Hg].
  - destruct (gen_next_in_range fuel g st Hgood Hg)
      as (o & g1 & st1 & Hrun & Hg1 & Hgood1).
    destruct (IH g1 st1 Hgood1 (or_intror Hg1)) as (g' & st' & Hrun' & Hg').
    exists g', st'. split; [|exact Hg'].
    cbn [nexts]. rewrite (bind_ok _ _ _ _ _ Hrun). exact Hrun'.
Qed.

End Iteration.

Lemma yielded_app tr1 tr2 : yielded (tr1 ++ tr2) = yielded tr1 ++ yielded tr2.
Proof.
  induction tr1 as [|ev tr1 IH]; [reflexivity|].
  destruct ev; simpl; rewrite IH; reflexivity.
Qed.

Lemma yielded_yields l : yielded (map EvYield l) = l.
Proof. induction l as [|s l IH]; simpl; [|rewrite IH]; reflexivity. Qed.

Lemma requests_of_yields l : requests_of (map EvYield l) = [].
Proof. induction l as [|s l IH]; simpl; auto. Qed.

Lemma yielded_page_events pages p k :
  yielded (page_events pages p k) = pages k.
Proof.
  unfold page_events, fetch_event.
  rewrite !yielded_app, !yielded_yields. simpl.
  apply take_drop.
Qed.

Lemma requests_of_page_events pages p k :
  requests_of (page_events pages p k)
  = [GET_elements p (Some (Z.of_nat (S k)))].
Proof.
  unfold page_events, fetch_event.
  rewrite !requests_of_app, !requests_of_yields. reflexivity.
Qed.

Lemma yielded_pages pages p ks :
  yielded (concat (map (page_events pages p) ks)) = concat (map pages ks).
Proof.
  induction ks as [|k ks IH]; [reflexivity|].
  cbn [map concat]. rewrite yielded_app, yielded_page_events, IH.
  reflexivity.
Qed.

Lemma requests_of_pages pages p ks :
  requests_of (concat (map (page_events pages p) ks))
  = map (fun k => GET_elements p (Some (Z.of_nat (S k)))) ks.
Proof.
  induction ks as [|k ks IH]; [reflexivity|].
  cbn [map concat]. rewrite requests_of_app, requests_of_page_events, IH.
  reflexivity.
Qed.

Lemma fold_left_snoc {A B} (h : A -> B) (l : list A) : forall acc,
  fold_left (fun a s => a ++ [h s]) l acc = acc ++ map h l.
Proof.
  induction l as [|x l IH]; intros acc; simpl.
  - rewrite app_nil_r. reflexivity.
  - rewrite IH, <- app_assoc. reflexivity.
Qed.

(** The whole run of [[e for e in self]]. *)
Lemma elements_run (pages : nat -> list Summary) (n : nat) (p : pyval)
    (st : State) (fuel : nat) :
  data (self st) !! "url_prefix" = Some p ->
  elements_page (remote (world st)) p None = Success (pages O) ->
  (forall k, elements_page (remote (world st)) p (Some (Z.of_nat (S k)))
             = Success (pages (S k))) ->
  (forall k, (k < n)%nat -> pages k <> []) ->
  pages n = [] ->
  (length (all_pages pages n) + 2 <= fuel)%nat ->
  exists st',
    elements fuel st
    = (st', Ok (map (hydrate (self st)) (all_pages pages n)))
    /\ evolves st
         (EvRequest (GET_elements p None)
          :: concat (map (page_events pages p) (seq O n))) st'.
Proof.
  intros Hp H0 Hk Hne Hlast Hfuel.
  destruct (for_each_all pages n p (self st) (remote (world st))
              Hp H0 Hk Hne Hlast (fun e a => a ++ [e]) [] st fuel
              (conj eq_refl eq_refl) Hfuel)
    as (st' & Hrun & Hev).
  exists st'. split.
  - unfold elements, iter. unfold bind at 1, ret at 1.
    rewrite Hrun, fold_left_snoc. reflexivity.
  - rewrite <- (all_events_pages pages n p). exact Hev.
Qed.

(** C1.  The remote listing is split across pages: page 0 answers the
    request without page parameter, page [k] the request for page [k], the
    first [n] pages hold elements and page [n] is empty.  Whatever the cached
    [elements_count] of the dataset, consuming the iterator to the end
    terminates and yields exactly one Element per summary, in the order of
    the concatenation of the pages; the pages are requested in order, once
    each, and the run stops on the first empty page.  With an empty first
    page nothing is yielded. *)
Theorem iteration_yields_every_summary (pages : nat -> list Summary)
    (n : nat) (p : pyval) (st : State) (count : pyval) (fuel : nat) :
  let st0 := {| self := with_elements_count count (self st);
                world := world st |} in
  let all := concat (map pages (seq O n)) in
  data (self st) !! "url_prefix" = Some p ->
  elements_page (remote (world st)) p None = Success (pages O) ->
  (forall k, elements_page (remote (world st)) p (Some (Z.of_nat (S k)))
             = Success (pages (S k))) ->
  (forall k, (k < n)%nat -> pages k <> []) ->
  pages n = [] ->
  (length all + 2 <= fuel)%nat ->
  exists st',
    elements fuel st0
    = (st', Ok (map (fun s => Element_from_dict s
                                (binary_interpreter (self st))) all))
    /\ yielded (trace (world st')) = yielded (trace (world st)) ++ all
    /\ requests_of (trace (world st'))
       = requests_of (trace (world st))
         ++ GET_elements p None
            :: map (fun k => GET_elements p (Some (Z.of_nat (S k)))) (seq O n)
    /\ (pages O = [] -> all = []).
Proof.
  intros st0 all Hp H0 Hk Hne Hlast Hfuel.
  destruct (elements_run pages n p st0 fuel Hp H0 Hk Hne Hlast Hfuel)
    as (st' & Hrun & _ & _ & _ & Htr).
  exists st'. split; [exact Hrun|].
  rewrite Htr. cbn [st0 world].
  change (?a ++ ?x :: ?l) with (a ++ [x] ++ l).
  rewrite !yielded_app, !requests_of_app, yielded_pages, requests_of_pages.
  repeat split.
  intros Hempty. unfold all.
  destruct n as [|d]; [reflexivity|].
  exfalso. apply (Hne O); [lia | exact Hempty].
Qed.

Lemma iteration_yields_every_summary_witness :
  exists st',
    elements 8
      {| self := with_elements_count (VInt 99) (Sample.dataset None);
         world := world (Sample.state (Sample.dataset None) ∅) |}
    = (st', Ok (map (fun s => Element_from_dict s None)
                  (concat (map Sample.page (seq O 3)))))
    /\ yielded (trace (world st')) = concat (map Sample.page (seq O 3)).
Proof.
  destruct (iteration_yields_every_summary Sample.page 3 (VStr "u/d")
              (Sample.state (Sample.dataset None) ∅) (VInt 99) 8)
    as (st' & Hrun & Hy & _).
  - reflexivity.
  - reflexivity.
  - intros k. reflexivity.
  - intros [|[|[|k]]] Hk; [discriminate .. | lia].
  - reflexivity.
  - simpl. lia.
  - exists st'. split; [exact Hrun | exact Hy].
Defined.

(** C2.  In a full consumption, what is recorded for page [k] is: its first
    [len // 2 + 1] elements, then the one request for page [k + 1], then its
    other elements.  So the request is sent after the element of index
    [len // 2] has been consumed and before anything of page [k + 1] is, at
    the latest right after the last element of page [k], and once per page.
    Whatever the number of elements consumed so far, the generator holds the
    current page and, at most, the page after it. *)
Theorem prefetch_timing (pages : nat -> list Summary) (n : nat) (p : pyval)
    (st : State) (fuel : nat) :
  data (self st) !! "url_prefix" = Some p ->
  elements_page (remote (world st)) p None = Success (pages O) ->
  (forall k, elements_page (remote (world st)) p (Some (Z.of_nat (S k)))
             = Success (pages (S k))) ->
  (forall k, (k < n)%nat -> pages k <> []) ->
  pages n = [] ->
  (length (concat (map pages (seq O n))) + 2 <= fuel)%nat ->
  (exists st' l,
      elements fuel st = (st', Ok l)
      /\ trace (world st')
         = trace (world st)
           ++ EvRequest (GET_elements p None)
              :: concat (map (fun k =>
                                map EvYield (take (threshold pages k) (pages k))
                                ++ [fetch_event p k]
                                ++ map EvYield
                                     (drop (threshold pages k) (pages k)))
                             (seq O n)))
  /\ (forall k, (k < n)%nat ->
                threshold pages k = S (length (pages k) / 2)
                /\ (threshold pages k <= length (pages k))%nat)
  /\ (forall m, exists st' g,
         nexts fuel m GenCreated st = (st', Ok g)
         /\ two_buffers pages g).
Proof.
  intros Hp H0 Hk Hne Hlast Hfuel. split; [|split].
  - destruct (elements_run pages n p st fuel Hp H0 Hk Hne Hlast Hfuel)
      as (st' & Hrun & _ & _ & _ & Htr).
    exists st'. eexists. split; [exact Hrun | exact Htr].
  - intros k Hlt. split; [reflexivity|].
    unfold threshold. specialize (Hne k Hlt).
    destruct (pages k) as [|s l]; [congruence|].
    apply Nat.div_lt; simpl; lia.
  - intros m.
    destruct fuel as [|[|fuel]]; [lia ..|].
    destruct (nexts_in_range pages n p (self st) (remote (world st))
                Hp H0 Hk Hne Hlast fuel m GenCreated st
                (conj eq_refl eq_refl) (or_introl eq_refl))
      as (g & st' & Hrun & Hg).
    exists st', g. split; [exact Hrun|].
    destruct Hg as [-> | Hg]; [exact I|].
    apply in_range_two_buffers with (n := n). exact Hg.
Qed.

Lemma prefetch_timing_witness :
  exists st' l,
    elements 8 (Sample.state (Sample.dataset None) ∅) = (st', Ok l)
    /\ requests_of (trace (world st'))
       = [GET_elements (VStr "u/d") None;
          GET_elements (VStr "u/d") (Some 1);
          GET_elements (VStr "u/d") (Some 2);
          GET_elements (VStr "u/d") (Some 3)].
Proof.
  destruct (prefetch_timing Sample.page 3 (VStr "u/d")
              (Sample.state (Sample.dataset None) ∅) 8)
    as ((st' & l & Hrun & Htr) & _).
  - reflexivity.
  - reflexivity.
  - intros k. reflexivity.
  - intros [|[|[|k]]] Hk; [discriminate .. | lia].
  - reflexivity.
  - simpl. lia.
  - exists st', l. split; [exact Hrun|]. rewrite Htr. reflexivity.
Defined.

(** * Further properties *)

(** ** Local fields and [update] *)

Lemma set_field_writes_only (key : string) :
  writes_only key (set_field key) (get_field key).
Proof.
  intros st v. unfold_monad. simpl.
  eexists. split; [reflexivity|]. simpl.
  rewrite lookup_insert_eq.
  repeat split; try reflexivity.
  intros k Hk. apply lookup_insert_ne. congruence.
Qed.

(** X1.  The four setters only write their own entry of the local
    dictionary: each succeeds without any outside call, its getter then
    returns the value written, and the other entries (the identifier among
    them), the counters and the interpreter keep their values. *)
Theorem setters_are_local :
  writes_only "title" set_title get_title
  /\ writes_only "description" set_description get_description
  /\ writes_only "tags" set_tags get_tags
  /\ writes_only "reference" set_reference get_reference.
Proof. repeat split; apply set_field_writes_only. Qed.

Lemma update_run st p :
  data (self st) !! "url_prefix" = Some p ->
  let body := delete "url_prefix" (data (self st)) in
  update st
  = (logged (EvRequest (PATCH_dataset p body)) st,
     match patch_reply (remote (world st)) p body with
     | Success _ => Ok tt
     | Failure e => Raise e
     end).
Proof.
  intros Hp body. unfold update.
  rewrite (bind_ok _ _ _ _ _ (get_url_prefix_ok st p Hp)).
  unfold_monad. simpl. fold body.
  destruct (patch_reply (remote (world st)) p body) as [[]|e]; reflexivity.
Qed.

(** X2.  [update] sends one PATCH whose body holds every entry of the local
    dictionary except the identifier, with its current value.  It changes
    nothing in the object, and a failure of the request is raised as it
    is. *)
Theorem update_pushes_all_but_identifier st p :
  data (self st) !! "url_prefix" = Some p ->
  exists body : gmap string pyval,
    body !! "url_prefix" = None
    /\ (forall k, k <> "url_prefix" -> body !! k = data (self st) !! k)
    /\ fst (update st) = logged (EvRequest (PATCH_dataset p body)) st
    /\ outcome update st
       = match patch_reply (remote (world st)) p body with
         | Success _ => Ok tt
         | Failure e => Raise e
         end.
Proof.
  intros Hp. exists (delete "url_prefix" (data (self st))).
  unfold outcome. rewrite (update_run st p Hp). cbn [fst snd].
  repeat split.
  - apply lookup_delete_eq.
  - intros k Hk. apply lookup_delete_ne. congruence.
Qed.

Lemma update_pushes_all_but_identifier_witness :
  exists body : gmap string pyval,
    body !! "url_prefix" = None
    /\ body !! "title" = Some (VStr "T0")
    /\ outcome update (Sample.state (Sample.dataset None) ∅) = Ok tt.
Proof.
  destruct (update_pushes_all_but_identifier
              (Sample.state (Sample.dataset None) ∅) (VStr "u/d") eq_refl)
    as (body & Hid & Hother & _ & Hout).
  exists body. split; [exact Hid|]. split.
  - rewrite Hother by discriminate. reflexivity.
  - rewrite Hout. reflexivity.
Defined.

(** X3.  A local change reaches the remote side through [update] only: after
    a setter, the body of the PATCH carries the new value under the entry
    written, and still no identifier. *)
Theorem set_then_update st p (key : string) (v : pyval) :
  data (self st) !! "url_prefix" = Some p ->
  key <> "url_prefix" ->
  exists st' (body : gmap string pyval),
    (set_field key v ;;; update) st
    = (st',
       match patch_reply (remote (world st)) p body with
       | Success _ => Ok tt
       | Failure e => Raise e
       end)
    /\ trace (world st')
       = trace (world st) ++ [EvRequest (PATCH_dataset p body)]
    /\ body !! key = Some v
    /\ body !! "url_prefix" = None
    /\ data (self st') !! key = Some v.
Proof.
  intros Hp Hkey.
  destruct (set_field_writes_only key st v)
    as (st1 & Hset & Hw & _ & Hother & _).
  assert (Hp1 : data (self st1) !! "url_prefix" = Some p)
    by (rewrite Hother by congruence; exact Hp).
  assert (Hv : data (self st1) !! key = Some v).
  { unfold_monad. injection Hset as <-. simpl. apply lookup_insert_eq. }
  exists (logged (EvRequest (PATCH_dataset p
                               (delete "url_prefix" (data (self st1))))) st1),
         (delete "url_prefix" (data (self st1))).
  split; [|split; [|split; [|split]]].
  - rewrite (bind_ok _ _ _ _ _ Hset), (update_run st1 p Hp1), Hw.
    reflexivity.
  - cbn [logged world trace]. rewrite Hw. reflexivity.
  - rewrite lookup_delete_ne by congruence. exact Hv.
  - apply lookup_delete_eq.
  - exact Hv.
Qed.

Lemma set_then_update_witness :
  exists st' (body : gmap string pyval),
    (set_field "title" (VStr "new") ;;; update)
      (Sample.state (Sample.dataset None) ∅)
    = (st', Ok tt)
    /\ body !! "title" = Some (VStr "new")
    /\ requests_of (trace (world st'))
       = [PATCH_dataset (VStr "u/d") body].
Proof.
  destruct (set_then_update (Sample.state (Sample.dataset None) ∅)
              (VStr "u/d") "title" (VStr "new") eq_refl)
    as (st' & body & Hrun & Htr & Hv & _); [discriminate|].
  exists st', body. split; [exact Hrun|]. split; [exact Hv|].
  rewrite Htr. reflexivity.
Defined.

(** ** Deleting an element *)

(** X4.  [__delitem__] sends the delete, then refreshes: with both calls
    answered, the requests are the DELETE of the element and the fetch of
    the dataset record, in this order, and the cached counters and the
    dictionary are those of the fetched record. *)
Theorem delitem_then_refresh st (key : pyval) (d : gmap string pyval)
    (p ec cc up ti de re ta : pyval) :
  data (self st) !! "url_prefix" = Some p ->
  delete_reply (remote (world st)) p key = Success tt ->
  dataset_record (remote (world st)) p = Success d ->
  d !! "elements_count" = Some ec ->
  d !! "comments_count" = Some cc ->
  d !! "url_prefix" = Some up ->
  d !! "title" = Some ti ->
  d !! "description" = Some de ->
  d !! "reference" = Some re ->
  d !! "tags" = Some ta ->
  exists st',
    delitem key st = (st', Ok tt)
    /\ trace (world st')
       = trace (world st)
         ++ [EvRequest (DELETE_element p key); EvRequest (GET_dataset p)]
    /\ elements_count (self st') = ec
    /\ comments_count (self st') = cc
    /\ outcome len st' = Ok ec.
Proof.
  intros Hp Hdel Hd Hec Hcc Hup Hti Hde Hre Hta.
  unfold delitem.
  rewrite (bind_ok _ _ _ _ _ (get_url_prefix_ok st p Hp)).
  rewrite (bind_ok _ _ _ _ _ (request_ok _ _ _ _ Hdel)).
  rewrite (refresh_ok (logged (EvRequest (DELETE_element p key)) st) d
             p ec cc up ti de re ta Hp Hd Hec Hcc Hup Hti Hde Hre Hta).
  eexists. split; [reflexivity|].
  cbn. rewrite <- app_assoc. auto.
Qed.

Lemma delitem_then_refresh_witness :
  exists st',
    delitem (VStr "a") (Sample.state (Sample.dataset None) ∅) = (st', Ok tt)
    /\ outcome len st' = Ok (VInt 6).
Proof.
  destruct (delitem_then_refresh (Sample.state (Sample.dataset None) ∅)
              (VStr "a") Sample.record (VStr "u/d") (VInt 6) (VInt 0)
              (VStr "u/other") (VStr "T") (VStr "D") (VStr "R")
              (VList ["a"]))
    as (st' & Hrun & _ & _ & _ & Hlen); try reflexivity.
  exists st'. split; [exact Hrun | exact Hlen].
Defined.

(** X5.  When the delete request fails, [__delitem__] raises that failure
    and does not refresh: the delete is the only call made and the object is
    unchanged. *)
Theorem delitem_failure_skips_refresh st (key p : pyval) (e : exn) :
  data (self st) !! "url_prefix" = Some p ->
  delete_reply (remote (world st)) p key = Failure e ->
  delitem key st = (logged (EvRequest (DELETE_element p key)) st, Raise e).
Proof.
  intros Hp Hdel. unfold delitem.
  rewrite (bind_ok _ _ _ _ _ (get_url_prefix_ok st p Hp)).
  unfold_monad. simpl. rewrite Hdel. reflexivity.
Qed.

Lemma delitem_failure_skips_refresh_witness :
  let st := {| self := Sample.dataset None;
               world := {| remote := Sample.offline; fs := ∅;
                           trace := [] |} |} in
  delitem (VStr "a") st
  = (logged (EvRequest (DELETE_element (VStr "u/d") (VStr "a"))) st,
     Raise (TransportError "down")).
Proof.
  intros st.
  exact (delitem_failure_skips_refresh st (VStr "a") (VStr "u/d")
           (TransportError "down") eq_refl eq_refl).
Defined.

(** ** Refresh, step by step *)

Lemma dict_pick_missing (d : gmap string pyval) (ks : list string) k st :
  first_missing d ks = Some k ->
  dict_pick d ks st = (st, Raise (KeyError (VStr k))).
Proof.
  induction ks as [|k' ks IH]; simpl; [discriminate|].
  unfold dict_get. destruct (d !! k') as [v|] eqn:Hk'.
  - intros Hm. unfold bind at 1, ret at 1.
    unfold bind. rewrite (IH Hm). reflexivity.
  - intros [= <-]. reflexivity.
Qed.

(** X6.  [refresh] is not atomic.  A record without [elements_count] leaves
    the object untouched; a record with it but without [comments_count]
    leaves [elements_count] already overwritten; a record with both counters
    that lacks one of the five copied entries leaves both counters
    overwritten and the dictionary as it was.  Each time the [KeyError]
    names the first entry found missing. *)
Theorem refresh_stops_at_first_missing_key st (d : gmap string pyval)
    (p : pyval) :
  data (self st) !! "url_prefix" = Some p ->
  dataset_record (remote (world st)) p = Success d ->
  let fetched := logged (EvRequest (GET_dataset p)) st in
  (d !! "elements_count" = None ->
   refresh st = (fetched, Raise (KeyError (VStr "elements_count"))))
  /\ (forall ec,
        d !! "elements_count" = Some ec ->
        d !! "comments_count" = None ->
        refresh st
        = ({| self := with_elements_count ec (self st);
              world := world fetched |},
           Raise (KeyError (VStr "comments_count"))))
  /\ (forall ec cc k,
        d !! "elements_count" = Some ec ->
        d !! "comments_count" = Some cc ->
        first_missing d refreshed_keys = Some k ->
        refresh st
        = ({| self := with_comments_count cc
                        (with_elements_count ec (self st));
              world := world fetched |},
           Raise (KeyError (VStr k)))).
Proof.
  intros Hp Hd fetched. unfold refresh.
  rewrite (bind_ok _ _ _ _ _ (get_url_prefix_ok st p Hp)).
  rewrite (bind_ok _ _ _ _ _ (request_ok _ _ _ _ Hd)).
  fold fetched. split; [|split].
  - intros Hec. unfold_monad. rewrite Hec. reflexivity.
  - intros ec Hec Hcc. unfold_monad. rewrite Hec. simpl. rewrite Hcc.
    reflexivity.
  - intros ec cc k Hec Hcc Hk.
    unfold dict_get at 1. rewrite Hec.
    unfold bind at 1, ret at 1.
    unfold bind at 1, get_self at 1.
    unfold bind at 1, set_self at 1.
    unfold dict_get at 1. rewrite Hcc.
    unfold bind at 1, ret at 1.
    unfold bind at 1, get_self at 1.
    unfold bind at 1, set_self at 1.
    fold refreshed_keys.
    unfold bind at 1. rewrite (dict_pick_missing d refreshed_keys k _ Hk).
    reflexivity.
Qed.

Lemma refresh_stops_at_first_missing_key_witness :
  let st := {| self := Sample.dataset None;
               world := {| remote := Sample.counting; fs := ∅;
                           trace := [] |} |} in
  outcome refresh st = Raise (KeyError (VStr "comments_count"))
  /\ elements_count (self (fst (refresh st))) = VInt 6
  /\ data (self (fst (refresh st))) = data (self st).
Proof.
  intros st.
  destruct (refresh_stops_at_first_missing_key st
              {[ "elements_count" := VInt 6 ]} (VStr "u/d")
              eq_refl eq_refl) as (_ & H & _).
  unfold outcome. rewrite (H (VInt 6) eq_refl eq_refl). auto.
Defined.

(** X7.  [__len__] answers from the cached counter and calls nothing: it is
    0 on a dataset just constructed, whatever the remote side holds, and the
    [elements_count] of the fetched record right after a [refresh]. *)
Theorem len_is_cached (url_prefix : string)
    (title description reference tags : pyval) (tok : option Token)
    (interp : option Interpreter) (tok_info : pyval) (w : World) :
  let st := {| self := Dataset_init url_prefix title description reference
                         tags tok interp tok_info;
               world := w |} in
  len st = (st, Ok (VInt 0))
  /\ (forall d p ec cc up ti de re ta,
        data (self st) !! "url_prefix" = Some p ->
        dataset_record (remote w) p = Success d ->
        d !! "elements_count" = Some ec ->
        d !! "comments_count" = Some cc ->
        d !! "url_prefix" = Some up ->
        d !! "title" = Some ti ->
        d !! "description" = Some de ->
        d !! "reference" = Some re ->
        d !! "tags" = Some ta ->
        exists st', (refresh ;;; len) st = (st', Ok ec)
                    /\ len st' = (st', Ok ec)).
Proof.
  intros st. split; [reflexivity|].
  intros d p ec cc up ti de re ta Hp Hd Hec Hcc Hup Hti Hde Hre Hta.
  eexists. split.
  - rewrite (bind_ok _ _ _ _ _
               (refresh_ok st d p ec cc up ti de re ta
                  Hp Hd Hec Hcc Hup Hti Hde Hre Hta)).
    reflexivity.
  - reflexivity.
Qed.

Lemma len_is_cached_witness :
  exists st',
    (refresh ;;; len) (Sample.state (Sample.dataset None) ∅)
    = (st', Ok (VInt 6)).
Proof.
  destruct (proj2 (len_is_cached "u/d" (VStr "T0") (VStr "D0") (VStr "R0")
                     (VList []) None None VNone
                     (world (Sample.state (Sample.dataset None) ∅)))
              Sample.record (VStr "u/d") (VInt 6) (VInt 0) (VStr "u/other")
              (VStr "T") (VStr "D") (VStr "R") (VList ["a"]))
    as (st' & Hrun & _); try reflexivity.
  exists st'. exact Hrun.
Defined.

(** ** Listing identifiers *)

(** X8.  For a page number other than -1, [keys] sends the one request for
    that page (page 0 included, which the iterator asks for without a page
    parameter), hydrates nothing, and returns the identifiers of the
    summaries received, in their order; a failure of the request is raised
    as it is. *)
Theorem keys_of_one_page st (fuel : nat) (pg : Z) (p : pyval) :
  pg <> -1 ->
  data (self st) !! "url_prefix" = Some p ->
  keys fuel pg st
  = (logged (EvRequest (GET_elements p (Some pg))) st,
     match elements_page (remote (world st)) p (Some pg) with
     | Success l => Ok (map s_id l)
     | Failure e => Raise e
     end).
Proof.
  intros Hpg Hp. unfold keys.
  apply Z.eqb_neq in Hpg. rewrite Hpg.
  unfold fetch_elements.
  rewrite bind_assoc, (bind_ok _ _ _ _ _ (get_url_prefix_ok st p Hp)).
  unfold_monad. simpl.
  destruct (elements_page (remote (world st)) p (Some pg)); reflexivity.
Qed.

Lemma keys_of_one_page_witness :
  keys 0 1 (Sample.state (Sample.dataset None) ∅)
  = (logged (EvRequest (GET_elements (VStr "u/d") (Some 1)))
       (Sample.state (Sample.dataset None) ∅),
     Ok ["d"]).
Proof.
  exact (keys_of_one_page (Sample.state (Sample.dataset None) ∅) 0 1
           (VStr "u/d") ltac:(discriminate) eq_refl).
Defined.

(** X9.  [keys(-1)] walks the whole collection: with pages 0 to [n - 1]
    holding elements and page [n] empty, it returns the identifier of every
    summary in page order, which are the identifiers of the Elements the
    iterator yields, after the same requests as a full iteration. *)
Theorem keys_of_all_pages (pages : nat -> list Summary) (n : nat)
    (p : pyval) (st : State) (fuel : nat) :
  let all := concat (map pages (seq O n)) in
  data (self st) !! "url_prefix" = Some p ->
  elements_page (remote (world st)) p None = Success (pages O) ->
  (forall k, elements_page (remote (world st)) p (Some (Z.of_nat (S k)))
             = Success (pages (S k))) ->
  (forall k, (k < n)%nat -> pages k <> []) ->
  pages n = [] ->
  (length all + 2 <= fuel)%nat ->
  exists st' l,
    keys fuel (-1) st = (st', Ok (map s_id all))
    /\ elements fuel st = (st', Ok l)
    /\ map e_id l = map s_id all
    /\ requests_of (trace (world st'))
       = requests_of (trace (world st))
         ++ GET_elements p None
            :: map (fun k => GET_elements p (Some (Z.of_nat (S k)))) (seq O n).
Proof.
  intros all Hp H0 Hk Hne Hlast Hfuel.
  destruct (for_each_all pages n p (self st) (remote (world st))
              Hp H0 Hk Hne Hlast (fun e a => a ++ [e_id e]) [] st fuel
              (conj eq_refl eq_refl) Hfuel)
    as (st' & Hrun & Hev).
  destruct (for_each_all pages n p (self st) (remote (world st))
              Hp H0 Hk Hne Hlast (fun e a => a ++ [e]) [] st fuel
              (conj eq_refl eq_refl) Hfuel)
    as (st'' & Hrun' & Hev').
  rewrite fold_left_snoc in Hrun. rewrite fold_left_snoc in Hrun'.
  cbn [app] in Hrun, Hrun'.
  assert (Hsame : st'' = st').
  { destruct st' as [s1 [r1 f1 t1]], st'' as [s2 [r2 f2 t2]].
    destruct Hev as (? & ? & ? & ?), Hev' as (? & ? & ? & ?).
    simpl in *. congruence. }
  subst st''.
  exists st', (map (hydrate (self st)) (all_pages pages n)).
  split; [|split; [|split]].
  - unfold keys, iter. cbn [Z.eqb Z.opp Pos.eqb].
    unfold bind at 1, ret at 1. exact Hrun.
  - unfold elements, iter. unfold bind at 1, ret at 1. exact Hrun'.
  - rewrite map_map. reflexivity.
  - destruct Hev as (_ & _ & _ & Htr). rewrite Htr.
    rewrite (all_events_pages pages n p).
    change (?a ++ ?x :: ?l) with (a ++ [x] ++ l).
    rewrite !requests_of_app, requests_of_pages. reflexivity.
Qed.

Lemma keys_of_all_pages_witness :
  exists st',
    keys 8 (-1) (Sample.state (Sample.dataset None) ∅)
    = (st', Ok (map s_id (concat (map Sample.page (seq O 3))))).
Proof.
  destruct (keys_of_all_pages Sample.page 3 (VStr "u/d")
              (Sample.state (Sample.dataset None) ∅) 8)
    as (st' & l & Hrun & _).
  - reflexivity.
  - reflexivity.
  - intros k. reflexivity.
  - intros [|[|[|k]]] Hk; [discriminate .. | lia].
  - reflexivity.
  - simpl. lia.
  - exists st'. exact Hrun.
Defined.

(** ** The iterator when a request fails *)

(** A pass through the loop body before the threshold: no request, one
    yield. *)
Lemma loop_body_plain (pages : nat -> list Summary) k j s v st :
  at_position pages v k j false -> pages k !! j = Some s ->
  (j <= length (pages k) / 2)%nat ->
  exists v',
    loop_body v st
    = (logged (EvYield s) st,
       Ok (Some (Element_from_dict s (binary_interpreter (self st))), v'))
    /\ at_position pages v' k (S j) false.
Proof.
  intros Hpos Hl Hj.
  pose proof (lookup_lt_Some _ _ _ Hl) as Hlt.
  destruct v as [pg fi se req it].
  unfold at_position in Hpos.
  cbn [iteration first second page new_list_requested] in Hpos.
  destruct Hpos as (Hpg & Hf & Hs & Hr & Hit). subst pg fi se req it.
  unfold loop_body. cbn [iteration first second page new_list_requested].
  replace (Z.of_nat j - 1 + 1) with (Z.of_nat j) by lia.
  rewrite half_of_nat.
  rewrite (gtb_false (Z.of_nat j) (Z.of_nat (length (pages k) / 2))) by lia.
  cbn [andb]. unfold bind at 1, ret at 1.
  cbn [iteration first second page new_list_requested].
  rewrite (geb_false (Z.of_nat j) (Z.of_nat (length (pages k)))) by lia.
  cbn [iteration first second page new_list_requested].
  rewrite (gtb_true (Z.of_nat (length (pages k))) (Z.of_nat j)) by lia.
  rewrite (bind_ok _ _ _ _ _ (py_index_ok _ _ _ _ Hl)).
  eexists. split; [reflexivity|].
  unfold at_position. cbn [iteration first second page new_list_requested].
  repeat split; lia.
Qed.

(** The pass that reaches the threshold while the request for the next page
    fails. *)
Lemma loop_body_fetch_fails (pages : nat -> list Summary) k j p e v st :
  at_position pages v k j false ->
  (length (pages k) / 2 < j)%nat ->
  data (self st) !! "url_prefix" = Some p ->
  elements_page (remote (world st)) p (Some (Z.of_nat (S k))) = Failure e ->
  loop_body v st = (logged (fetch_event p k) st, Raise e).
Proof.
  intros Hpos Hj Hp Hfail.
  destruct v as [pg fi se req it].
  unfold at_position in Hpos.
  cbn [iteration first second page new_list_requested] in Hpos.
  destruct Hpos as (Hpg & Hf & Hs & Hr & Hit). subst pg fi se req it.
  unfold loop_body. cbn [iteration first second page new_list_requested].
  replace (Z.of_nat j - 1 + 1) with (Z.of_nat j) by lia.
  rewrite half_of_nat.
  rewrite (gtb_true (Z.of_nat j) (Z.of_nat (length (pages k) / 2))) by lia.
  cbn [andb negb].
  replace (Z.of_nat k + 1) with (Z.of_nat (S k)) by lia.
  unfold fetch_elements, fetch_event.
  rewrite !bind_assoc, (bind_ok _ _ _ _ _ (get_url_prefix_ok st p Hp)).
  unfold_monad. simpl. rewrite Hfail. reflexivity.
Qed.

Section FailingPrefetch.

Variable l : list Summary.
Variable p : pyval.
Variable e : exn.
Variable ds : Dataset.
Variable rm : Remote.

Hypothesis prefix_set : data ds !! "url_prefix" = Some p.
Hypothesis page_nonempty : l <> [].
Hypothesis next_fails : elements_page rm p (Some 1) = Failure e.

Lemma for_each_until_failure {B} (f : Element -> B -> B) :
  forall m j v acc st fuel,
    good ds rm st ->
    at_position (fun _ => l) v O j false ->
    (j + m = S (length l / 2))%nat ->
    (m + 1 <= fuel)%nat ->
    exists st',
      for_each fuel (GenSuspended v) (fun x a => ret (f x a)) acc st
      = (st', Raise e)
      /\ evolves st (map EvYield (take m (drop j l)) ++ [fetch_event p O]) st'.
Proof.
  assert (Hlen : (0 < length l)%nat)
    by (destruct l; [congruence | simpl; lia]).
  induction m as [|m IH]; intros j v acc st fuel Hgood Hpos Hjm Hfuel;
    (destruct fuel as [|fuel]; [lia|]).
  - exists (logged (fetch_event p O) st). split; [|apply evolves_logged].
    destruct Hgood as [Hds Hrm].
    pose proof (loop_body_fetch_fails (fun _ => l) O j p e v st Hpos
                  ltac:(lia) ltac:(rewrite Hds; exact prefix_set)
                  ltac:(rewrite Hrm; exact next_fails)) as Hbody.
    destruct Hpos as (_ & Hf & _).
    cbn [for_each gen_next while_loop]. rewrite Hf.
    rewrite (gtb_true (Z.of_nat (length l)) 0) by lia.
    rewrite !bind_assoc, (bind_raise _ _ _ _ _ Hbody). reflexivity.
  - assert (Hlt : (j < length l)%nat).
    { pose proof (Nat.div_lt (length l) 2 Hlen ltac:(lia)). lia. }
    destruct (lookup_lt_is_Some_2 l j Hlt) as [s Hs].
    destruct (loop_body_plain (fun _ => l) O j s v st Hpos Hs ltac:(lia))
      as (v' & Hbody & Hpos').
    pose proof (good_evolves ds rm _ _ _ Hgood (evolves_logged (EvYield s) st))
      as Hgood'.
    destruct (IH (S j) v' (f (hydrate ds s) acc) _ fuel Hgood' Hpos'
                ltac:(lia) ltac:(lia))
      as (st' & Hrun & Hev).
    exists st'. split.
    + destruct Hpos as (_ & Hf & _). destruct Hgood as [Hds Hrm].
      cbn [for_each gen_next while_loop]. rewrite Hf.
      rewrite (gtb_true (Z.of_nat (length l)) 0) by lia.
      rewrite !bind_assoc, (bind_ok _ _ _ _ _ Hbody).
      unfold bind at 1, ret at 1. unfold bind at 1, ret at 1.
      cbn [suspend]. unfold bind at 1, ret at 1.
      rewrite Hds. exact Hrun.
    + rewrite (drop_S l s j Hs). cbn [take map app].
      exact (evolves_trans _ _ _ _ _ (evolves_logged (EvYield s) st) Hev).
Qed.

End FailingPrefetch.

(** X10.  When the very first request of the iterator fails, the first
    [next] raises that failure: nothing is yielded and the request is the
    only call made. *)
Theorem iteration_first_request_fails st (fuel : nat) (p : pyval) (e : exn) :
  data (self st) !! "url_prefix" = Some p ->
  elements_page (remote (world st)) p None = Failure e ->
  gen_next fuel GenCreated st
  = (logged (EvRequest (GET_elements p None)) st, Raise e)
  /\ elements (S fuel) st
     = (logged (EvRequest (GET_elements p None)) st, Raise e).
Proof.
  intros Hp Hfail.
  assert (Hfetch : fetch_elements None st
                   = (logged (EvRequest (GET_elements p None)) st, Raise e)).
  { unfold fetch_elements.
    rewrite (bind_ok _ _ _ _ _ (get_url_prefix_ok st p Hp)).
    unfold_monad. simpl. rewrite Hfail. reflexivity. }
  assert (Hnext : gen_next fuel GenCreated st
                  = (logged (EvRequest (GET_elements p None)) st, Raise e)).
  { cbn [gen_next]. rewrite (bind_raise _ _ _ _ _ Hfetch). reflexivity. }
  split; [exact Hnext|].
  unfold elements, iter. unfold bind at 1, ret at 1.
  cbn [for_each gen_next]. rewrite bind_assoc.
  rewrite (bind_raise _ _ _ _ _ Hfetch). reflexivity.
Qed.

Lemma iteration_first_request_fails_witness :
  let st := {| self := Sample.dataset None;
               world := {| remote := Sample.offline; fs := ∅;
                           trace := [] |} |} in
  elements 1 st
  = (logged (EvRequest (GET_elements (VStr "u/d") None)) st,
     Raise (TransportError "down")).
Proof.
  intros st.
  exact (proj2 (iteration_first_request_fails st 0 (VStr "u/d")
                  (TransportError "down") eq_refl eq_refl)).
Defined.

(** X11.  When the request for the second page fails, a full consumption
    raises that failure in the middle of the first page: the consumer has
    received the first [len // 2 + 1] elements only, and the other elements
    of the page, though already fetched, are never yielded. *)
Theorem iteration_prefetch_fails st (fuel : nat) (p : pyval) (e : exn)
    (l : list Summary) :
  data (self st) !! "url_prefix" = Some p ->
  elements_page (remote (world st)) p None = Success l ->
  l <> [] ->
  elements_page (remote (world st)) p (Some 1) = Failure e ->
  (length l / 2 + 2 <= fuel)%nat ->
  exists st',
    elements fuel st = (st', Raise e)
    /\ trace (world st')
       = trace (world st)
         ++ [EvRequest (GET_elements p None)]
         ++ map EvYield (take (S (length l / 2)) l)
         ++ [EvRequest (GET_elements p (Some 1))]
    /\ yielded (trace (world st'))
       = yielded (trace (world st)) ++ take (S (length l / 2)) l.
Proof.
  intros Hp H0 Hne Hfail Hfuel.
  destruct fuel as [|fuel]; [lia|].
  pose proof (evolves_logged (EvRequest (GET_elements p None)) st) as Hev0.
  assert (Hgood : good (self st) (remote (world st)) st) by (split; reflexivity).
  pose proof (good_evolves _ _ _ _ _ Hgood Hev0) as Hgood0.
  destruct (for_each_until_failure l p e (self st) (remote (world st))
              Hp Hne Hfail (fun x a => a ++ [x]) (S (length l / 2)) O
              (initial l) [] _ (S fuel) Hgood0
              ltac:(unfold at_position, initial; cbn; auto)
              ltac:(lia) ltac:(lia))
    as (st' & Hrun & Hev).
  pose proof (evolves_trans _ _ _ _ _ Hev0 Hev) as (_ & _ & _ & Htr).
  exists st'. split; [|split].
  - unfold elements, iter. unfold bind at 1, ret at 1.
    cbn [for_each gen_next] in Hrun |- *.
    rewrite bind_assoc.
    assert (Hfetch : fetch_elements None st
                     = (logged (EvRequest (GET_elements p None)) st, Ok l)).
    { unfold fetch_elements.
      rewrite (bind_ok _ _ _ _ _ (get_url_prefix_ok st p Hp)).
      apply request_ok. exact H0. }
    rewrite (bind_ok _ _ _ _ _ Hfetch). fold (initial l).
    exact Hrun.
  - rewrite Htr. rewrite drop_0. reflexivity.
  - rewrite Htr, drop_0. rewrite !yielded_app, yielded_yields. simpl.
    rewrite app_nil_r. reflexivity.
Qed.

Lemma iteration_prefetch_fails_witness :
  let st := {| self := Sample.dataset None;
               world := {| remote := Sample.one_page; fs := ∅;
                           trace := [] |} |} in
  exists st',
    elements 4 st = (st', Raise (TransportError "down"))
    /\ yielded (trace (world st'))
       = [Sample.summary "a" "t"; Sample.summary "b" "t"].
Proof.
  intros st.
  destruct (iteration_prefetch_fails st 4 (VStr "u/d")
              (TransportError "down") (Sample.page O))
    as (st' & Hrun & _ & Hy);
    [reflexivity | reflexivity | discriminate | reflexivity | simpl; lia |].
  exists st'. split; [exact Hrun | exact Hy].
Defined.

(** ** Adding an element: where it can stop *)

(** X12.  Given as a path, a content that cannot be read stops
    [add_element] before any request: a path that does not exist raises the
    error of the existence check, a directory raises [IsADirectoryError] when
    it is opened, and nothing is created on the remote side. *)
Theorem add_element_unreadable_content st title description tags http_ref
    path interpret :
  (fs (world st) !! path = None ->
   add_element title description tags http_ref (CPath path) interpret st
   = (logged (EvExists path) st,
      Raise (Exception "content must be a binary data or a URI to a file.")))
  /\ (fs (world st) !! path = Some Dir ->
      add_element title description tags http_ref (CPath path) interpret st
      = (logged (EvRead path) (logged (EvExists path) st),
         Raise (IsADirectoryError path))).
Proof.
  split; intros Hf; unfold add_element, resolve_content, os_path_exists,
    read_file; unfold_monad; simpl; rewrite Hf.
  - rewrite bool_decide_eq_false_2 by (intros [x Hx]; discriminate Hx).
    reflexivity.
  - rewrite bool_decide_eq_true_2 by eauto. simpl. rewrite Hf. reflexivity.
Qed.

Lemma add_element_unreadable_content_witness :
  let st := Sample.state (Sample.dataset None) {[ "d" := Dir ]} in
  outcome (add_element "t" "d" [] "h" (CPath "nofile") true) st
  = Raise (Exception "content must be a binary data or a URI to a file.")
  /\ add_element "t" "d" [] "h" (CPath "d") true st
     = (logged (EvRead "d") (logged (EvExists "d") st),
        Raise (IsADirectoryError "d")).
Proof.
  intros st. split.
  - unfold outcome.
    rewrite (proj1 (add_element_unreadable_content st "t" "d" [] "h"
                      "nofile" true) eq_refl).
    reflexivity.
  - exact (proj2 (add_element_unreadable_content st "t" "d" [] "h" "d" true)
             eq_refl).
Defined.

(** X13.  The creation is in two phases and is not undone.  When the
    insertion fails nothing else is sent.  When the insertion and the
    refresh succeed but the keyed fetch of the new element fails,
    [add_element] raises [KeyError] of the new identifier: the element
    exists remotely, the requests stop at that fetch and no content is
    uploaded. *)
Theorem add_element_stops_midway st title description tags http_ref content
    raw interpret (p : pyval) :
  let body := {| b_title := title; b_description := description;
                 b_tags := tags; b_http_ref := http_ref |} in
  content_available (fs (world st)) content raw ->
  data (self st) !! "url_prefix" = Some p ->
  (forall e,
      insert_reply (remote (world st)) p body = Failure e ->
      exists st',
        add_element title description tags http_ref content interpret st
        = (st', Raise e)
        /\ self st' = self st
        /\ requests_of (trace (world st'))
           = requests_of (trace (world st)) ++ [POST_element p body])
  /\ (forall (d : gmap string pyval) new_id ec cc up ti de re ta e,
        insert_reply (remote (world st)) p body = Success new_id ->
        dataset_record (remote (world st)) p = Success d ->
        d !! "elements_count" = Some ec ->
        d !! "comments_count" = Some cc ->
        d !! "url_prefix" = Some up ->
        d !! "title" = Some ti ->
        d !! "description" = Some de ->
        d !! "reference" = Some re ->
        d !! "tags" = Some ta ->
        element_record (remote (world st)) up new_id = Failure e ->
        exists st',
          add_element title description tags http_ref content interpret st
          = (st', Raise (KeyError new_id))
          /\ elements_count (self st') = ec
          /\ comments_count (self st') = cc
          /\ requests_of (trace (world st'))
             = requests_of (trace (world st))
               ++ [POST_element p body; GET_dataset p;
                   GET_element up new_id]).
Proof.
  intros body Hc Hp.
  destruct (resolve_content_available content raw st Hc)
    as (st1 & Hres & Hself & Hrem & Hreq).
  assert (Hp1 : data (self st1) !! "url_prefix" = Some p)
    by (rewrite Hself; exact Hp).
  split.
  - intros e Hins. rewrite <- Hrem in Hins.
    eexists. split; [|split].
    + unfold add_element. fold body.
      rewrite (bind_ok _ _ _ _ _ Hres).
      rewrite (bind_ok _ _ _ _ _ (get_url_prefix_ok _ _ Hp1)).
      unfold request, reply.
      rewrite !bind_assoc. unfold log at 1.
      unfold_monad. simpl. rewrite Hins. reflexivity.
    + simpl. exact Hself.
    + simpl. rewrite requests_of_app, Hreq. reflexivity.
  - intros d new_id ec cc up ti de re ta e Hins Hd Hec Hcc Hup Hti Hde Hre
      Hta Hel.
    rewrite <- Hrem in Hins, Hd, Hel.
    eexists. split; [|split; [|split]].
    + unfold add_element. fold body.
      rewrite (bind_ok _ _ _ _ _ Hres).
      rewrite (bind_ok _ _ _ _ _ (get_url_prefix_ok _ _ Hp1)).
      rewrite (bind_ok _ _ _ _ _ (request_ok _ _ _ _ Hins)).
      erewrite bind_ok; cycle 1.
      { eapply refresh_ok; [exact Hp1 | exact Hd | eassumption ..]. }
      set (st2 := refreshed _ _ _ _ _ _ _ _ _).
      pose proof (getitem_run new_id st2) as H.
      replace (data (self st2) !! "url_prefix") with (Some up) in H
        by (symmetry; apply lookup_insert_eq).
      replace (element_record (remote (world st2)) up new_id)
        with (@Failure Summary e) in H by (symmetry; exact Hel).
      rewrite (bind_raise _ _ _ _ _ H). reflexivity.
    + reflexivity.
    + reflexivity.
    + cbn [logged refreshed world trace self].
      rewrite !requests_of_app, Hreq. cbn. rewrite <- !app_assoc.
      reflexivity.
Qed.

Lemma add_element_stops_midway_witness :
  let st := {| self := Sample.dataset None;
               world := {| remote := Sample.offline; fs := ∅;
                           trace := [] |} |} in
  exists st',
    add_element "t" "d" [] "h" (CBytes [x01]) true st
    = (st', Raise (TransportError "down"))
    /\ self st' = self st.
Proof.
  intros st.
  destruct (proj1 (add_element_stops_midway st "t" "d" [] "h"
                     (CBytes [x01]) [] true (VStr "u/d") I eq_refl)
              (TransportError "down") eq_refl)
    as (st' & Hrun & Hself & _).
  exists st'. split; [exact Hrun | exact Hself].
Defined.

(** ** The interpreter and construction *)

(** X14.  The interpreter an Element carries is the one configured on the
    dataset when the Element is hydrated: [set_binary_interpreter] calls
    nothing and changes no other field, and a keyed lookup made after it
    returns an Element carrying the new interpreter. *)
Theorem interpreter_set_then_lookup st (i : option Interpreter)
    (key p : pyval) (r : Summary) :
  data (self st) !! "url_prefix" = Some p ->
  element_record (remote (world st)) p key = Success r ->
  exists st',
    (set_binary_interpreter i ;;; getitem key) st
    = (st', Ok (Element_from_dict r i))
    /\ self st' = with_binary_interpreter i (self st)
    /\ data (self st') = data (self st)
    /\ trace (world st')
       = trace (world st) ++ [EvRequest (GET_element p key)].
Proof.
  intros Hp Hr.
  set (st1 := {| self := with_binary_interpreter i (self st);
                 world := world st |}).
  pose proof (getitem_run key st1) as H.
  cbn [st1 self world with_binary_interpreter data] in H.
  rewrite Hp, Hr in H.
  eexists. split; [|split; [|split]].
  - unfold set_binary_interpreter.
    unfold bind at 1. unfold bind at 1, get_self at 1, set_self at 1.
    exact H.
  - reflexivity.
  - reflexivity.
  - reflexivity.
Qed.

Lemma interpreter_set_then_lookup_witness :
  exists st',
    (set_binary_interpreter (Some Sample.marker) ;;; getitem (VStr "a"))
      (Sample.state (Sample.dataset None) ∅)
    = (st', Ok (Element_from_dict (Sample.summary "a" "t")
                  (Some Sample.marker))).
Proof.
  destruct (interpreter_set_then_lookup
              (Sample.state (Sample.dataset None) ∅) (Some Sample.marker)
              (VStr "a") (VStr "u/d") (Sample.summary "a" "t")
              eq_refl eq_refl)
    as (st' & Hrun & _).
  exists st'. exact Hrun.
Defined.

Lemma Dataset_init_data url_prefix title description reference tags tok
    interp tok_info :
  let ds := Dataset_init url_prefix title description reference tags tok
              interp tok_info in
  data ds !! "title" = Some title
  /\ data ds !! "description" = Some description
  /\ data ds !! "tags" = Some tags
  /\ data ds !! "reference" = Some reference.
Proof.
  unfold Dataset_init. cbn [data].
  repeat split;
    repeat (rewrite lookup_insert_ne by discriminate);
    apply lookup_insert_eq.
Qed.

(** X15.  A constructed dataset gives back what it was built from: the four
    getters return the arguments, without any call, and the identifier is
    the given name when it holds a slash (the token prefix is then ignored),
    and the token prefix, a slash and the name otherwise. *)
Theorem construction_round_trip (url_prefix : string)
    (title description reference tags : pyval) (tok : option Token)
    (interp : option Interpreter) (tok_info : pyval) (w : World) :
  let st := {| self := Dataset_init url_prefix title description reference
                         tags tok interp tok_info;
               world := w |} in
  get_title st = (st, Ok title)
  /\ get_description st = (st, Ok description)
  /\ get_tags st = (st, Ok tags)
  /\ get_reference st = (st, Ok reference)
  /\ (contains_char "/" url_prefix = true ->
      get_url_prefix st = (st, Ok (VStr url_prefix)))
  /\ (forall t,
        contains_char "/" url_prefix = false -> tok = Some t ->
        get_url_prefix st
        = (st, Ok (VStr (get_prefix t +:+ "/" +:+ url_prefix)))).
Proof.
  intros st.
  destruct (Dataset_init_data url_prefix title description reference tags tok
              interp tok_info) as (Hti & Hde & Hta & Hre).
  pose proof (Dataset_init_prefix url_prefix title description reference tags
                tok interp tok_info) as Hp.
  unfold get_title, get_description, get_tags, get_reference,
    get_url_prefix, get_field, dict_get, bind, get_self. cbn [st self].
  rewrite Hti, Hde, Hta, Hre, Hp.
  repeat split.
  - intros ->. reflexivity.
  - intros t -> ->. reflexivity.
Qed.

Lemma construction_round_trip_witness :
  let st := {| self := Dataset_init "name" (VStr "T") (VStr "D") (VStr "R")
                         (VList ["x"]) (Some {| get_prefix := "tok" |})
                         None VNone;
               world := world (Sample.state (Sample.dataset None) ∅) |} in
  get_url_prefix st = (st, Ok (VStr "tok/name")).
Proof.
  intros st.
  exact (proj2 (proj2 (proj2 (proj2 (proj2
           (construction_round_trip "name" (VStr "T") (VStr "D") (VStr "R")
              (VList ["x"]) (Some {| get_prefix := "tok" |}) None VNone
              (world (Sample.state (Sample.dataset None) ∅)))))))
           {| get_prefix := "tok" |} eq_refl eq_refl).
Defined.

(** ** Materialising a dataset from its definition *)

(** X16.  [from_dict] reads the entries of the definition in a fixed order
    (identifier, title, description, reference, tags, then the two counters)
    and raises [KeyError] for the first one that is absent, calling nothing.
    On a complete definition it returns the constructed dataset with both
    counters taken from the definition. *)
Theorem from_dict_outcome (definition : DatasetDefinition)
    (tok : option Token) (interp : option Interpreter) (tok_info : pyval)
    (st : State) :
  (forall k,
      def_first_missing definition = Some k ->
      from_dict definition tok interp tok_info st
      = (st, Raise (KeyError (VStr k))))
  /\ (def_first_missing definition = None ->
      exists ds,
        from_dict definition tok interp tok_info st = (st, Ok ds)
        /\ Some (elements_count ds) = def_elements_count definition
        /\ Some (comments_count ds) = def_comments_count definition
        /\ data ds !! "title" = def_title definition
        /\ data ds !! "description" = def_description definition
        /\ data ds !! "reference" = def_reference definition
        /\ data ds !! "tags" = def_tags definition
        /\ binary_interpreter ds = interp).
Proof.
  destruct definition as [up ti de re ta cc ec].
  unfold def_first_missing, from_dict, def_get.
  cbn [def_url_prefix def_title def_description def_reference def_tags
       def_comments_count def_elements_count].
  destruct up as [up|]; [|split; [intros k [= <-]; reflexivity|discriminate]].
  destruct ti as [ti|]; [|split; [intros k [= <-]; reflexivity|discriminate]].
  destruct de as [de|]; [|split; [intros k [= <-]; reflexivity|discriminate]].
  destruct re as [re|]; [|split; [intros k [= <-]; reflexivity|discriminate]].
  destruct ta as [ta|]; [|split; [intros k [= <-]; reflexivity|discriminate]].
  destruct cc as [cc|]; [|split; [intros k [= <-]; reflexivity|discriminate]].
  destruct ec as [ec|]; [|split; [intros k [= <-]; reflexivity|discriminate]].
  split; [discriminate|]. intros _.
  eexists. split; [reflexivity|].
  destruct (Dataset_init_data up ti de re ta tok interp tok_info)
    as (Hti & Hde & Hta & Hre).
  cbn [with_elements_count with_comments_count elements_count comments_count
       data binary_interpreter].
  repeat split; assumption.
Qed.

Lemma from_dict_outcome_witness :
  from_dict Sample.partial_definition None None VNone
    (Sample.state (Sample.dataset None) ∅)
  = (Sample.state (Sample.dataset None) ∅,
     Raise (KeyError (VStr "description"))).
Proof.
  exact (proj1 (from_dict_outcome Sample.partial_definition None None VNone
                  (Sample.state (Sample.dataset None) ∅))
           "description" eq_refl).
Defined.

Lemma refreshed_data_init (s : string) (ti de re ta : pyval) tok interp
    tok_info :
  contains_char "/" s = true ->
  <["url_prefix" := VStr s]>
    (<["title" := ti]>
       (<["description" := de]>
          (<["reference" := re]> (<["tags" := ta]> (∅ : gmap string pyval)))))
  = data (Dataset_init s ti de re ta tok interp tok_info).
Proof.
  intros Hs. unfold Dataset_init. cbn [data]. rewrite Hs.
  apply map_eq. intros k.
  rewrite !lookup_insert. repeat case_decide; subst; try reflexivity;
    congruence.
Qed.

(** X17.  A dataset materialised by [from_dict] from a complete definition
    whose identifier holds a slash is a fixed point of [refresh] as long as
    the remote side still answers with that definition: the refresh succeeds
    and leaves every field of the object as it was. *)
Theorem refresh_after_from_dict (definition : DatasetDefinition)
    (s : string) (tok : option Token) (interp : option Interpreter)
    (tok_info : pyval) (w : World) :
  def_first_missing definition = None ->
  def_url_prefix definition = Some s ->
  contains_char "/" s = true ->
  dataset_record (remote w) (VStr s) = Success (definition_record definition) ->
  exists ds,
    from_dict definition tok interp tok_info {| self := ds; world := w |}
    = ({| self := ds; world := w |}, Ok ds)
    /\ refresh {| self := ds; world := w |}
       = (logged (EvRequest (GET_dataset (VStr s)))
            {| self := ds; world := w |}, Ok tt).
Proof.
  destruct definition as [up ti de re ta cc ec].
  unfold def_first_missing, definition_record.
  cbn [def_url_prefix def_title def_description def_reference def_tags
       def_comments_count def_elements_count].
  destruct up as [up|]; [|discriminate].
  destruct ti as [ti|]; [|discriminate].
  destruct de as [de|]; [|discriminate].
  destruct re as [re|]; [|discriminate].
  destruct ta as [ta|]; [|discriminate].
  destruct cc as [cc|]; [|discriminate].
  destruct ec as [ec|]; [|discriminate].
  intros _ [= ->] Hs Hd. cbn [fmap option_fmap option_map] in Hd.
  set (ds := with_elements_count ec
               (with_comments_count cc
                  (Dataset_init s ti de re ta tok interp tok_info))).
  exists ds. split; [reflexivity|].
  assert (Hp : data ds !! "url_prefix" = Some (VStr s)).
  { unfold ds. cbn [with_elements_count with_comments_count data].
    rewrite Dataset_init_prefix, Hs. reflexivity. }
  rewrite (refresh_ok {| self := ds; world := w |} _ (VStr s) ec cc (VStr s)
             ti de re ta Hp Hd);
    try (repeat (rewrite lookup_insert_ne by discriminate);
         apply lookup_insert_eq).
  unfold refreshed. cbn [self world]. f_equal. f_equal.
  rewrite (refreshed_data_init s ti de re ta tok interp tok_info Hs).
  reflexivity.
Qed.

Lemma refresh_after_from_dict_witness :
  exists ds,
    refresh {| self := ds;
               world := world (Sample.state (Sample.dataset None) ∅) |}
    = (logged (EvRequest (GET_dataset (VStr "u/other")))
         {| self := ds;
            world := world (Sample.state (Sample.dataset None) ∅) |}, Ok tt)
    /\ elements_count ds = VInt 6.
Proof.
  destruct (refresh_after_from_dict Sample.definition "u/other" None None
              VNone (world (Sample.state (Sample.dataset None) ∅))
              eq_refl eq_refl eq_refl)
    as (ds & Hfrom & Hrefresh).
  - reflexivity.
  - exists ds. split; [exact Hrefresh|].
    injection Hfrom as <-. reflexivity.
Defined.

(** ** Paths *)

Lemma contains_char_startswith c s :
  contains_char c s = false -> startswith_char c s = false.
Proof.
  destruct s as [|a s]; [reflexivity|]. simpl.
  destruct (Ascii.eqb a c); [discriminate | reflexivity].
Qed.

Lemma append_nonempty (a b : string) : b <> "" -> a +:+ b <> "".
Proof.
  destruct a as [|c a]; [rewrite append_empty_l; auto|].
  rewrite append_cons. discriminate.
Qed.

Lemma last_char_cons c s : s <> "" -> last_char (String c s) = last_char s.
Proof. destruct s; [congruence | reflexivity]. Qed.

Lemma last_char_append (a b : string) :
  b <> "" -> last_char (a +:+ b) = last_char b.
Proof.
  intros Hb. induction a as [|c a IH]; [reflexivity|].
  rewrite append_cons, last_char_cons by (apply append_nonempty; exact Hb).
  exact IH.
Qed.

Lemma all_slashes_last a c :
  last_char a = Some c -> c <> "/"%char -> all_slashes a = false.
Proof.
  intros Hl Hc. induction a as [|x a IH]; [discriminate|].
  destruct a as [|y a].
  - injection Hl as ->. simpl.
    rewrite (proj2 (Ascii.eqb_neq c "/") Hc). reflexivity.
  - cbn [all_slashes] in *. rewrite (IH Hl). apply andb_false_r.
Qed.

Lemma all_slashes_append (a b : string) :
  all_slashes (a +:+ b) = all_slashes a && all_slashes b.
Proof.
  induction a as [|c a IH]; [reflexivity|].
  rewrite append_cons. cbn [all_slashes]. rewrite IH, andb_assoc.
  reflexivity.
Qed.

Lemma join_plain a b c :
  last_char a = Some c -> c <> "/"%char -> contains_char "/" b = false ->
  os_path_join a b = a +:+ "/" +:+ b.
Proof.
  intros Hl Hc Hb. unfold os_path_join.
  rewrite (contains_char_startswith _ _ Hb), Hl.
  rewrite (proj2 (Ascii.eqb_neq c "/") Hc). reflexivity.
Qed.

Lemma contains_slash_append (a b : string) :
  contains_char "/" (a +:+ "/" +:+ b) = true.
Proof.
  induction a as [|c a IH].
  - reflexivity.
  - rewrite append_cons. cbn [contains_char]. rewrite IH.
    destruct (Ascii.eqb c "/"); reflexivity.
Qed.

Lemma upto_last_slash_join (a b : string) :
  contains_char "/" b = false ->
  upto_last_slash (a +:+ "/" +:+ b) = a +:+ "/".
Proof.
  intros Hb. induction a as [|c a IH].
  - rewrite !append_empty_l.
    change ("/" +:+ b) with (String "/" b). cbn [upto_last_slash].
    rewrite Hb. reflexivity.
  - rewrite (append_cons c a). cbn [upto_last_slash].
    rewrite contains_slash_append, IH. rewrite (append_cons c a). reflexivity.
Qed.

Lemma rstrip_slash_append a c :
  last_char a = Some c -> c <> "/"%char -> rstrip_slash (a +:+ "/") = a.
Proof.
  intros Hl Hc. induction a as [|x a IH]; [discriminate|].
  destruct a as [|y a].
  - injection Hl as ->. rewrite append_cons, append_empty_l.
    cbn. rewrite (proj2 (Ascii.eqb_neq c "/") Hc). reflexivity.
  - rewrite append_cons. cbn [rstrip_slash].
    rewrite (IH Hl). reflexivity.
Qed.

Lemma rstrip_slash_plain a c :
  last_char a = Some c -> c <> "/"%char -> rstrip_slash a = a.
Proof.
  intros Hl Hc. induction a as [|x a IH]; [discriminate|].
  destruct a as [|y a].
  - injection Hl as ->. cbn.
    rewrite (proj2 (Ascii.eqb_neq c "/") Hc). reflexivity.
  - pose proof (IH Hl) as E.
    change (match rstrip_slash (String y a) with
            | EmptyString => if Ascii.eqb x "/" then "" else String x ""
            | r => String x r
            end = String x (String y a)).
    rewrite E. reflexivity.
Qed.

Lemma eqb_empty_plain a c : last_char a = Some c -> String.eqb a "" = false.
Proof. destruct a; [discriminate | reflexivity]. Qed.

Lemma dirname_join a b c :
  last_char a = Some c -> c <> "/"%char -> contains_char "/" b = false ->
  os_path_dirname (a +:+ "/" +:+ b) = a.
Proof.
  intros Hl Hc Hb. unfold os_path_dirname.
  rewrite (upto_last_slash_join a b Hb), all_slashes_append,
    (all_slashes_last a c Hl Hc).
  cbn [andb]. apply (rstrip_slash_append a c Hl Hc).
Qed.

Lemma ancestors_from_app (a b : string) : forall seen,
  ancestors_from seen (a +:+ b)
  = ancestors_from seen a ++ ancestors_from (seen +:+ a) b.
Proof.
  induction a as [|x a IH]; intros seen.
  - rewrite append_empty_l, append_empty_r. reflexivity.
  - rewrite (append_cons x a b). cbn [ancestors_from].
    rewrite IH, <- app_assoc, append_assoc.
    rewrite (append_cons x "" a), append_empty_l. reflexivity.
Qed.

Lemma ancestors_from_name (b : string) : forall seen,
  contains_char "/" b = false -> ancestors_from seen b = [].
Proof.
  induction b as [|x b IH]; intros seen Hb; [reflexivity|].
  cbn [contains_char ancestors_from] in *.
  destruct (Ascii.eqb x "/"); [discriminate|].
  apply IH, Hb.
Qed.

(** The directories an entry directly under [a] goes through are those of
    [a], and [a] itself. *)
Lemma blocked_by_file_join (files : gmap string Node) a b c :
  last_char a = Some c -> c <> "/"%char -> contains_char "/" b = false ->
  blocked_by_file files (a +:+ "/" +:+ b)
  = blocked_by_file files a
    || match files !! a with
       | Some (File _) => true
       | _ => false
       end.
Proof.
  intros Hl Hc Hb. unfold blocked_by_file, ancestors.
  rewrite ancestors_from_app, append_empty_l, existsb_app.
  change ("/" +:+ b) with (String "/" b). cbn [ancestors_from].
  rewrite Hl, (proj2 (Ascii.eqb_neq c "/") Hc).
  rewrite (ancestors_from_name b _ Hb). cbn.
  rewrite orb_false_r. reflexivity.
Qed.

(** An entry directly under [a] can be created exactly when [a] is a
    directory. *)
Lemma parent_exists_join (files : gmap string Node) a b c :
  last_char a = Some c -> c <> "/"%char -> contains_char "/" b = false ->
  parent_exists files (a +:+ "/" +:+ b)
  = match files !! a with
    | Some Dir => true
    | _ => false
    end.
Proof.
  intros Hl Hc Hb. unfold parent_exists.
  rewrite (dirname_join a b c Hl Hc Hb), (all_slashes_last a c Hl Hc).
  reflexivity.
Qed.

Lemma append_inj_l (a x y : string) : a +:+ x = a +:+ y -> x = y.
Proof.
  induction a as [|c a IH]; [auto|].
  rewrite (append_cons c a x), (append_cons c a y). intros [= H]. auto.
Qed.

Lemma append_neq_self (a x : string) : x <> "" -> a +:+ x <> a.
Proof.
  intros Hx. induction a as [|c a IH].
  - rewrite append_empty_l. exact Hx.
  - rewrite append_cons. intros [= H]. auto.
Qed.

(** ** The metadata index *)

Lemma odict_set_fresh {V} (k : string) (v : V) (d : list (string * V)) :
  k ∉ map fst d -> odict_set k v d = d ++ [(k, v)].
Proof.
  induction d as [|[k' v'] d IH]; intros Hk; [reflexivity|].
  cbn [odict_set map fst] in *.
  apply not_elem_of_cons in Hk. destruct Hk as [Hne Hk].
  rewrite (proj2 (String.eqb_neq k' k)) by congruence.
  rewrite (IH Hk). reflexivity.
Qed.

Lemma odict_fold {A V} (key : A -> string) (val : A -> V) (l : list A) :
  forall acc,
    NoDup (map fst acc ++ map key l) ->
    fold_left (fun a s => odict_set (key s) (val s) a) l acc
    = acc ++ map (fun s => (key s, val s)) l.
Proof.
  induction l as [|s l IH]; intros acc Hnd; simpl.
  - rewrite app_nil_r. reflexivity.
  - apply NoDup_app in Hnd. destruct Hnd as (Hacc & Hdisj & Hl).
    apply NoDup_cons in Hl. destruct Hl as [Hs Hl].
    rewrite odict_set_fresh.
    + rewrite IH, <- app_assoc; [reflexivity|].
      rewrite map_app. cbn [map fst]. rewrite <- app_assoc.
      apply NoDup_app. split; [exact Hacc|]. split.
      * intros x Hx [->%list_elem_of_singleton | Hin]%elem_of_app.
        -- apply (Hdisj _ Hx). left.
        -- apply (Hdisj _ Hx). right. exact Hin.
      * apply NoDup_app. split; [apply NoDup_singleton|]. split.
        -- intros x ->%list_elem_of_singleton. exact Hs.
        -- exact Hl.
    + intros Hin. apply (Hdisj _ Hin). left.
Qed.

(** ** Export: the second pass *)

Lemma os_mkdir_ok path c st :
  last_char path = Some c -> c <> "/"%char ->
  fs (world st) !! path = None ->
  parent_exists (fs (world st)) path = true ->
  os_mkdir path st
  = ({| self := self st;
        world := {| remote := remote (world st);
                    fs := <[path := Dir]> (fs (world st));
                    trace := trace (world st) ++ [EvMkdir path] |} |},
     Ok tt).
Proof.
  intros Hl Hc Hf Hp. unfold os_mkdir. unfold_monad. simpl.
  rewrite (eqb_empty_plain _ _ Hl), (all_slashes_last _ _ Hl Hc),
    (rstrip_slash_plain _ _ Hl Hc), Hf, Hp.
  reflexivity.
Qed.

Lemma os_mkdir_exists path c st node :
  last_char path = Some c -> c <> "/"%char ->
  fs (world st) !! path = Some node ->
  os_mkdir path st = (logged (EvMkdir path) st, Raise (FileExistsError path)).
Proof.
  intros Hl Hc Hf. unfold os_mkdir. unfold_monad. simpl.
  rewrite (eqb_empty_plain _ _ Hl), (all_slashes_last _ _ Hl Hc),
    (rstrip_slash_plain _ _ Hl Hc), Hf.
  reflexivity.
Qed.

(** Without a directory to be created in, [os.mkdir] fails: on the regular
    file the path goes through, if there is one, and on the missing
    directory otherwise. *)
Lemma os_mkdir_orphan path c st :
  last_char path = Some c -> c <> "/"%char ->
  fs (world st) !! path = None ->
  parent_exists (fs (world st)) path = false ->
  os_mkdir path st
  = (logged (EvMkdir path) st,
     Raise (if blocked_by_file (fs (world st)) path
            then NotADirectoryError path
            else FileNotFoundError path)).
Proof.
  intros Hl Hc Hf Hp. unfold os_mkdir. unfold_monad. simpl.
  rewrite (eqb_empty_plain _ _ Hl), (all_slashes_last _ _ Hl Hc),
    (rstrip_slash_plain _ _ Hl Hc), Hf, Hp.
  destruct (blocked_by_file (fs (world st)) path); reflexivity.
Qed.

Lemma write_file_orphan path content st :
  fs (world st) !! path = None ->
  parent_exists (fs (world st)) path = false ->
  write_file path content st
  = (st,
     Raise (if blocked_by_file (fs (world st)) path
            then NotADirectoryError path
            else FileNotFoundError path)).
Proof.
  intros Hf Hp. unfold write_file, open_for_writing. unfold_monad. simpl.
  rewrite Hf, Hp.
  destruct (blocked_by_file (fs (world st)) path); reflexivity.
Qed.

(** With interpretation disabled the stored bytes come back as they are,
    whatever interpreter the element holds. *)
Lemma get_content_raw el st raw :
  content_bytes (remote (world st)) (e_id el) = Success raw ->
  Element_get_content el false st
  = (logged (EvRequest (GET_content (e_id el))) st, Ok raw).
Proof.
  intros H. unfold Element_get_content.
  rewrite (bind_ok _ _ _ _ _ (request_ok _ _ _ _ H)).
  destruct (e_interpreter el); reflexivity.
Qed.

Lemma fetch_contents_app cf l1 l2 st :
  fetch_contents cf (l1 ++ l2) st
  = (fetch_contents cf l1 ;;; fetch_contents cf l2) st.
Proof.
  revert st. induction l1 as [|[name values] l1 IH]; intros st.
  - reflexivity.
  - cbn [app fetch_contents]. unfold bind.
    destruct (getitem (VStr (m_id values)) st) as [st1 [el| |]];
      [|reflexivity ..].
    destruct (Element_get_content el false st1) as [st2 [raw| |]];
      [|reflexivity ..].
    destruct (write_file (os_path_join cf name) raw st2) as [st3 [[]| |]];
      [|reflexivity ..].
    rewrite IH. reflexivity.
Qed.

Lemma content_path_not_folder cf ext s : content_path cf ext s <> cf.
Proof. unfold content_path. apply append_neq_self. discriminate. Qed.

Lemma fetch_contents_run p cf ext record_of raw_of c :
  last_char cf = Some c -> c <> "/"%char ->
  forall l st,
    data (self st) !! "url_prefix" = Some p ->
    fs (world st) !! cf = Some Dir ->
    (forall s, s ∈ l ->
       element_record (remote (world st)) p (VStr (s_id s))
       = Success (record_of (s_id s))
       /\ content_bytes (remote (world st)) (s_id (record_of (s_id s)))
          = Success (raw_of (s_id s))
       /\ contains_char "/" (summary_entry ext s).1 = false
       /\ fs (world st) !! content_path cf ext s <> Some Dir) ->
    exists st',
      fetch_contents cf (map (summary_entry ext) l) st = (st', Ok tt)
      /\ self st' = self st
      /\ remote (world st') = remote (world st)
      /\ fs (world st') = with_contents cf ext raw_of (fs (world st)) l
      /\ trace (world st')
         = trace (world st)
           ++ concat (map (content_events p cf ext record_of raw_of) l).
Proof.
  intros Hl Hc. induction l as [|s l IH]; intros st Hp Hcf Hall.
  - exists st. simpl. rewrite app_nil_r. auto 6.
  - destruct (Hall s) as (Hrec & Hraw & Hname & Hnodir); [left|].
    pose proof (getitem_run (VStr (s_id s)) st) as Hget.
    rewrite Hp, Hrec in Hget.
    set (el := Element_from_dict (record_of (s_id s))
                 (binary_interpreter (self st))) in Hget.
    change (fetch_contents cf (map (summary_entry ext) (s :: l)))
      with (e <- getitem (VStr (s_id s)) ;;
            binary_content <- Element_get_content e false ;;
            write_file (os_path_join cf (summary_entry ext s).1)
              binary_content ;;;
            fetch_contents cf (map (summary_entry ext) l))%py.
    rewrite (bind_ok _ _ _ _ _ Hget).
    rewrite (bind_ok _ _ _ _ _
               (get_content_raw el (logged _ st) (raw_of (s_id s)) Hraw)).
    rewrite (join_plain cf _ c Hl Hc Hname).
    fold (content_path cf ext s).
    erewrite bind_ok; cycle 1.
    { apply write_file_ok; cbn [logged fs world].
      - rewrite (parent_exists_join _ cf _ c Hl Hc Hname), Hcf. reflexivity.
      - exact Hnodir. }
    cbn [logged self world remote fs trace].
    match goal with
    | |- exists st', fetch_contents _ _ ?s3 = _ /\ _ =>
        destruct (IH s3) as (st' & Hrun & Hs & Hr & Hf & Ht)
    end.
    + exact Hp.
    + cbn [fs world].
      rewrite lookup_insert_ne by apply content_path_not_folder.
      exact Hcf.
    + intros s' Hs'. cbn [fs world remote].
      destruct (Hall s') as (Hrec' & Hraw' & Hname' & Hnodir'); [by right|].
      repeat split; try assumption.
      rewrite lookup_insert. case_decide; [discriminate | exact Hnodir'].
    + exists st'. split; [exact Hrun|].
      rewrite Hs, Hr, Hf, Ht. cbn [self world remote fs trace].
      repeat split.
      cbn [map concat content_events]. rewrite <- !app_assoc. reflexivity.
Qed.

(** ** Export: the first pass *)

Lemma try_except_ok {A} (m : M A) handler st st' a :
  m st = (st', Ok a) -> try_except m handler st = (st', Ok a).
Proof. intros H. unfold try_except. rewrite H. reflexivity. Qed.

Lemma try_except_raise {A} (m : M A) handler st st' e :
  m st = (st', Raise e) -> try_except m handler st = handler e st'.
Proof. intros H. unfold try_except. rewrite H. reflexivity. Qed.

Lemma format_saver_supported json_dump (metadata_format folder : string) :
  metadata_format = "json" \/ metadata_format = "csv" ->
  exists saver,
    format_saver json_dump metadata_format = Some saver
    /\ forall index,
         saver folder index
         = write_file (os_path_join folder (metadata_name metadata_format))
             (String.list_byte_of_string
                (metadata_text json_dump metadata_format index)).
Proof.
  intros [-> | ->]; eexists; (split; [reflexivity|]); intros index;
    reflexivity.
Qed.

Lemma metadata_name_plain metadata_format :
  contains_char "/" (metadata_name metadata_format) = false.
Proof.
  unfold metadata_name. destruct (String.eqb metadata_format "csv");
    reflexivity.
Qed.

Lemma metadata_name_not_content folder metadata_format :
  folder +:+ "/" +:+ "content"
  <> folder +:+ "/" +:+ metadata_name metadata_format.
Proof.
  intros H. apply append_inj_l, append_inj_l in H. revert H.
  unfold metadata_name. destruct (String.eqb metadata_format "csv");
    discriminate.
Qed.

(** The folder, once the first [mkdir] has been attempted on a name that is
    free with its parent in place, or on an existing directory. *)
Lemma first_mkdir folder c st :
  last_char folder = Some c -> c <> "/"%char ->
  fs (world st) !! folder = Some Dir
  \/ (fs (world st) !! folder = None
      /\ parent_exists (fs (world st)) folder = true) ->
  exists st1,
    try_except (os_mkdir folder) (fun _ => ret tt) st = (st1, Ok tt)
    /\ self st1 = self st
    /\ remote (world st1) = remote (world st)
    /\ fs (world st1) = <[folder := Dir]> (fs (world st))
    /\ trace (world st1) = trace (world st) ++ [EvMkdir folder].
Proof.
  intros Hl Hc [Hdir | [Hfree Hparent]].
  - exists (logged (EvMkdir folder) st). split.
    + rewrite (try_except_raise _ _ _ _ _
                 (os_mkdir_exists _ _ _ _ Hl Hc Hdir)).
      reflexivity.
    + cbn [logged self world remote fs trace].
      rewrite (insert_id _ _ _ Hdir). auto.
  - eexists. split.
    + apply try_except_ok, (os_mkdir_ok _ c); assumption.
    + cbn [self world remote fs trace]. auto.
Qed.

(** The content folder: created, or kept when it is already a directory. *)
Lemma content_mkdir cf c st :
  last_char cf = Some c -> c <> "/"%char ->
  fs (world st) !! cf = Some Dir
  \/ (fs (world st) !! cf = None
      /\ parent_exists (fs (world st)) cf = true) ->
  exists st1,
    try_except (os_mkdir cf)
      (fun ex => match ex with
                 | FileExistsError _ => ret tt
                 | _ => raise ex
                 end) st = (st1, Ok tt)
    /\ self st1 = self st
    /\ remote (world st1) = remote (world st)
    /\ fs (world st1) = <[cf := Dir]> (fs (world st))
    /\ trace (world st1) = trace (world st) ++ [EvMkdir cf].
Proof.
  intros Hl Hc [Hdir | [Hfree Hparent]].
  - exists (logged (EvMkdir cf) st). split.
    + rewrite (try_except_raise _ _ _ _ _
                 (os_mkdir_exists _ _ _ _ Hl Hc Hdir)).
      reflexivity.
    + cbn [logged self world remote fs trace].
      rewrite (insert_id _ _ _ Hdir). auto.
  - eexists. split.
    + apply try_except_ok, (os_mkdir_ok _ c); assumption.
    + cbn [self world remote fs trace]. auto.
Qed.

(** Everything [save_to_folder] does before it fetches contents: the folder,
    one walk of the whole listing, the metadata file, the content folder. *)
Lemma save_to_folder_first_pass json_dump (pages : nat -> list Summary)
    (n : nat) (p : pyval) (st : State) (fuel : nat)
    (folder metadata_format : string) (elements_extension : option string)
    (c : ascii) :
  let all := all_pages pages n in
  let ext := normalize_extension elements_extension in
  let index := map (summary_entry ext) all in
  let cf := folder +:+ "/" +:+ "content" in
  let meta := folder +:+ "/" +:+ metadata_name metadata_format in
  let text := String.list_byte_of_string
                (metadata_text json_dump metadata_format index) in
  data (self st) !! "url_prefix" = Some p ->
  elements_page (remote (world st)) p None = Success (pages O) ->
  (forall k, elements_page (remote (world st)) p (Some (Z.of_nat (S k)))
             = Success (pages (S k))) ->
  (forall k, (k < n)%nat -> pages k <> []) ->
  pages n = [] ->
  (length all + 2 <= fuel)%nat ->
  metadata_format = "json" \/ metadata_format = "csv" ->
  NoDup (map (fun s => (summary_entry ext s).1) all) ->
  last_char folder = Some c -> c <> "/"%char ->
  (fs (world st) !! folder = Some Dir
   \/ (fs (world st) !! folder = None
       /\ parent_exists (fs (world st)) folder = true)) ->
  fs (world st) !! meta <> Some Dir ->
  (fs (world st) !! cf = Some Dir \/ fs (world st) !! cf = None) ->
  exists st4,
    save_to_folder json_dump fuel folder metadata_format elements_extension st
    = fetch_contents cf index st4
    /\ self st4 = self st
    /\ remote (world st4) = remote (world st)
    /\ fs (world st4)
       = <[cf := Dir]>
           (<[meta := File text]> (<[folder := Dir]> (fs (world st))))
    /\ trace (world st4)
       = trace (world st)
         ++ EvMkdir folder :: all_events pages n p
         ++ [EvWrite meta text; EvMkdir cf].
Proof.
  intros all ext index cf meta text Hp H0 Hk Hne Hlast Hfuel Hfmt Hnd
    Hl Hc Hfolder Hmeta Hcf.
  destruct (first_mkdir folder c st Hl Hc Hfolder)
    as (st1 & Hrun1 & Hs1 & Hr1 & Hf1 & Ht1).
  destruct (format_saver_supported json_dump metadata_format folder Hfmt)
    as (saver & Hsaver & Hsave).
  assert (Hgood : good (self st) (remote (world st)) st1) by (split; assumption).
  destruct (for_each_all pages n p (self st) (remote (world st))
              Hp H0 Hk Hne Hlast
              (fun e md => odict_set (element_filename ext e)
                             (element_metadata e) md)
              [] st1 fuel Hgood Hfuel)
    as (st2 & Hrun2 & Hs2 & Hr2 & Hf2 & Ht2).
  match type of Hrun2 with
  | _ = (_, Ok ?t) =>
      assert (Hindex : t = index)
        by exact (odict_fold (fun s => (summary_entry ext s).1)
                    (fun s => (summary_entry ext s).2) all [] Hnd)
  end.
  rewrite Hindex in Hrun2.
  assert (Hfolder2 : fs (world st2) !! folder = Some Dir).
  { rewrite Hf2, Hf1. apply lookup_insert_eq. }
  assert (Hne_meta : meta <> folder)
    by (apply append_neq_self; discriminate).
  assert (Hne_cf : cf <> folder)
    by (apply append_neq_self; discriminate).
  pose proof (metadata_name_not_content folder metadata_format) as Hne_cm.
  fold cf meta in Hne_cm.
  pose proof (write_file_ok meta text st2) as Hrun3.
  rewrite (parent_exists_join _ folder _ c Hl Hc
             (metadata_name_plain metadata_format)), Hfolder2 in Hrun3.
  specialize (Hrun3 eq_refl).
  rewrite Hf2, Hf1, lookup_insert_ne in Hrun3 by congruence.
  specialize (Hrun3 Hmeta).
  match type of Hrun3 with
  | _ = (?s, _) => set (st3 := s) in Hrun3
  end.
  destruct (content_mkdir cf "t" st3)
    as (st4 & Hrun4 & Hs4 & Hr4 & Hf4 & Ht4).
  { subst cf. rewrite last_char_append by discriminate. reflexivity. }
  { discriminate. }
  { subst st3. cbn [fs world].
    rewrite (parent_exists_join _ folder "content" c Hl Hc eq_refl).
    rewrite !lookup_insert_ne by congruence.
    rewrite lookup_insert_eq.
    destruct Hcf as [Hcf | Hcf]; [left | right; split; [|reflexivity]];
      exact Hcf. }
  exists st4. split.
  - unfold save_to_folder. fold ext.
    rewrite (bind_ok _ _ _ _ _ Hrun1), Hsaver.
    unfold iter. unfold bind at 1, ret at 1.
    rewrite (bind_ok _ _ _ _ _ Hrun2), Hsave.
    rewrite (join_plain folder _ c Hl Hc (metadata_name_plain _)).
    rewrite (bind_ok _ _ _ _ _ Hrun3).
    rewrite (join_plain folder "content" c Hl Hc eq_refl).
    rewrite (bind_ok _ _ _ _ _ Hrun4). reflexivity.
  - rewrite Hs4, Hr4, Hf4, Ht4. subst st3.
    cbn [self world remote fs trace].
    rewrite ?Hs2, ?Hr2, ?Hf2, ?Ht2, ?Hs1, ?Hr1, ?Hf1, ?Ht1.
    repeat split. rewrite <- !app_assoc. reflexivity.
Qed.

(** ** Export: the files written *)

Lemma with_contents_other cf ext raw_of q :
  forall l files,
    (forall s, s ∈ l -> content_path cf ext s <> q) ->
    with_contents cf ext raw_of files l !! q = files !! q.
Proof.
  induction l as [|a l IH]; intros files Hq; [reflexivity|].
  change (with_contents cf ext raw_of files (a :: l))
    with (with_contents cf ext raw_of
            (<[content_path cf ext a := File (raw_of (s_id a))]> files) l).
  rewrite IH by (intros s Hs; apply Hq; by right).
  apply lookup_insert_ne, Hq. left.
Qed.

Lemma with_contents_lookup cf ext raw_of :
  forall l files s,
    NoDup (map (fun s => (summary_entry ext s).1) l) ->
    s ∈ l ->
    with_contents cf ext raw_of files l !! content_path cf ext s
    = Some (File (raw_of (s_id s))).
Proof.
  induction l as [|a l IH]; intros files s Hnd Hin.
  - by apply elem_of_nil in Hin.
  - cbn [map] in Hnd. apply NoDup_cons in Hnd. destruct Hnd as [Ha Hnd].
    change (with_contents cf ext raw_of files (a :: l))
      with (with_contents cf ext raw_of
              (<[content_path cf ext a := File (raw_of (s_id a))]> files) l).
    destruct (decide (s ∈ l)) as [Hl | Hl]; [by apply IH|].
    apply elem_of_cons in Hin. destruct Hin as [-> | Hin]; [|done].
    rewrite with_contents_other; [apply lookup_insert_eq|].
    intros s' Hs' Heq. apply Ha.
    unfold content_path in Heq. apply append_inj_l, append_inj_l in Heq.
    rewrite <- Heq.
    apply (list_elem_of_fmap_2 (fun s => (summary_entry ext s).1)), Hs'.
Qed.

Lemma plain_name_no_separator name :
  plain_name name = true -> contains_char "/" name = false.
Proof.
  unfold plain_name. intros H.
  apply andb_prop in H as [H _]. apply andb_prop in H as [H _].
  apply andb_prop in H as [H _]. apply negb_true_iff. exact H.
Qed.

Lemma content_path_not_metadata folder ext metadata_format s :
  content_path (folder +:+ "/" +:+ "content") ext s
  <> folder +:+ "/" +:+ metadata_name metadata_format.
Proof.
  unfold content_path. rewrite !append_assoc.
  intros H. apply append_inj_l, append_inj_l in H. revert H.
  unfold metadata_name. destruct (String.eqb metadata_format "csv");
    discriminate.
Qed.

Lemma content_path_not_root folder ext s :
  content_path (folder +:+ "/" +:+ "content") ext s <> folder.
Proof.
  unfold content_path. rewrite !append_assoc.
  apply append_neq_self. discriminate.
Qed.

(** A full run of [save_to_folder]. *)
Lemma save_to_folder_run json_dump (pages : nat -> list Summary)
    (n : nat) (p : pyval) (record_of : string -> Summary)
    (raw_of : string -> list byte) (st : State) (fuel : nat)
    (folder metadata_format : string) (elements_extension : option string)
    (c : ascii) :
  let all := all_pages pages n in
  let ext := normalize_extension elements_extension in
  let cf := folder +:+ "/" +:+ "content" in
  let meta := folder +:+ "/" +:+ metadata_name metadata_format in
  let text := String.list_byte_of_string
                (metadata_text json_dump metadata_format
                   (map (summary_entry ext) all)) in
  data (self st) !! "url_prefix" = Some p ->
  elements_page (remote (world st)) p None = Success (pages O) ->
  (forall k, elements_page (remote (world st)) p (Some (Z.of_nat (S k)))
             = Success (pages (S k))) ->
  (forall k, (k < n)%nat -> pages k <> []) ->
  pages n = [] ->
  (length all + 2 <= fuel)%nat ->
  metadata_format = "json" \/ metadata_format = "csv" ->
  NoDup (map (fun s => (summary_entry ext s).1) all) ->
  (forall s, s ∈ all ->
     element_record (remote (world st)) p (VStr (s_id s))
     = Success (record_of (s_id s))
     /\ content_bytes (remote (world st)) (s_id (record_of (s_id s)))
        = Success (raw_of (s_id s))
     /\ plain_name (summary_entry ext s).1 = true
     /\ fs (world st) !! content_path cf ext s <> Some Dir) ->
  last_char folder = Some c -> c <> "/"%char ->
  (fs (world st) !! folder = Some Dir
   \/ (fs (world st) !! folder = None
       /\ parent_exists (fs (world st)) folder = true)) ->
  fs (world st) !! meta <> Some Dir ->
  (fs (world st) !! cf = Some Dir \/ fs (world st) !! cf = None) ->
  exists st',
    save_to_folder json_dump fuel folder metadata_format elements_extension st
    = (st', Ok tt)
    /\ self st' = self st
    /\ remote (world st') = remote (world st)
    /\ fs (world st')
       = with_contents cf ext raw_of
           (<[cf := Dir]>
              (<[meta := File text]> (<[folder := Dir]> (fs (world st)))))
           all
    /\ trace (world st')
       = trace (world st)
         ++ EvMkdir folder :: all_events pages n p
         ++ [EvWrite meta text; EvMkdir cf]
         ++ concat (map (content_events p cf ext record_of raw_of) all).
Proof.
  intros all ext cf meta text Hp H0 Hk Hne Hlast Hfuel Hfmt Hnd Hall
    Hl Hc Hfolder Hmeta Hcf.
  destruct (save_to_folder_first_pass json_dump pages n p st fuel folder
              metadata_format elements_extension c
              Hp H0 Hk Hne Hlast Hfuel Hfmt Hnd Hl Hc Hfolder Hmeta Hcf)
    as (st4 & Hrun & Hs4 & Hr4 & Hf4 & Ht4).
  fold all ext cf meta in Hrun, Hf4, Ht4. fold text in Hf4, Ht4.
  assert (Hlcf : last_char cf = Some "t"%char).
  { subst cf. rewrite last_char_append by discriminate. reflexivity. }
  destruct (fetch_contents_run p cf ext record_of raw_of "t"
              Hlcf ltac:(discriminate) all st4)
    as (st' & Hrun' & Hs' & Hr' & Hf' & Ht').
  - rewrite Hs4. exact Hp.
  - rewrite Hf4. apply lookup_insert_eq.
  - intros s Hs. destruct (Hall s Hs) as (Hrec & Hraw & Hname & Hnodir).
    rewrite Hr4, Hf4. repeat split; try assumption.
    + apply plain_name_no_separator, Hname.
    + rewrite lookup_insert_ne by (apply not_eq_sym, content_path_not_folder).
      rewrite lookup_insert. case_decide; [discriminate|].
      rewrite lookup_insert_ne
        by (apply not_eq_sym, content_path_not_root).
      exact Hnodir.
  - exists st'. rewrite Hrun, Hrun', Hs', Hr', Hf', Ht', Hs4, Hr4, Hf4, Ht4.
    repeat split.
    change (?a ++ ?x :: ?l) with (a ++ [x] ++ l).
    rewrite <- !app_assoc. reflexivity.
Qed.

(** X18. A successful export works in this order: it tries to create the
    folder, walks the whole listing once, writes the metadata file, creates
    the content folder, and only then fetches every indexed element by
    identifier and reads its content, one file at a time in listing order.
    The dataset object is left as it was. *)
Theorem export_order json_dump (pages : nat -> list Summary)
    (n : nat) (p : pyval) (record_of : string -> Summary)
    (raw_of : string -> list byte) (st : State) (fuel : nat)
    (folder metadata_format : string) (elements_extension : option string)
    (c : ascii) :
  let all := all_pages pages n in
  let ext := normalize_extension elements_extension in
  let cf := folder +:+ "/" +:+ "content" in
  let meta := folder +:+ "/" +:+ metadata_name metadata_format in
  let text := String.list_byte_of_string
                (metadata_text json_dump metadata_format
                   (map (summary_entry ext) all)) in
  data (self st) !! "url_prefix" = Some p ->
  elements_page (remote (world st)) p None = Success (pages O) ->
  (forall k, elements_page (remote (world st)) p (Some (Z.of_nat (S k)))
             = Success (pages (S k))) ->
  (forall k, (k < n)%nat -> pages k <> []) ->
  pages n = [] ->
  (length all + 2 <= fuel)%nat ->
  metadata_format = "json" \/ metadata_format = "csv" ->
  NoDup (map (fun s => (summary_entry ext s).1) all) ->
  (forall s, s ∈ all ->
     element_record (remote (world st)) p (VStr (s_id s))
     = Success (record_of (s_id s))
     /\ content_bytes (remote (world st)) (s_id (record_of (s_id s)))
        = Success (raw_of (s_id s))
     /\ plain_name (summary_entry ext s).1 = true
     /\ fs (world st) !! content_path cf ext s <> Some Dir) ->
  last_char folder = Some c -> c <> "/"%char ->
  (fs (world st) !! folder = Some Dir
   \/ (fs (world st) !! folder = None
       /\ parent_exists (fs (world st)) folder = true)) ->
  fs (world st) !! meta <> Some Dir ->
  (fs (world st) !! cf = Some Dir \/ fs (world st) !! cf = None) ->
  exists st',
    save_to_folder json_dump fuel folder metadata_format elements_extension st
    = (st', Ok tt)
    /\ self st' = self st
    /\ trace (world st')
       = trace (world st)
         ++ EvMkdir folder :: all_events pages n p
         ++ [EvWrite meta text; EvMkdir cf]
         ++ concat (map (content_events p cf ext record_of raw_of) all).
Proof.
  intros all ext cf meta text Hp H0 Hk Hne Hlast Hfuel Hfmt Hnd Hall
    Hl Hc Hfolder Hmeta Hcf.
  destruct (save_to_folder_run json_dump pages n p record_of raw_of st fuel
              folder metadata_format elements_extension c
              Hp H0 Hk Hne Hlast Hfuel Hfmt Hnd Hall Hl Hc Hfolder Hmeta Hcf)
    as (st' & Hrun & Hs & _ & _ & Ht).
  exists st'. auto.
Qed.

Lemma export_order_witness :
  exists st',
    save_to_folder Sample.json_dump 8 "out" "csv" (Some ".bin")
      (Sample.state (Sample.dataset (Some Sample.marker)) ∅)
    = (st', Ok tt)
    /\ self st' = Sample.dataset (Some Sample.marker).
Proof.
  destruct (export_order Sample.json_dump Sample.page 3 (VStr "u/d")
              Sample.record_of Sample.raw_of
              (Sample.state (Sample.dataset (Some Sample.marker)) ∅)
              8 "out" "csv" (Some ".bin") "t"%char)
    as (st' & Hrun & Hs & _).
  - reflexivity.
  - reflexivity.
  - intros k. reflexivity.
  - intros [|[|[|k]]] Hk; [discriminate .. | lia].
  - reflexivity.
  - simpl. lia.
  - right. reflexivity.
  - apply (bool_decide_unpack _). vm_compute. exact I.
  - intros s Hs. repeat split.
    + vm_compute in Hs.
      repeat (apply elem_of_cons in Hs as [-> | Hs]); try reflexivity.
      by apply elem_of_nil in Hs.
    + cbn [Sample.state fs world]. rewrite lookup_empty. discriminate.
  - reflexivity.
  - discriminate.
  - right. split; reflexivity.
  - cbn [Sample.state fs world]. rewrite lookup_empty. discriminate.
  - right. apply lookup_empty.
  - exists st'. split; [exact Hrun | exact Hs].
Defined.

(** X19. After a successful export the folder and its [content] sub-folder
    are directories, the metadata file holds the index of the whole listing
    in the chosen format, and [content/<file name>] holds, for every listed
    element, the bytes the content endpoint returned, not interpreted.  No
    other path is touched. *)
Theorem export_files json_dump (pages : nat -> list Summary)
    (n : nat) (p : pyval) (record_of : string -> Summary)
    (raw_of : string -> list byte) (st : State) (fuel : nat)
    (folder metadata_format : string) (elements_extension : option string)
    (c : ascii) :
  let all := all_pages pages n in
  let ext := normalize_extension elements_extension in
  let cf := folder +:+ "/" +:+ "content" in
  let meta := folder +:+ "/" +:+ metadata_name metadata_format in
  let text := String.list_byte_of_string
                (metadata_text json_dump metadata_format
                   (map (summary_entry ext) all)) in
  data (self st) !! "url_prefix" = Some p ->
  elements_page (remote (world st)) p None = Success (pages O) ->
  (forall k, elements_page (remote (world st)) p (Some (Z.of_nat (S k)))
             = Success (pages (S k))) ->
  (forall k, (k < n)%nat -> pages k <> []) ->
  pages n = [] ->
  (length all + 2 <= fuel)%nat ->
  metadata_format = "json" \/ metadata_format = "csv" ->
  NoDup (map (fun s => (summary_entry ext s).1) all) ->
  (forall s, s ∈ all ->
     element_record (remote (world st)) p (VStr (s_id s))
     = Success (record_of (s_id s))
     /\ content_bytes (remote (world st)) (s_id (record_of (s_id s)))
        = Success (raw_of (s_id s))
     /\ plain_name (summary_entry ext s).1 = true
     /\ fs (world st) !! content_path cf ext s <> Some Dir) ->
  last_char folder = Some c -> c <> "/"%char ->
  (fs (world st) !! folder = Some Dir
   \/ (fs (world st) !! folder = None
       /\ parent_exists (fs (world st)) folder = true)) ->
  fs (world st) !! meta <> Some Dir ->
  (fs (world st) !! cf = Some Dir \/ fs (world st) !! cf = None) ->
  exists st',
    save_to_folder json_dump fuel folder metadata_format elements_extension st
    = (st', Ok tt)
    /\ fs (world st') !! folder = Some Dir
    /\ fs (world st') !! meta = Some (File text)
    /\ fs (world st') !! cf = Some Dir
    /\ (forall s, s ∈ all ->
          fs (world st') !! content_path cf ext s
          = Some (File (raw_of (s_id s))))
    /\ (forall q, q <> folder -> q <> meta -> q <> cf ->
          (forall s, s ∈ all -> content_path cf ext s <> q) ->
          fs (world st') !! q = fs (world st) !! q).
Proof.
  intros all ext cf meta text Hp H0 Hk Hne Hlast Hfuel Hfmt Hnd Hall
    Hl Hc Hfolder Hmeta Hcf.
  destruct (save_to_folder_run json_dump pages n p record_of raw_of st fuel
              folder metadata_format elements_extension c
              Hp H0 Hk Hne Hlast Hfuel Hfmt Hnd Hall Hl Hc Hfolder Hmeta Hcf)
    as (st' & Hrun & _ & _ & Hf & _).
  fold all ext cf meta in Hf. fold text in Hf.
  assert (Hne_meta : meta <> folder)
    by (apply append_neq_self; discriminate).
  assert (Hne_cf : cf <> folder)
    by (apply append_neq_self; discriminate).
  pose proof (metadata_name_not_content folder metadata_format) as Hne_cm.
  fold cf meta in Hne_cm.
  exists st'. split; [exact Hrun|]. rewrite Hf.
  split; [|split; [|split; [|split]]].
  - rewrite with_contents_other
      by (intros s _; apply content_path_not_root).
    rewrite !lookup_insert_ne by congruence. apply lookup_insert_eq.
  - rewrite with_contents_other
      by (intros s _; apply content_path_not_metadata).
    rewrite lookup_insert_ne by congruence. apply lookup_insert_eq.
  - rewrite with_contents_other
      by (intros s _; apply content_path_not_folder).
    apply lookup_insert_eq.
  - intros s Hs. apply with_contents_lookup; assumption.
  - intros q Hq1 Hq2 Hq3 Hq4.
    rewrite with_contents_other by exact Hq4.
    rewrite !lookup_insert_ne by congruence. reflexivity.
Qed.

Lemma export_files_witness :
  exists st',
    save_to_folder Sample.json_dump 8 "out" "json" None
      (Sample.state (Sample.dataset (Some Sample.marker)) ∅)
    = (st', Ok tt)
    /\ fs (world st') !! "out/metadata.json"
       = Some (File (String.list_byte_of_string "{}"))
    /\ forall s, s ∈ all_pages Sample.page 3 ->
         fs (world st') !! content_path "out/content" None s
         = Some (File [x01; x02]).
Proof.
  destruct (export_files Sample.json_dump Sample.page 3 (VStr "u/d")
              Sample.record_of Sample.raw_of
              (Sample.state (Sample.dataset (Some Sample.marker)) ∅)
              8 "out" "json" None "t"%char)
    as (st' & Hrun & _ & Hmeta & _ & Hfiles & _).
  - reflexivity.
  - reflexivity.
  - intros k. reflexivity.
  - intros [|[|[|k]]] Hk; [discriminate .. | lia].
  - reflexivity.
  - simpl. lia.
  - left. reflexivity.
  - apply (bool_decide_unpack _). vm_compute. exact I.
  - intros s Hs. repeat split.
    + vm_compute in Hs.
      repeat (apply elem_of_cons in Hs as [-> | Hs]); try reflexivity.
      by apply elem_of_nil in Hs.
    + cbn [Sample.state fs world]. rewrite lookup_empty. discriminate.
  - reflexivity.
  - discriminate.
  - right. split; reflexivity.
  - cbn [Sample.state fs world]. rewrite lookup_empty. discriminate.
  - right. apply lookup_empty.
  - exists st'. split; [exact Hrun|]. split; [exact Hmeta | exact Hfiles].
Defined.

(** X20. For a folder given by a path made of names only (no empty, [.]
    or [..] component): when the folder is absent and its parent is not a
    directory, the failure of the first [mkdir] is swallowed: the whole listing is still
    walked, and the export fails only when the metadata file is opened, with
    [NotADirectoryError] for that file when the path of the folder goes
    through a regular file and with [FileNotFoundError] for it when the
    parent is missing.  Nothing is written. *)
Theorem export_folder_unusable json_dump (pages : nat -> list Summary)
    (n : nat) (p : pyval) (st : State) (fuel : nat)
    (folder metadata_format : string) (elements_extension : option string)
    (c : ascii) :
  let all := all_pages pages n in
  let meta := folder +:+ "/" +:+ metadata_name metadata_format in
  data (self st) !! "url_prefix" = Some p ->
  elements_page (remote (world st)) p None = Success (pages O) ->
  (forall k, elements_page (remote (world st)) p (Some (Z.of_nat (S k)))
             = Success (pages (S k))) ->
  (forall k, (k < n)%nat -> pages k <> []) ->
  pages n = [] ->
  (length all + 2 <= fuel)%nat ->
  metadata_format = "json" \/ metadata_format = "csv" ->
  plain_path folder = true ->
  last_char folder = Some c -> c <> "/"%char ->
  fs (world st) !! folder = None ->
  parent_exists (fs (world st)) folder = false ->
  fs (world st) !! meta = None ->
  exists st',
    save_to_folder json_dump fuel folder metadata_format elements_extension st
    = (st', Raise (if blocked_by_file (fs (world st)) folder
                   then NotADirectoryError meta
                   else FileNotFoundError meta))
    /\ self st' = self st
    /\ fs (world st') = fs (world st)
    /\ trace (world st')
       = trace (world st) ++ EvMkdir folder :: all_events pages n p.
Proof.
  intros all meta Hp H0 Hk Hne Hlast Hfuel Hfmt _ Hl Hc Hfree Hparent Hmeta.
  pose proof (try_except_raise _ (fun _ => ret tt) _ _ _
                (os_mkdir_orphan folder c st Hl Hc Hfree Hparent)) as Hrun1.
  change (ret tt (logged (EvMkdir folder) st))
    with (logged (EvMkdir folder) st, Ok tt) in Hrun1.
  destruct (format_saver_supported json_dump metadata_format folder Hfmt)
    as (saver & Hsaver & Hsave).
  assert (Hgood : good (self st) (remote (world st))
                    (logged (EvMkdir folder) st)) by (split; reflexivity).
  destruct (for_each_all pages n p (self st) (remote (world st))
              Hp H0 Hk Hne Hlast
              (fun e md =>
                 odict_set
                   (element_filename
                      (normalize_extension elements_extension) e)
                   (element_metadata e) md)
              [] _ fuel Hgood Hfuel)
    as (st2 & Hrun2 & Hs2 & Hr2 & Hf2 & Ht2).
  cbn [logged self fs trace world] in Hs2, Hf2, Ht2.
  assert (Hblocked : blocked_by_file (fs (world st2)) meta
                     = blocked_by_file (fs (world st)) folder).
  { rewrite Hf2.
    rewrite (blocked_by_file_join _ folder _ c Hl Hc
               (metadata_name_plain metadata_format)), Hfree.
    apply orb_false_r. }
  exists st2. split.
  - unfold save_to_folder.
    rewrite (bind_ok _ _ _ _ _ Hrun1), Hsaver.
    unfold iter. unfold bind at 1, ret at 1.
    rewrite (bind_ok _ _ _ _ _ Hrun2), Hsave.
    rewrite (join_plain folder _ c Hl Hc (metadata_name_plain _)).
    fold meta. rewrite <- Hblocked.
    apply bind_raise, write_file_orphan.
    + rewrite Hf2. exact Hmeta.
    + unfold meta.
      rewrite (parent_exists_join _ folder _ c Hl Hc
                 (metadata_name_plain metadata_format)).
      rewrite Hf2, Hfree. reflexivity.
  - rewrite Hs2, Hf2, Ht2. repeat split.
    rewrite <- app_assoc. reflexivity.
Qed.

Lemma export_folder_unusable_witness :
  (exists st',
     save_to_folder Sample.json_dump 8 "no/out" "json" None
       (Sample.state (Sample.dataset None) ∅)
     = (st', Raise (FileNotFoundError "no/out/metadata.json"))
     /\ fs (world st') = ∅)
  /\ (exists st',
        save_to_folder Sample.json_dump 8 "f/out" "json" None
          (Sample.state (Sample.dataset None) {[ "f" := File [x01] ]})
        = (st', Raise (NotADirectoryError "f/out/metadata.json"))
        /\ fs (world st') = {[ "f" := File [x01] ]}).
Proof.
  split.
  - destruct (export_folder_unusable Sample.json_dump Sample.page 3
                (VStr "u/d") (Sample.state (Sample.dataset None) ∅)
                8 "no/out" "json" None "t"%char)
      as (st' & Hrun & _ & Hf & _);
      [reflexivity | reflexivity | intros k; reflexivity
      | intros [|[|[|k]]] Hk; [discriminate .. | lia]
      | reflexivity | simpl; lia | left; reflexivity | reflexivity
      | reflexivity | discriminate | reflexivity | reflexivity
      | reflexivity |].
    exists st'. split; [exact Hrun | exact Hf].
  - destruct (export_folder_unusable Sample.json_dump Sample.page 3
                (VStr "u/d")
                (Sample.state (Sample.dataset None)
                   {[ "f" := File [x01] ]})
                8 "f/out" "json" None "t"%char)
      as (st' & Hrun & _ & Hf & _);
      [reflexivity | reflexivity | intros k; reflexivity
      | intros [|[|[|k]]] Hk; [discriminate .. | lia]
      | reflexivity | simpl; lia | left; reflexivity | reflexivity
      | reflexivity | discriminate | reflexivity | reflexivity
      | reflexivity |].
    exists st'. split; [exact Hrun | exact Hf].
Defined.

(** X21. When the keyed fetch of an indexed element fails during the second
    pass, the export stops with [KeyError] of that element's identifier.
    The metadata file and the contents of the elements indexed before it
    stay on disk; no later element is requested. *)
Theorem export_missing_element json_dump (pages : nat -> list Summary)
    (n : nat) (p : pyval) (record_of : string -> Summary)
    (raw_of : string -> list byte) (st : State) (fuel : nat)
    (folder metadata_format : string) (elements_extension : option string)
    (c : ascii) (done rest : list Summary) (s : Summary) (e : exn) :
  let all := all_pages pages n in
  let ext := normalize_extension elements_extension in
  let cf := folder +:+ "/" +:+ "content" in
  let meta := folder +:+ "/" +:+ metadata_name metadata_format in
  let text := String.list_byte_of_string
                (metadata_text json_dump metadata_format
                   (map (summary_entry ext) all)) in
  data (self st) !! "url_prefix" = Some p ->
  elements_page (remote (world st)) p None = Success (pages O) ->
  (forall k, elements_page (remote (world st)) p (Some (Z.of_nat (S k)))
             = Success (pages (S k))) ->
  (forall k, (k < n)%nat -> pages k <> []) ->
  pages n = [] ->
  (length all + 2 <= fuel)%nat ->
  metadata_format = "json" \/ metadata_format = "csv" ->
  NoDup (map (fun s => (summary_entry ext s).1) all) ->
  all = done ++ s :: rest ->
  (forall s', s' ∈ done ->
     element_record (remote (world st)) p (VStr (s_id s'))
     = Success (record_of (s_id s'))
     /\ content_bytes (remote (world st)) (s_id (record_of (s_id s')))
        = Success (raw_of (s_id s'))
     /\ plain_name (summary_entry ext s').1 = true
     /\ fs (world st) !! content_path cf ext s' <> Some Dir) ->
  element_record (remote (world st)) p (VStr (s_id s)) = Failure e ->
  last_char folder = Some c -> c <> "/"%char ->
  (fs (world st) !! folder = Some Dir
   \/ (fs (world st) !! folder = None
       /\ parent_exists (fs (world st)) folder = true)) ->
  fs (world st) !! meta <> Some Dir ->
  (fs (world st) !! cf = Some Dir \/ fs (world st) !! cf = None) ->
  exists st',
    save_to_folder json_dump fuel folder metadata_format elements_extension st
    = (st', Raise (KeyError (VStr (s_id s))))
    /\ fs (world st')
       = with_contents cf ext raw_of
           (<[cf := Dir]>
              (<[meta := File text]> (<[folder := Dir]> (fs (world st)))))
           done
    /\ trace (world st')
       = trace (world st)
         ++ EvMkdir folder :: all_events pages n p
         ++ [EvWrite meta text; EvMkdir cf]
         ++ concat (map (content_events p cf ext record_of raw_of) done)
         ++ [EvRequest (GET_element p (VStr (s_id s)))].
Proof.
  intros all ext cf meta text Hp H0 Hk Hne Hlast Hfuel Hfmt Hnd Hsplit Hdone
    Hfail Hl Hc Hfolder Hmeta Hcf.
  destruct (save_to_folder_first_pass json_dump pages n p st fuel folder
              metadata_format elements_extension c
              Hp H0 Hk Hne Hlast Hfuel Hfmt Hnd Hl Hc Hfolder Hmeta Hcf)
    as (st4 & Hrun & Hs4 & Hr4 & Hf4 & Ht4).
  fold all ext cf meta in Hrun, Hf4, Ht4. fold text in Hf4, Ht4.
  assert (Hlcf : last_char cf = Some "t"%char).
  { subst cf. rewrite last_char_append by discriminate. reflexivity. }
  destruct (fetch_contents_run p cf ext record_of raw_of "t"
              Hlcf ltac:(discriminate) done st4)
    as (st5 & Hrun5 & Hs5 & Hr5 & Hf5 & Ht5).
  - rewrite Hs4. exact Hp.
  - rewrite Hf4. apply lookup_insert_eq.
  - intros s' Hs'. destruct (Hdone s' Hs') as (Hrec & Hraw & Hname & Hnodir).
    rewrite Hr4, Hf4. repeat split; try assumption.
    + apply plain_name_no_separator, Hname.
    + rewrite lookup_insert_ne by (apply not_eq_sym, content_path_not_folder).
      rewrite lookup_insert. case_decide; [discriminate|].
      rewrite lookup_insert_ne
        by (apply not_eq_sym, content_path_not_root).
      exact Hnodir.
  - pose proof (getitem_run (VStr (s_id s)) st5) as Hget.
    rewrite Hs5, Hs4, Hp, Hr5, Hr4, Hfail in Hget.
    exists (logged (EvRequest (GET_element p (VStr (s_id s)))) st5).
    split; [|split].
    + rewrite Hrun, Hsplit, map_app, fetch_contents_app.
      rewrite (bind_ok _ _ _ _ _ Hrun5).
      change (fetch_contents cf (map (summary_entry ext) (s :: rest)))
        with (el <- getitem (VStr (s_id s)) ;;
              binary_content <- Element_get_content el false ;;
              write_file (os_path_join cf (summary_entry ext s).1)
                binary_content ;;;
              fetch_contents cf (map (summary_entry ext) rest))%py.
      apply bind_raise, Hget.
    + cbn [logged fs world]. rewrite Hf5, Hf4. reflexivity.
    + cbn [logged trace world]. rewrite Ht5, Ht4.
      rewrite <- !app_assoc. cbn [app]. rewrite <- !app_assoc.
      reflexivity.
Qed.

Lemma export_missing_element_witness :
  exists st',
    save_to_folder Sample.json_dump 8 "out" "csv" None
      {| self := Sample.dataset None;
         world := {| remote := Sample.gone; fs := ∅; trace := [] |} |}
    = (st', Raise (KeyError (VStr "c")))
    /\ fs (world st') !! "out/content/b" = Some (File [x01; x02])
    /\ fs (world st') !! "out/content/c" = None.
Proof.
  destruct (export_missing_element Sample.json_dump Sample.page 3
              (VStr "u/d") Sample.record_of Sample.raw_of
              {| self := Sample.dataset None;
                 world := {| remote := Sample.gone; fs := ∅;
                             trace := [] |} |}
              8 "out" "csv" None "t"%char
              [Sample.summary "a" "t"; Sample.summary "b" "t"]
              [Sample.summary "d" "t"; Sample.summary "e" "t";
               Sample.summary "f" "t"]
              (Sample.summary "c" "t") (TransportError "404"))
    as (st' & Hrun & Hf & _).
  - reflexivity.
  - reflexivity.
  - intros k. reflexivity.
  - intros [|[|[|k]]] Hk; [discriminate .. | lia].
  - reflexivity.
  - simpl. lia.
  - right. reflexivity.
  - apply (bool_decide_unpack _). vm_compute. exact I.
  - reflexivity.
  - intros s Hs.
    repeat (apply elem_of_cons in Hs as [-> | Hs]);
      [| |by apply elem_of_nil in Hs];
      (repeat split; [cbn [fs world]; rewrite lookup_empty; discriminate]).
  - reflexivity.
  - reflexivity.
  - discriminate.
  - right. split; reflexivity.
  - cbn [fs world]. rewrite lookup_empty. discriminate.
  - right. apply lookup_empty.
  - exists st'. split; [exact Hrun|]. rewrite Hf. split; reflexivity.
Defined.

(** ** Export: the csv table and the names *)

(** C8.  With the format csv, [save_to_folder] leaves in the folder a
    [metadata.csv] that is: the header row
    file_name,id,title,description,http_ref,tags, then one row per listed
    element, in listing order, holding its file name, its identifier, its
    title, its description, its reference and its tags joined by a
    semicolon.  Reading the text back under the quoting rules of the dialect
    gives exactly these rows with their six columns, whatever commas, quotes
    or line breaks the fields contain. *)
Theorem save_csv_table json_dump (pages : nat -> list Summary)
    (n : nat) (p : pyval) (record_of : string -> Summary)
    (raw_of : string -> list byte) (st : State) (fuel : nat)
    (folder : string) (elements_extension : option string) (c : ascii) :
  let all := all_pages pages n in
  let ext := normalize_extension elements_extension in
  let cf := folder +:+ "/" +:+ "content" in
  let path := folder +:+ "/" +:+ "metadata.csv" in
  let file_name (s : Summary) :=
    match ext with
    | None => s_id s
    | Some x => s_id s +:+ "." +:+ x
    end in
  let row (s : Summary) :=
    [file_name s; s_id s; s_title s; s_description s; s_http_ref s;
     join ";" (s_tags s)] in
  let text :=
    ("file_name,id,title,description,http_ref,tags" +:+ csv_line_end)
    +:+ csv_writerows (map row all) in
  data (self st) !! "url_prefix" = Some p ->
  elements_page (remote (world st)) p None = Success (pages O) ->
  (forall k, elements_page (remote (world st)) p (Some (Z.of_nat (S k)))
             = Success (pages (S k))) ->
  (forall k, (k < n)%nat -> pages k <> []) ->
  pages n = [] ->
  (length all + 2 <= fuel)%nat ->
  NoDup (map file_name all) ->
  (forall s, s ∈ all ->
     element_record (remote (world st)) p (VStr (s_id s))
     = Success (record_of (s_id s))
     /\ content_bytes (remote (world st)) (s_id (record_of (s_id s)))
        = Success (raw_of (s_id s))
     /\ plain_name (file_name s) = true
     /\ fs (world st) !! (cf +:+ "/" +:+ file_name s) <> Some Dir) ->
  last_char folder = Some c -> c <> "/"%char ->
  (fs (world st) !! folder = Some Dir
   \/ (fs (world st) !! folder = None
       /\ parent_exists (fs (world st)) folder = true)) ->
  fs (world st) !! path <> Some Dir ->
  (fs (world st) !! cf = Some Dir \/ fs (world st) !! cf = None) ->
  exists st',
    save_to_folder json_dump fuel folder "csv" elements_extension st
    = (st', Ok tt)
    /\ fs (world st') !! path = Some (File (String.list_byte_of_string text))
    /\ csv_rows text
       = ["file_name"; "id"; "title"; "description"; "http_ref"; "tags"]
         :: map row all.
Proof.
  intros all ext cf path file_name row text Hp H0 Hk Hne Hlast Hfuel Hnd Hall
    Hl Hc Hfolder Hpath Hcf.
  destruct (save_to_folder_run json_dump pages n p record_of raw_of st fuel
              folder "csv" elements_extension c
              Hp H0 Hk Hne Hlast Hfuel (or_intror eq_refl) Hnd Hall Hl Hc
              Hfolder Hpath Hcf)
    as (st' & Hrun & _ & _ & Hf & _).
  fold all ext cf in Hf.
  assert (Hrow : map csv_record (map (summary_entry ext) all) = map row all).
  { rewrite map_map. apply map_ext. intros s. reflexivity. }
  assert (Htext : text = csv_text (map (summary_entry ext) all)).
  { unfold text, csv_text. rewrite Hrow. reflexivity. }
  exists st'. split; [exact Hrun|]. split.
  - rewrite Hf, Htext.
    rewrite with_contents_other
      by (intros s _; apply (content_path_not_metadata folder ext "csv")).
    rewrite lookup_insert_ne
      by apply (metadata_name_not_content folder "csv").
    apply lookup_insert_eq.
  - rewrite Htext, <- Hrow. apply csv_text_rows.
Qed.

Lemma save_csv_table_witness :
  exists st',
    save_to_folder Sample.json_dump 3 "out" "csv" (Some ".txt")
      {| self := Sample.dataset None;
         world := {| remote := Sample.comma_server; fs := ∅;
                     trace := [] |} |}
    = (st', Ok tt)
    /\ csv_rows
         (("file_name,id,title,description,http_ref,tags" +:+ csv_line_end)
          +:+ csv_writerows [["a.txt"; "a"; "x,y"; "d"; "h"; "x;y"]])
       = [["file_name"; "id"; "title"; "description"; "http_ref"; "tags"];
          ["a.txt"; "a"; "x,y"; "d"; "h"; "x;y"]].
Proof.
  destruct (save_csv_table Sample.json_dump Sample.quoted 1 (VStr "u/d")
              Sample.record_of Sample.raw_of
              {| self := Sample.dataset None;
                 world := {| remote := Sample.comma_server; fs := ∅;
                             trace := [] |} |}
              3 "out" (Some ".txt") "t"%char)
    as (st' & Hrun & _ & Hrows).
  - reflexivity.
  - reflexivity.
  - intros k. reflexivity.
  - intros [|k] Hk; [discriminate | lia].
  - reflexivity.
  - simpl. lia.
  - apply (bool_decide_unpack _). vm_compute. exact I.
  - intros s Hs. repeat split.
    + vm_compute in Hs.
      repeat (apply elem_of_cons in Hs as [-> | Hs]); try reflexivity.
      by apply elem_of_nil in Hs.
    + cbn [fs world]. rewrite lookup_empty. discriminate.
  - reflexivity.
  - discriminate.
  - right. split; reflexivity.
  - cbn [fs world]. rewrite lookup_empty. discriminate.
  - right. apply lookup_empty.
  - exists st'. split; [exact Hrun | exact Hrows].
Defined.

(** C10, as the code has it.  With an extension that starts with a dot,
    [save_to_folder] drops exactly its first character: the keys of the
    index it writes and the names of the content files are
    [<id>.<rest of the extension>], and nothing else is written.  The whole
    export then coincides with the one obtained by passing the extension
    without its leading dot, provided what remains does not itself start
    with a dot. *)
Theorem save_to_folder_leading_dot json_dump (pages : nat -> list Summary)
    (n : nat) (p : pyval) (record_of : string -> Summary)
    (raw_of : string -> list byte) (st : State) (fuel : nat)
    (folder metadata_format e : string) (c : ascii) :
  let all := all_pages pages n in
  let name (s : Summary) := s_id s +:+ "." +:+ drop_first e in
  let entry (s : Summary) :=
    (name s,
     {| m_id := s_id s; m_title := s_title s;
        m_description := s_description s; m_http_ref := s_http_ref s;
        m_tags := s_tags s |}) in
  let cf := folder +:+ "/" +:+ "content" in
  let meta := folder +:+ "/" +:+ metadata_name metadata_format in
  let text := String.list_byte_of_string
                (metadata_text json_dump metadata_format (map entry all)) in
  startswith_char "." e = true ->
  data (self st) !! "url_prefix" = Some p ->
  elements_page (remote (world st)) p None = Success (pages O) ->
  (forall k, elements_page (remote (world st)) p (Some (Z.of_nat (S k)))
             = Success (pages (S k))) ->
  (forall k, (k < n)%nat -> pages k <> []) ->
  pages n = [] ->
  (length all + 2 <= fuel)%nat ->
  metadata_format = "json" \/ metadata_format = "csv" ->
  NoDup (map name all) ->
  (forall s, s ∈ all ->
     element_record (remote (world st)) p (VStr (s_id s))
     = Success (record_of (s_id s))
     /\ content_bytes (remote (world st)) (s_id (record_of (s_id s)))
        = Success (raw_of (s_id s))
     /\ plain_name (name s) = true
     /\ fs (world st) !! (cf +:+ "/" +:+ name s) <> Some Dir) ->
  last_char folder = Some c -> c <> "/"%char ->
  (fs (world st) !! folder = Some Dir
   \/ (fs (world st) !! folder = None
       /\ parent_exists (fs (world st)) folder = true)) ->
  fs (world st) !! meta <> Some Dir ->
  (fs (world st) !! cf = Some Dir \/ fs (world st) !! cf = None) ->
  (exists st',
     save_to_folder json_dump fuel folder metadata_format (Some e) st
     = (st', Ok tt)
     /\ fs (world st') !! meta = Some (File text)
     /\ (forall s, s ∈ all ->
           fs (world st') !! (cf +:+ "/" +:+ name s)
           = Some (File (raw_of (s_id s))))
     /\ (forall q, q <> folder -> q <> meta -> q <> cf ->
           (forall s, s ∈ all -> cf +:+ "/" +:+ name s <> q) ->
           fs (world st') !! q = fs (world st) !! q))
  /\ (startswith_char "." (drop_first e) = false ->
      save_to_folder json_dump fuel folder metadata_format (Some e) st
      = save_to_folder json_dump fuel folder metadata_format
          (Some (drop_first e)) st).
Proof.
  intros all name entry cf meta text He Hp H0 Hk Hne Hlast Hfuel Hfmt Hnd
    Hall Hl Hc Hfolder Hmeta Hcf.
  assert (Hn : normalize_extension (Some e) = Some (drop_first e))
    by (unfold normalize_extension; rewrite He; reflexivity).
  split.
  - pose proof (save_to_folder_run json_dump pages n p record_of raw_of st
                  fuel folder metadata_format (Some e) c) as Hrun.
    cbv zeta in Hrun. rewrite Hn in Hrun.
    destruct (Hrun Hp H0 Hk Hne Hlast Hfuel Hfmt Hnd Hall Hl Hc Hfolder
                Hmeta Hcf)
      as (st' & Hrun' & _ & _ & Hf & _).
    fold all cf meta in Hf.
    change (map (summary_entry (Some (drop_first e))) all)
      with (map entry all) in Hf.
    fold text in Hf.
    pose proof (metadata_name_not_content folder metadata_format) as Hne_cm.
    fold cf meta in Hne_cm.
    assert (Hne_meta : meta <> folder)
      by (apply append_neq_self; discriminate).
    assert (Hne_cf : cf <> folder)
      by (apply append_neq_self; discriminate).
    exists st'. split; [exact Hrun'|]. rewrite Hf.
    split; [|split].
    + rewrite with_contents_other
        by (intros s _; apply content_path_not_metadata).
      rewrite lookup_insert_ne by congruence. apply lookup_insert_eq.
    + intros s Hs.
      apply (with_contents_lookup cf (Some (drop_first e)) raw_of all _ s
               Hnd Hs).
    + intros q Hq1 Hq2 Hq3 Hq4.
      rewrite with_contents_other by exact Hq4.
      rewrite !lookup_insert_ne by congruence. reflexivity.
  - intros Hrest. unfold save_to_folder. rewrite Hn.
    unfold normalize_extension. rewrite Hrest. reflexivity.
Qed.

Lemma save_to_folder_leading_dot_witness :
  exists st',
    save_to_folder Sample.json_dump 8 "out" "json" (Some ".txt")
      (Sample.state (Sample.dataset None) ∅)
    = (st', Ok tt)
    /\ forall s, s ∈ all_pages Sample.page 3 ->
         fs (world st') !! ("out/content" +:+ "/" +:+ s_id s +:+ ".txt")
         = Some (File [x01; x02]).
Proof.
  destruct (save_to_folder_leading_dot Sample.json_dump Sample.page 3
              (VStr "u/d") Sample.record_of Sample.raw_of
              (Sample.state (Sample.dataset None) ∅)
              8 "out" "json" ".txt" "t"%char)
    as ((st' & Hrun & _ & Hfiles & _) & _).
  - reflexivity.
  - reflexivity.
  - reflexivity.
  - intros k. reflexivity.
  - intros [|[|[|k]]] Hk; [discriminate .. | lia].
  - reflexivity.
  - simpl. lia.
  - left. reflexivity.
  - apply (bool_decide_unpack _). vm_compute. exact I.
  - intros s Hs. repeat split.
    + vm_compute in Hs.
      repeat (apply elem_of_cons in Hs as [-> | Hs]); try reflexivity.
      by apply elem_of_nil in Hs.
    + cbn [Sample.state fs world]. rewrite lookup_empty. discriminate.
  - reflexivity.
  - discriminate.
  - right. split; reflexivity.
  - cbn [Sample.state fs world]. rewrite lookup_empty. discriminate.
  - right. apply lookup_empty.
  - exists st'. split; [exact Hrun | exact Hfiles].
Defined.

(** C10 as stated fails: an export with the extension [..txt] names the
    content files [<id>..txt], while an export with that extension without
    its leading dot, [.txt], which loses a dot of its own, names them
    [<id>.txt]. *)
Lemma leading_dots_not_idempotent :
  let st := Sample.state (Sample.dataset None) ∅ in
  let dotted := save_to_folder Sample.json_dump 8 "out" "json"
                  (Some "..txt") st in
  let undotted := save_to_folder Sample.json_dump 8 "out" "json"
                    (Some ".txt") st in
  snd dotted = Ok tt
  /\ snd undotted = Ok tt
  /\ fs (world (fst dotted)) !! "out/content/a..txt"
     = Some (File [x01; x02])
  /\ fs (world (fst undotted)) !! "out/content/a..txt" = None
  /\ fs (world (fst undotted)) !! "out/content/a.txt"
     = Some (File [x01; x02]).
Proof. vm_compute. auto 6. Qed.
